(** * GAN-ster: the Q&A platform's notification pipeline, tagging, moderation,
    search and answer handlers, embedded in Rocq.

    The handlers under [routes/] and the helpers under [models/] and
    [krishm/] are translated function by function.  A MongoDB collection is
    the list of its documents in insertion order; a handler is a computation
    in a state-and-exception monad over the database, so that writes made
    before an exception stay in place, as they do in the service.  Python
    [str] values are Rocq strings read as sequences of code points below 256;
    Python [int] is [Z]; a classifier score is a rational number.  An
    [_id] is the string that [str] prints for it; a request can spell it in
    another way, and [ObjectId] reads every spelling as the same id. *)

From Stdlib Require Import ZArith QArith Ascii String List Bool Lia.
From stdpp Require Import base list sorting strings gmap.

Local Open Scope Z_scope.
Local Close Scope Q_scope.

(** ** Python string primitives *)

Module PyStr.

Definition code (c : ascii) : N := N_of_ascii c.

Definition in_range (lo hi : N) (c : ascii) : bool :=
  ((lo <=? code c) && (code c <=? hi))%N.

(** [str.isspace] on one character, which is also what [\s], [split()] and
    [strip()] use. *)
Definition is_space (c : ascii) : bool :=
  in_range 9 13 c || in_range 28 32 c || (code c =? 133)%N || (code c =? 160)%N.

Definition is_upper (c : ascii) : bool :=
  in_range 65 90 c || in_range 192 214 c || in_range 216 222 c.

Definition is_alpha (c : ascii) : bool :=
  in_range 65 90 c || in_range 97 122 c
  || (code c =? 170)%N || (code c =? 181)%N || (code c =? 186)%N
  || in_range 192 214 c || in_range 216 246 c || in_range 248 255 c.

(** [str.isdigit] on one character: the decimal digits and the superscripts. *)
Definition is_digit (c : ascii) : bool :=
  in_range 48 57 c || in_range 178 179 c || (code c =? 185)%N.

(** [str.isalnum] on one character; the vulgar fractions are numeric. *)
Definition is_alnum (c : ascii) : bool :=
  is_alpha c || is_digit c || in_range 188 190 c.

(** The class [\w] of the [re] module on [str] patterns. *)
Definition is_word (c : ascii) : bool :=
  is_alnum c || (code c =? 95)%N.

Definition lower_char (c : ascii) : ascii :=
  if is_upper c then ascii_of_N (code c + 32) else c.

Fixpoint map (f : ascii -> ascii) (s : string) : string :=
  match s with
  | EmptyString => EmptyString
  | String c r => String (f c) (map f r)
  end.

Fixpoint all (p : ascii -> bool) (s : string) : bool :=
  match s with
  | EmptyString => true
  | String c r => p c && all p r
  end.

Definition is_empty (s : string) : bool :=
  match s with EmptyString => true | _ => false end.

Definition len (s : string) : Z := Z.of_nat (String.length s).

(** [s.lower()].  On code points below 256 it works character by
    character and keeps the length; the characters that it expands (the
    first is U+0130) lie outside the strings of this development. *)
Definition lower (s : string) : string := map lower_char s.

Definition isdigit (s : string) : bool := negb (is_empty s) && all is_digit s.

Definition isalpha (s : string) : bool := negb (is_empty s) && all is_alpha s.

Fixpoint lstrip (s : string) : string :=
  match s with
  | EmptyString => EmptyString
  | String c r => if is_space c then lstrip r else s
  end.

Fixpoint rstrip (s : string) : string :=
  match s with
  | EmptyString => EmptyString
  | String c r =>
      match rstrip r with
      | EmptyString => if is_space c then EmptyString else String c EmptyString
      | r' => String c r'
      end
  end.

Definition strip (s : string) : string := rstrip (lstrip s).

(** [s.split()]: the maximal runs of characters that are not whitespace. *)
Definition word_ahead (s : string) : bool :=
  match s with
  | EmptyString => false
  | String c _ => negb (is_space c)
  end.

Fixpoint split (s : string) : list string :=
  match s with
  | EmptyString => []
  | String c r =>
      let ws := split r in
      if is_space c then ws
      else if word_ahead r
           then match ws with
                | w :: ws' => String c w :: ws'
                | [] => [String c EmptyString]
                end
           else String c EmptyString :: ws
  end.

Fixpoint startswith (prefix s : string) : bool :=
  match prefix, s with
  | EmptyString, _ => true
  | String a p, String b r => Ascii.eqb a b && startswith p r
  | String _ _, EmptyString => false
  end.

(** [sub in s] for strings. *)
Fixpoint contains (sub s : string) : bool :=
  startswith sub s ||
  match s with
  | EmptyString => false
  | String _ r => contains sub r
  end.

Definition no_whitespace (s : string) : Prop := all (fun c => negb (is_space c)) s = true.

Definition is_lowercase (s : string) : Prop := lower s = s.

End PyStr.

(** ** The regular expressions the code uses *)

Module PyRe.
Import PyStr.

(** The longest prefix matched by [\w*]. *)
Fixpoint word_prefix (s : string) : string :=
  match s with
  | EmptyString => EmptyString
  | String c r => if is_word c then String c (word_prefix r) else EmptyString
  end.

(** [re.findall(r'@(\w+)', text)].  A match starts at every [@] that a word
    character follows and captures the whole run; the characters of the run
    are no [@], so scanning on from the next character finds what the
    search resumed after the match finds. *)
Fixpoint findall_at_word (text : string) : list string :=
  match text with
  | EmptyString => []
  | String c r =>
      if Ascii.eqb c "@"
      then match word_prefix r with
           | EmptyString => findall_at_word r
           | w => w :: findall_at_word r
           end
      else findall_at_word r
  end.

(** Whether [>] occurs before the next line feed: [.] matches no line feed. *)
Fixpoint closes (s : string) : bool :=
  match s with
  | EmptyString => false
  | String c r =>
      if Ascii.eqb c ">" then true
      else if Ascii.eqb c "010" then false
      else closes r
  end.

(** [re.sub(r"<.*?>", "", text)]; [inside] says that a match is open. *)
Fixpoint sub_tags (inside : bool) (text : string) : string :=
  match text with
  | EmptyString => EmptyString
  | String c r =>
      if inside then sub_tags (negb (Ascii.eqb c ">")) r
      else if Ascii.eqb c "<" && closes r then sub_tags true r
      else String c (sub_tags false r)
  end.

(** [re.sub(r"[^\w\s]", "", text)]. *)
Fixpoint sub_non_word_space (text : string) : string :=
  match text with
  | EmptyString => EmptyString
  | String c r =>
      if is_word c || is_space c then String c (sub_non_word_space r)
      else sub_non_word_space r
  end.

End PyRe.

(** ** Documents and collections *)

(** [bson.ObjectId] is not part of the repository.  [ObjectId(s)] raises on
    a string that is no id ([is_valid]); of a string that is one, it is the
    id, which [str] prints as [oid_str s].  Several strings can spell one
    id: [bson] reads 24 hexadecimal digits in either case and prints them in
    lower case.  A stored [_id] is held as the string that [str] prints for
    it; the other fields hold whatever string the handler wrote. *)
Class Bson := {
  is_valid : string -> bool;
  oid_str : string -> string
}.

Module bson.

Definition is_hex (c : ascii) : bool :=
  PyStr.in_range 48 57 c || PyStr.in_range 65 70 c || PyStr.in_range 97 102 c.

(** The ids of [bson]: 24 hexadecimal digits, printed in lower case. *)
Definition hex_ids : Bson :=
  {| is_valid := fun s => (String.length s =? 24)%nat && PyStr.all is_hex s;
     oid_str := PyStr.lower |}.

End bson.

Inductive NotificationType := ANSWER | COMMENT | MENTION | ACCEPTED_ANSWER.

Definition NotificationType_value (t : NotificationType) : string :=
  match t with
  | ANSWER => "answer"
  | COMMENT => "comment"
  | MENTION => "mention"
  | ACCEPTED_ANSWER => "accepted_answer"
  end.

Record User := {
  u_id : string;
  u_username : string;
  u_email : string;
  u_role : string
}.

Record Question := {
  q_id : string;
  q_title : string;
  q_description : string;
  q_tags : list string;
  q_user_id : string;
  q_answers : list string;
  q_accepted_answer : option string;
  q_ai_enhanced : bool;
  q_toxic_score : Q
}.

Record Answer := {
  a_id : string;
  a_question_id : string;
  a_user_id : string;
  a_content : string;
  a_votes : Z;
  a_is_accepted : bool;
  a_ai_generated : bool;
  a_toxic_score : Q
}.

(** The [type] field holds [notification_type.value]; the enumeration
    constant stands for it. *)
Record Notification := {
  n_user_id : string;
  n_from_user_id : string;
  n_type : NotificationType;
  n_message : string;
  n_question_id : option string;
  n_answer_id : option string;
  n_read : bool
}.

#[export] Instance NotificationType_eq_dec : EqDecision NotificationType.
Proof. solve_decision. Defined.

#[export] Instance User_eq_dec : EqDecision User.
Proof. solve_decision. Defined.

#[export] Instance Notification_eq_dec : EqDecision Notification.
Proof. solve_decision. Defined.

(** What [await notifications_collection.insert_one(doc)] can do: store the
    document and return; raise with nothing stored; or store the document
    and raise while the result is awaited. *)
Inductive write_outcome := Stored | Refused | StoredThenRaised.

(** Modelled from the spec: [database.py], which hands out the collections,
    is not among the sources.  The spec has a document database with simple
    document inserts and notifications written under partial failure: the
    four collections, and the outcomes the driver gives to the coming
    awaited inserts into [notifications], first one first (when none is
    listed the write is stored).

    The handlers use what [find_one], [insert_one], [update_one] and
    [count_documents] return without awaiting it, so the collections they
    run on are synchronous ones; on such a collection the one awaited call,
    [await notifications_collection.insert_one(doc)], stores the document
    and then raises, since the result of the insert cannot be awaited: the
    outcome [StoredThenRaised]. *)
Record Database := {
  users : list User;
  questions : list Question;
  answers : list Answer;
  notifications : list Notification;
  driver : list write_outcome
}.

Module Mongo.

Definition find_one {A} (p : A -> bool) (coll : list A) : option A :=
  List.find p coll.

Definition insert_one {A} (doc : A) (coll : list A) : list A := coll ++ [doc].

(** The first matching document is updated. *)
Fixpoint update_one {A} (p : A -> bool) (f : A -> A) (coll : list A) : list A :=
  match coll with
  | [] => []
  | doc :: rest => if p doc then f doc :: rest else doc :: update_one p f rest
  end.

Definition update_many {A} (p : A -> bool) (f : A -> A) (coll : list A) : list A :=
  List.map (fun doc => if p doc then f doc else doc) coll.

Fixpoint delete_one {A} (p : A -> bool) (coll : list A) : list A :=
  match coll with
  | [] => []
  | doc :: rest => if p doc then rest else doc :: delete_one p rest
  end.

Definition delete_many {A} (p : A -> bool) (coll : list A) : list A :=
  List.filter (fun doc => negb (p doc)) coll.

End Mongo.

Definition set_questions (qs : list Question) (db : Database) : Database :=
  {| users := users db; questions := qs; answers := answers db;
     notifications := notifications db; driver := driver db |}.

Definition set_answers (xs : list Answer) (db : Database) : Database :=
  {| users := users db; questions := questions db; answers := xs;
     notifications := notifications db; driver := driver db |}.

Definition set_notifications (ns : list Notification) (ws : list write_outcome)
    (db : Database) : Database :=
  {| users := users db; questions := questions db; answers := answers db;
     notifications := ns; driver := ws |}.

(** ** Handlers: state and exceptions *)

Inductive exn :=
| HTTPException (status_code : Z) (detail : string)
| Exception (what : string).

Inductive result (A : Type) :=
| Return (a : A)
| Raise (e : exn).
Arguments Return {A} a.
Arguments Raise {A} e.

Definition Handler (A : Type) : Type := Database -> result A * Database.

#[export] Instance Handler_ret : MRet Handler := fun A a db => (Return a, db).

#[export] Instance Handler_bind : MBind Handler := fun A B k m db =>
  match m db with
  | (Return a, db') => k a db'
  | (Raise e, db') => (Raise e, db')
  end.

Definition raise {A} (e : exn) : Handler A := fun db => (Raise e, db).

(** [try: body except: handler e]. *)
Definition try_except {A} (body : Handler A) (handler : exn -> Handler A) : Handler A :=
  fun db =>
    match body db with
    | (Return a, db') => (Return a, db')
    | (Raise e, db') => handler e db'
    end.

Definition read {A} (f : Database -> A) : Handler A := fun db => (Return (f db), db).

Definition write (f : Database -> Database) : Handler unit := fun db => (Return tt, f db).

(** [ObjectId(s)], as the string that [str] prints for it. *)
Definition ObjectId `{Bson} (s : string) : Handler string :=
  if is_valid s then mret (oid_str s) else raise (Exception "InvalidId").

(** The query [{"_id": oid}]. *)
Definition by_id {A} (id_of : A -> string) (oid : string) : A -> bool :=
  fun doc => String.eqb (id_of doc) oid.

(** ** routes/notification.py *)

Module notification.
Section Triggers.
Context `{Bson}.

(** [await notifications_collection.insert_one(notification_doc)]. *)
Definition await_insert_one (doc : Notification) : Handler unit := fun db =>
  match driver db with
  | [] =>
      (Return tt, set_notifications (Mongo.insert_one doc (notifications db)) [] db)
  | Stored :: ws =>
      (Return tt, set_notifications (Mongo.insert_one doc (notifications db)) ws db)
  | Refused :: ws =>
      (Raise (Exception "insert_one"), set_notifications (notifications db) ws db)
  | StoredThenRaised :: ws =>
      (Raise (Exception "await"),
       set_notifications (Mongo.insert_one doc (notifications db)) ws db)
  end.

Definition create_notification (user_id from_user_id : string)
    (notification_type : NotificationType) (message : string)
    (question_id answer_id : option string) : Handler unit :=
  let notification_doc :=
    {| n_user_id := user_id;
       n_from_user_id := from_user_id;
       n_type := notification_type;
       n_message := message;
       n_question_id := question_id;
       n_answer_id := answer_id;
       n_read := false |} in
  if negb (String.eqb user_id from_user_id)
  then await_insert_one notification_doc
  else mret tt.

Definition extract_mentions (text : string) : list string :=
  PyRe.findall_at_word text.

Definition find_user_by_id (user_id : string) : Handler (option User) :=
  oid ← ObjectId user_id;
  read (fun db => Mongo.find_one (by_id u_id oid) (users db)).

Definition find_question_by_id (question_id : string) : Handler (option Question) :=
  oid ← ObjectId question_id;
  read (fun db => Mongo.find_one (by_id q_id oid) (questions db)).

Definition find_answer_by_id (answer_id : string) : Handler (option Answer) :=
  oid ← ObjectId answer_id;
  read (fun db => Mongo.find_one (by_id a_id oid) (answers db)).

Definition username_or_someone (user : option User) : string :=
  match user with
  | Some u => u_username u
  | None => "Someone"
  end.

Definition notify_new_answer (question_id answer_id answerer_id : string) : Handler unit :=
  question ← find_question_by_id question_id;
  match question with
  | None => mret tt
  | Some question =>
      answerer ← find_user_by_id answerer_id;
      let answerer_username := username_or_someone answerer in
      let message :=
        answerer_username +:+ " answered your question: " +:+ q_title question in
      create_notification (q_user_id question) answerer_id ANSWER message
        (Some question_id) (Some answer_id)
  end.

Definition notify_accepted_answer (answer_id question_author_id : string) : Handler unit :=
  answer ← find_answer_by_id answer_id;
  match answer with
  | None => mret tt
  | Some answer =>
      question ← find_question_by_id (a_question_id answer);
      match question with
      | None => mret tt
      | Some question =>
          question_author ← find_user_by_id question_author_id;
          let author_username := username_or_someone question_author in
          let message :=
            author_username +:+ " accepted your answer to: " +:+ q_title question in
          create_notification (a_user_id answer) question_author_id ACCEPTED_ANSWER
            message (Some (a_question_id answer)) (Some answer_id)
      end
  end.

(** The body of [for username in mentions]. *)
Fixpoint notify_each (mentions : list string) (from_username from_user_id : string)
    (question_id answer_id : option string) : Handler unit :=
  match mentions with
  | [] => mret tt
  | username :: rest =>
      mentioned_user ←
        read (fun db =>
                Mongo.find_one (fun u => String.eqb (u_username u) username) (users db));
      match mentioned_user with
      | None => notify_each rest from_username from_user_id question_id answer_id
      | Some mentioned_user =>
          let message := from_username +:+ " mentioned you in a post" in
          create_notification (u_id mentioned_user) from_user_id MENTION message
            question_id answer_id;;
          notify_each rest from_username from_user_id question_id answer_id
      end
  end.

Definition notify_mentions (content from_user_id : string)
    (question_id answer_id : option string) : Handler unit :=
  let mentions := extract_mentions content in
  match mentions with
  | [] => mret tt
  | _ =>
      from_user ← find_user_by_id from_user_id;
      let from_username := username_or_someone from_user in
      notify_each mentions from_username from_user_id question_id answer_id
  end.

End Triggers.
End notification.

(** ** Python lists and sets *)

Module PyList.

(** [l[:stop]]: a negative [stop] counts from the end. *)
Definition slice_to {A} (l : list A) (stop : Z) : list A :=
  if stop <? 0
  then firstn (length l - Z.to_nat (- stop))%nat l
  else firstn (Z.to_nat stop) l.

(** [list(set(l))]: the elements of [l], each once, in the order in which
    the set iterates, which the language leaves open. *)
Class SetOrder := {
  list_of_set : list string -> list string;
  list_of_set_NoDup : forall l, NoDup (list_of_set l);
  list_of_set_elem : forall l x, x ∈ list_of_set l <-> x ∈ l
}.

End PyList.

(** ** models/toxic_spam_model.py *)

Module toxic_spam_model.

(** The pretrained classifier: whether its import succeeded, and the
    probability of the class [toxic] that the softmax gives to a text. *)
Class Classifier := {
  AI_AVAILABLE : bool;
  toxic_probability : string -> Q
}.

Section IsToxic.
Context `{Classifier}.

Definition toxic_words : list string :=
  ["spam"; "hate"; "toxic"; "abuse"; "inappropriate"].

Definition default_threshold : Q := 0.5%Q.

Definition is_toxic (text : string) (threshold : Q) : bool * Q :=
  if negb AI_AVAILABLE then
    let text_lower := PyStr.lower text in
    if existsb (fun word => PyStr.contains word text_lower) toxic_words
    then (true, 0.8%Q)
    else (false, 0.1%Q)
  else
    let toxic_score := toxic_probability text in
    (Qle_bool threshold toxic_score, toxic_score).

End IsToxic.
End toxic_spam_model.

(** ** models/auto_tag.py *)

Module auto_tag.

(** KeyBERT and spaCy: whether their import succeeded, the ranked keywords
    [extract_keywords(text, keyphrase_ngram_range=(1, 1), stop_words="english",
    use_mmr=False, top_n=n)] and the part-of-speech tags [pos_] of the tokens
    of [nlp(word)]. *)
Class Models := {
  AI_AVAILABLE : bool;
  extract_keywords : string -> Z -> list (string * Q);
  nlp : string -> list string
}.

Record question_dict := {
  title : string;
  body : string;
  tags : list string
}.

Section Tagging.
Context `{Models}.

Definition clean_text (text : string) : string :=
  let text := PyRe.sub_tags false text in
  let text := PyRe.sub_non_word_space text in
  PyStr.strip (PyStr.lower text).

Definition good_pos (pos : string) : bool :=
  String.eqb pos "NOUN" || String.eqb pos "PROPN" || String.eqb pos "ADJ".

Definition is_good_single_word (word : string) : bool :=
  if negb AI_AVAILABLE then
    (length (PyStr.split word) =? 1)%nat
    && negb (PyStr.isdigit word)
    && (2 <? PyStr.len word)
    && PyStr.isalpha word
  else
    let doc := nlp word in
    (length (PyStr.split word) =? 1)%nat
    && forallb good_pos doc
    && negb (PyStr.isdigit word)
    && (2 <? PyStr.len word).

(** The loop of [extract_tags_fallback] over the words still to visit. *)
Fixpoint fallback_loop (words : list string) (seen : gset string) (tags : list string)
    (top_k : Z) : list string :=
  match words with
  | [] => tags
  | word :: rest =>
      if negb (bool_decide (word ∈ seen))
         && is_good_single_word word
         && (3 <? PyStr.len word)
      then
        let tags := tags ++ [word] in
        let seen := {[word]} ∪ seen in
        if Z.of_nat (length tags) >=? top_k then tags
        else fallback_loop rest seen tags top_k
      else fallback_loop rest seen tags top_k
  end.

Definition extract_tags_fallback (title body : string) (top_k : Z) : list string :=
  let text := clean_text (title +:+ " " +:+ body) in
  let words := PyStr.split text in
  fallback_loop words ∅ [] top_k.

(** The loop of [extract_single_word_tags] over the keywords still to visit. *)
Fixpoint keyword_loop (raw_keywords : list (string * Q)) (seen : gset string)
    (tags : list string) (top_k : Z) : list string :=
  match raw_keywords with
  | [] => tags
  | (kw, score) :: rest =>
      let kw := PyStr.strip (PyStr.lower kw) in
      if bool_decide (kw ∈ seen) || negb (is_good_single_word kw)
      then keyword_loop rest seen tags top_k
      else
        let seen := {[kw]} ∪ seen in
        let tags := tags ++ [kw] in
        if Z.of_nat (length tags) >=? top_k then tags
        else keyword_loop rest seen tags top_k
  end.

Definition extract_single_word_tags (title body : string) (top_k : Z) : list string :=
  if negb AI_AVAILABLE then extract_tags_fallback title body top_k
  else
    let text := clean_text (title +:+ " " +:+ body) in
    let raw_keywords := extract_keywords text (top_k + 20) in
    keyword_loop raw_keywords ∅ [] top_k.

Definition auto_tag_question (question : question_dict) (top_k : Z) : question_dict :=
  let tags := extract_single_word_tags (title question) (body question) top_k in
  {| title := title question; body := body question; tags := tags |}.

End Tagging.
End auto_tag.

(** ** krishm/smart_search.py *)

Module smart_search.

(** The sentence-embedding model: [model.encode(text, convert_to_tensor=True)]
    and [util.cos_sim(a, b).item()]. *)
Class Embedder := {
  embedding : Type;
  encode : string -> embedding;
  cos_sim : embedding -> embedding -> Q
}.

Section Search.
Context `{Embedder}.

Record question := {
  id : Z;
  title : string;
  body : string;
  tags : list string;
  q_embedding : embedding
}.

(** [results.sort(key=lambda x: x[1], reverse=True)]: the sort is stable, so
    of two results with one score the one that came first stays first. *)
Fixpoint insert_desc (x : question * Q) (sorted : list (question * Q)) : list (question * Q) :=
  match sorted with
  | [] => [x]
  | y :: rest =>
      if Qle_bool (snd y) (snd x) then x :: y :: rest
      else y :: insert_desc x rest
  end.

Fixpoint sort_desc (results : list (question * Q)) : list (question * Q) :=
  match results with
  | [] => []
  | x :: rest => insert_desc x (sort_desc rest)
  end.

Definition smart_search (query : string) (questions : list question) (top_k : Z)
    : list (question * Q) :=
  let query_embedding := encode query in
  let results :=
    List.map (fun q => (q, cos_sim query_embedding (q_embedding q))) questions in
  let results := sort_desc results in
  PyList.slice_to results top_k.

End Search.
End smart_search.

(** ** routes/question.py *)

Module question.

Record QuestionCreate := {
  title : string;
  description : string;
  tags : list string
}.

Record QuestionResponse := {
  r_id : string;
  r_title : string;
  r_description : string;
  r_tags : list string;
  r_user_id : string;
  r_answers : list string;
  r_accepted_answer : option string;
  r_answer_count : Z;
  r_username : string
}.

Section Handlers.
Context `{Bson} `{toxic_spam_model.Classifier} `{auto_tag.Models} `{PyList.SetOrder}.

Definition guidelines_detail : string :=
  "Your question does not meet our community guidelines. Please ensure your content is respectful and appropriate for all users.".

(** [final_tags] of [create_question]. *)
Definition final_tags (user_tags ai_suggested_tags : list string) : list string :=
  PyList.slice_to (PyList.list_of_set (user_tags ++ ai_suggested_tags)) 10.

(** [inserted_id] is the id that [insert_one] gives to the new document. *)
Definition create_question (question_data : QuestionCreate) (current_user : User)
    (inserted_id : string) : Handler QuestionResponse :=
  let combined_text := title question_data +:+ " " +:+ description question_data in
  let '(is_toxic_content, toxic_score) :=
    toxic_spam_model.is_toxic combined_text toxic_spam_model.default_threshold in
  if is_toxic_content then raise (HTTPException 400 guidelines_detail)
  else
    let question_for_tagging :=
      {| auto_tag.title := title question_data;
         auto_tag.body := description question_data;
         auto_tag.tags := [] |} in
    let ai_tagged_question := auto_tag.auto_tag_question question_for_tagging 8 in
    let ai_suggested_tags := auto_tag.tags ai_tagged_question in
    let final_tags := final_tags (tags question_data) ai_suggested_tags in
    let question_doc :=
      {| q_id := inserted_id;
         q_title := title question_data;
         q_description := description question_data;
         q_tags := final_tags;
         q_user_id := u_id current_user;
         q_answers := [];
         q_accepted_answer := None;
         q_ai_enhanced := true;
         q_toxic_score := toxic_score |} in
    write (fun db => set_questions (Mongo.insert_one question_doc (questions db)) db);;
    created_question ← read (fun db => Mongo.find_one (by_id q_id inserted_id) (questions db));
    notification.notify_mentions combined_text (u_id current_user) (Some inserted_id) None;;
    match created_question with
    | None => raise (Exception "TypeError")
    | Some created_question =>
        mret {| r_id := q_id created_question;
                r_title := q_title created_question;
                r_description := q_description created_question;
                r_tags := q_tags created_question;
                r_user_id := q_user_id created_question;
                r_answers := q_answers created_question;
                r_accepted_answer := q_accepted_answer created_question;
                r_answer_count := Z.of_nat (length (q_answers created_question));
                r_username := u_username current_user |}
    end.

Definition delete_question (question_id : string) (current_user : User) : Handler unit :=
  question ←
    try_except (notification.find_question_by_id question_id)
      (fun _ => raise (HTTPException 400 "Invalid question ID"));
  match question with
  | None => raise (HTTPException 404 "Question not found")
  | Some question =>
      if negb (String.eqb (q_user_id question) (u_id current_user))
         && negb (String.eqb (u_role current_user) "admin")
      then raise (HTTPException 403 "You can only delete your own questions")
      else
        oid ← ObjectId question_id;
        write (fun db => set_questions (Mongo.delete_one (by_id q_id oid) (questions db)) db);;
        write (fun db =>
                 set_answers
                   (Mongo.delete_many (fun a => String.eqb (a_question_id a) question_id)
                      (answers db)) db)
  end.

End Handlers.
End question.

(** ** routes/answer.py *)

Module answer.

Record AnswerCreate := { content : string }.

Record VoteAction := { action : string }.

Record AnswerResponse := {
  r_id : string;
  r_question_id : string;
  r_user_id : string;
  r_content : string;
  r_votes : Z;
  r_is_accepted : bool;
  r_username : string;
  r_user_role : string
}.

(** The hosted chat-completion model behind [generate_chatgpt_answer]. *)
Class Llm := { generate_chatgpt_answer : string -> string }.

Definition set_votes (v : Z) (a : Answer) : Answer :=
  {| a_id := a_id a; a_question_id := a_question_id a; a_user_id := a_user_id a;
     a_content := a_content a; a_votes := v; a_is_accepted := a_is_accepted a;
     a_ai_generated := a_ai_generated a; a_toxic_score := a_toxic_score a |}.

Definition set_is_accepted (b : bool) (a : Answer) : Answer :=
  {| a_id := a_id a; a_question_id := a_question_id a; a_user_id := a_user_id a;
     a_content := a_content a; a_votes := a_votes a; a_is_accepted := b;
     a_ai_generated := a_ai_generated a; a_toxic_score := a_toxic_score a |}.

Definition set_q_answers (xs : list string) (q : Question) : Question :=
  {| q_id := q_id q; q_title := q_title q; q_description := q_description q;
     q_tags := q_tags q; q_user_id := q_user_id q; q_answers := xs;
     q_accepted_answer := q_accepted_answer q; q_ai_enhanced := q_ai_enhanced q;
     q_toxic_score := q_toxic_score q |}.

Definition set_accepted_answer (x : option string) (q : Question) : Question :=
  {| q_id := q_id q; q_title := q_title q; q_description := q_description q;
     q_tags := q_tags q; q_user_id := q_user_id q; q_answers := q_answers q;
     q_accepted_answer := x; q_ai_enhanced := q_ai_enhanced q;
     q_toxic_score := q_toxic_score q |}.

(** [{"$inc": {"votes": d}}], [{"$push": {"answers": x}}], [{"$pull": {"answers": x}}]. *)
Definition inc_votes (d : Z) (a : Answer) : Answer := set_votes (a_votes a + d) a.

Definition push_answer (x : string) (q : Question) : Question :=
  set_q_answers (q_answers q ++ [x]) q.

Definition pull_answer (x : string) (q : Question) : Question :=
  set_q_answers (List.filter (fun y => negb (String.eqb y x)) (q_answers q)) q.

Definition response (created_answer : Answer) (username user_role : string) : AnswerResponse :=
  {| r_id := a_id created_answer;
     r_question_id := a_question_id created_answer;
     r_user_id := a_user_id created_answer;
     r_content := a_content created_answer;
     r_votes := a_votes created_answer;
     r_is_accepted := a_is_accepted created_answer;
     r_username := username;
     r_user_role := user_role |}.

Section Handlers.
Context `{Bson} `{toxic_spam_model.Classifier} `{Llm}.

Definition guidelines_detail : string :=
  "Your answer does not meet our community guidelines. Please ensure your content is respectful and appropriate for all users.".

(** [except HTTPException: raise] followed by [except Exception: raise
    HTTPException(500, detail)]. *)
Definition reraise_http {A} (detail : string) (e : exn) : Handler A :=
  match e with
  | HTTPException _ _ => raise e
  | Exception _ => raise (HTTPException 500 detail)
  end.

(** The two inserts and the read back that [create_answer] and
    [create_ai_answer] share. *)
Definition store_answer (question_id : string) (answer_doc : Answer) : Handler (option Answer) :=
  write (fun db => set_answers (Mongo.insert_one answer_doc (answers db)) db);;
  oid ← ObjectId question_id;
  write (fun db =>
           set_questions
             (Mongo.update_one (by_id q_id oid) (push_answer (a_id answer_doc)) (questions db))
             db);;
  read (fun db => Mongo.find_one (by_id a_id (a_id answer_doc)) (answers db)).

(** [inserted_id] is the id that [insert_one] gives to the new answer.  The
    classifier is a total function here, so the [except] branch around
    [is_toxic] is never taken. *)
Definition create_answer (question_id : string) (answer_data : AnswerCreate)
    (current_user : User) (inserted_id : string) : Handler AnswerResponse :=
  try_except
    (question ←
       try_except (notification.find_question_by_id question_id)
         (fun _ => raise (HTTPException 400 "Invalid question ID"));
     match question with
     | None => raise (HTTPException 404 "Question not found")
     | Some question =>
         let '(is_toxic_content, toxic_score) :=
           toxic_spam_model.is_toxic (content answer_data)
             toxic_spam_model.default_threshold in
         if is_toxic_content then raise (HTTPException 400 guidelines_detail)
         else
           let answer_doc :=
             {| a_id := inserted_id;
                a_question_id := question_id;
                a_user_id := u_id current_user;
                a_content := content answer_data;
                a_votes := 0;
                a_is_accepted := false;
                a_ai_generated := false;
                a_toxic_score := toxic_score |} in
           created_answer ← store_answer question_id answer_doc;
           try_except
             (notification.notify_new_answer question_id inserted_id (u_id current_user);;
              notification.notify_mentions (content answer_data) (u_id current_user)
                (Some question_id) (Some inserted_id))
             (fun _ => mret tt);;
           match created_answer with
           | None => raise (Exception "TypeError")
           | Some created_answer =>
               mret (response created_answer (u_username current_user) (u_role current_user))
           end
     end)
    (reraise_http "Failed to create answer. Please try again.").

Definition create_ai_answer (question_id : string) (current_user : User)
    (inserted_id : string) : Handler AnswerResponse :=
  try_except
    (question ←
       try_except (notification.find_question_by_id question_id)
         (fun _ => raise (HTTPException 400 "Invalid question ID"));
     match question with
     | None => raise (HTTPException 404 "Question not found")
     | Some question =>
         if negb (String.eqb (u_role current_user) "admin"
                  || String.eqb (u_role current_user) "user")
         then raise (HTTPException 403 "Insufficient permissions to generate AI answers")
         else
           let question_text := q_title question +:+ " - " +:+ q_description question in
           let ai_content := generate_chatgpt_answer question_text in
           if PyStr.startswith "Error:" ai_content
           then raise (HTTPException 500
                         "AI answer generation is currently unavailable. Please try again later.")
           else
             let answer_doc :=
               {| a_id := inserted_id;
                  a_question_id := question_id;
                  a_user_id := u_id current_user;
                  a_content := ai_content;
                  a_votes := 0;
                  a_is_accepted := false;
                  a_ai_generated := true;
                  a_toxic_score := 0 |} in
             created_answer ← store_answer question_id answer_doc;
             try_except
               (notification.notify_new_answer question_id inserted_id (u_id current_user))
               (fun _ => mret tt);;
             match created_answer with
             | None => raise (Exception "TypeError")
             | Some created_answer =>
                 mret (response created_answer
                         (u_username current_user +:+ " (AI-assisted)")
                         (u_role current_user))
             end
     end)
    (reraise_http "Failed to generate AI answer. Please try again.").

Definition find_answer_or_400 (answer_id : string) : Handler (option Answer) :=
  try_except (notification.find_answer_by_id answer_id)
    (fun _ => raise (HTTPException 400 "Invalid answer ID")).

Definition update_answer (answer_id : string) (f : Answer -> Answer) : Handler unit :=
  oid ← ObjectId answer_id;
  write (fun db => set_answers (Mongo.update_one (by_id a_id oid) f (answers db)) db).

Definition update_question (question_id : string) (f : Question -> Question) : Handler unit :=
  oid ← ObjectId question_id;
  write (fun db => set_questions (Mongo.update_one (by_id q_id oid) f (questions db)) db).

(** The handler returns the message and [new_vote_count]. *)
Definition vote_answer (answer_id : string) (vote_action : VoteAction) (current_user : User)
    : Handler (string * Z) :=
  answer ← find_answer_or_400 answer_id;
  match answer with
  | None => raise (HTTPException 404 "Answer not found")
  | Some answer =>
      if String.eqb (a_user_id answer) (u_id current_user)
      then raise (HTTPException 400 "You cannot vote on your own answer")
      else
        (if String.eqb (action vote_action) "upvote"
         then update_answer answer_id (inc_votes 1)
         else if String.eqb (action vote_action) "downvote"
         then update_answer answer_id (inc_votes (-1))
         else mret tt);;
        updated_answer ← notification.find_answer_by_id answer_id;
        match updated_answer with
        | None => raise (Exception "TypeError")
        | Some updated_answer =>
            mret ("Vote " +:+ action vote_action +:+ " applied successfully",
                  a_votes updated_answer)
        end
  end.

Definition accept_answer (answer_id : string) (current_user : User) : Handler string :=
  answer ← find_answer_or_400 answer_id;
  match answer with
  | None => raise (HTTPException 404 "Answer not found")
  | Some answer =>
      question ← notification.find_question_by_id (a_question_id answer);
      match question with
      | None => raise (HTTPException 404 "Question not found")
      | Some question =>
          if negb (String.eqb (q_user_id question) (u_id current_user))
          then raise (HTTPException 403 "Only the question author can accept answers")
          else
            write (fun db =>
                     set_answers
                       (Mongo.update_many
                          (fun a => String.eqb (a_question_id a) (a_question_id answer))
                          (set_is_accepted false) (answers db)) db);;
            update_answer answer_id (set_is_accepted true);;
            update_question (a_question_id answer) (set_accepted_answer (Some answer_id));;
            notification.notify_accepted_answer answer_id (u_id current_user);;
            mret "Answer accepted successfully"
      end
  end.

Definition delete_answer (answer_id : string) (current_user : User) : Handler unit :=
  answer ← find_answer_or_400 answer_id;
  match answer with
  | None => raise (HTTPException 404 "Answer not found")
  | Some answer =>
      if negb (String.eqb (a_user_id answer) (u_id current_user))
         && negb (String.eqb (u_role current_user) "admin")
      then raise (HTTPException 403 "You can only delete your own answers")
      else
        update_question (a_question_id answer) (pull_answer answer_id);;
        (if a_is_accepted answer
         then update_question (a_question_id answer) (set_accepted_answer None)
         else mret tt);;
        oid ← ObjectId answer_id;
        write (fun db => set_answers (Mongo.delete_one (by_id a_id oid) (answers db)) db)
  end.

End Handlers.
End answer.

(** ** The other handlers of routes/notification.py *)

From Stdlib Require Import DecimalString.

Module PyFmt.

(** [str(n)] of an integer, as an f-string renders it. *)
Definition of_int (n : Z) : string := NilZero.string_of_int (Z.to_int n).

End PyFmt.

Definition set_users (us : list User) (db : Database) : Database :=
  {| users := us; questions := questions db; answers := answers db;
     notifications := notifications db; driver := driver db |}.

Definition set_read (b : bool) (n : Notification) : Notification :=
  {| n_user_id := n_user_id n; n_from_user_id := n_from_user_id n; n_type := n_type n;
     n_message := n_message n; n_question_id := n_question_id n;
     n_answer_id := n_answer_id n; n_read := b |}.

(** The [_id] that [insert_one] gave to the notifications.  No handler
    deletes a notification, so the place of a notification in its
    collection never changes: [notification_oid i] is the id of the
    notification at place [i]. *)
Class NotificationIds := { notification_oid : nat -> string }.

Module notification_routes.

Record NotificationStats := {
  unread_count : Z;
  total_count : Z
}.

(** [collection.count_documents(query)]. *)
Definition count_documents {A} (p : A -> bool) (coll : list A) : Z :=
  Z.of_nat (length (List.filter p coll)).

(** [update_one] with a query on the [_id]: the first document that matches
    is updated; the second component is [matched_count]. *)
Fixpoint update_one_at {A} (p : nat -> A -> bool) (f : A -> A) (i : nat) (coll : list A)
    : list A * Z :=
  match coll with
  | [] => ([], 0)
  | doc :: rest =>
      if p i doc then (f doc :: rest, 1)
      else let '(rest', matched) := update_one_at p f (S i) rest in (doc :: rest', matched)
  end.

Section Handlers.
Context `{Bson} `{NotificationIds}.

Definition get_notification_stats (current_user : User) : Handler NotificationStats :=
  total_count ←
    read (fun db =>
            count_documents (fun n => String.eqb (n_user_id n) (u_id current_user))
              (notifications db));
  unread_count ←
    read (fun db =>
            count_documents
              (fun n => String.eqb (n_user_id n) (u_id current_user)
                        && Bool.eqb (n_read n) false)
              (notifications db));
  mret {| unread_count := unread_count; total_count := total_count |}.

(** [notifications_collection.update_one({"_id": oid, "user_id": ...},
    {"$set": {"read": True}})]; it returns [matched_count]. *)
Definition update_read (oid : string) (current_user : User) : Handler Z := fun db =>
  let '(ns, matched_count) :=
    update_one_at
      (fun i n => String.eqb (notification_oid i) oid
                  && String.eqb (n_user_id n) (u_id current_user))
      (set_read true) 0 (notifications db) in
  (Return matched_count, set_notifications ns (driver db) db).

(** The bare [except:] also catches the HTTP 404 that the [try] raises. *)
Definition mark_notification_read (notification_id : string) (current_user : User)
    : Handler string :=
  try_except
    (oid ← ObjectId notification_id;
     matched_count ← update_read oid current_user;
     if matched_count =? 0
     then raise (HTTPException 404 "Notification not found")
     else mret "Notification marked as read")
    (fun _ => raise (HTTPException 400 "Invalid notification ID")).

(** [modified_count] counts the documents that the update changed: the
    user's notifications that were unread. *)
Definition mark_all_notifications_read (current_user : User) : Handler string :=
  modified_count ←
    read (fun db =>
            count_documents
              (fun n => String.eqb (n_user_id n) (u_id current_user) && negb (n_read n))
              (notifications db));
  write (fun db =>
           set_notifications
             (Mongo.update_many (fun n => String.eqb (n_user_id n) (u_id current_user))
                (set_read true) (notifications db))
             (driver db) db);;
  mret ("Marked " +:+ PyFmt.of_int modified_count +:+ " notifications as read").

End Handlers.
End notification_routes.

(** ** routes/auth.py *)

Module auth.

Record UserCreate := {
  username : string;
  email : string;
  password : string
}.

Record UserResponse := {
  r_id : string;
  r_username : string;
  r_email : string;
  r_role : string
}.

(** What [verify_token] decoded: the claim [sub], when the token has one. *)
Record TokenPayload := { sub : option string }.

(** [utils/auth_utils.py] is not among the sources: [verify_token(token)]
    returns the payload of a token, [None] for a token it rejects, or
    raises. *)
Class AuthUtils := { verify_token : string -> result (option TokenPayload) }.

Definition unauthorized {A} (detail : string) : Handler A :=
  raise (HTTPException 401 detail).

Section Handlers.
Context `{AuthUtils}.

(** [inserted_id] is the id that [insert_one] gives to the new user.  The
    stored document and the response also hold the activity flag and the
    creation time, and the document the password hash; [User] and
    [UserResponse] carry none of the three, and no handler of this
    development reads them. *)
Definition register (user_data : UserCreate) (inserted_id : string) : Handler UserResponse :=
  by_name ←
    read (fun db =>
            Mongo.find_one (fun u => String.eqb (u_username u) (username user_data))
              (users db));
  match by_name with
  | Some _ => raise (HTTPException 400 "Username already registered")
  | None =>
      by_email ←
        read (fun db =>
                Mongo.find_one (fun u => String.eqb (u_email u) (email user_data))
                  (users db));
      match by_email with
      | Some _ => raise (HTTPException 400 "Email already registered")
      | None =>
          let user :=
            {| u_id := inserted_id;
               u_username := username user_data;
               u_email := email user_data;
               u_role := "user" |} in
          write (fun db => set_users (Mongo.insert_one user (users db)) db);;
          created_user ←
            read (fun db => Mongo.find_one (by_id u_id inserted_id) (users db));
          match created_user with
          | None => raise (Exception "TypeError")
          | Some created_user =>
              mret {| r_id := u_id created_user;
                      r_username := u_username created_user;
                      r_email := u_email created_user;
                      r_role := u_role created_user |}
          end
      end
  end.

(** [token] is [credentials.credentials]. *)
Definition get_current_user (token : string) : Handler User :=
  try_except
    (match verify_token token with
     | Raise e => raise e
     | Return None => unauthorized "Invalid authentication credentials"
     | Return (Some payload) =>
         match sub payload with
         | None => unauthorized "Invalid authentication credentials"
         | Some username =>
             user ←
               read (fun db =>
                       Mongo.find_one (fun u => String.eqb (u_username u) username)
                         (users db));
             match user with
             | None => unauthorized "User not found"
             | Some user => mret user
             end
         end
     end)
    (fun e =>
       match e with
       | HTTPException _ _ => raise e
       | Exception _ => unauthorized "Invalid authentication credentials"
       end).

Definition set_role (role : string) (u : User) : User :=
  {| u_id := u_id u; u_username := u_username u; u_email := u_email u; u_role := role |}.

(** The check of the caller's role ends in [pass]: every caller goes on.
    The handler returns the message and [updated_count]. *)
Definition upgrade_guest_users_to_user (current_user : User) : Handler (string * Z) :=
  (if negb (String.eqb (u_role current_user) "admin") then mret tt else mret tt);;
  modified_count ←
    read (fun db =>
            notification_routes.count_documents (fun u => String.eqb (u_role u) "guest")
              (users db));
  write (fun db =>
           set_users
             (Mongo.update_many (fun u => String.eqb (u_role u) "guest") (set_role "user")
                (users db)) db);;
  mret ("Successfully upgraded " +:+ PyFmt.of_int modified_count
        +:+ " guest users to user role",
        modified_count).

End Handlers.
End auth.

(** ** The reading handlers of routes/answer.py and routes/question.py *)

Module reads.
Section Handlers.
Context `{Bson} `{auto_tag.Models}.

Definition get_answer (answer_id : string) : Handler answer.AnswerResponse :=
  found ← answer.find_answer_or_400 answer_id;
  match found with
  | None => raise (HTTPException 404 "Answer not found")
  | Some found =>
      user ← notification.find_user_by_id (a_user_id found);
      let username := match user with Some u => u_username u | None => "Unknown" end in
      let username :=
        if a_ai_generated found then username +:+ " (AI-assisted)" else username in
      mret (answer.response found username
              (match user with Some u => u_role u | None => "guest" end))
  end.

Definition get_question (question_id : string) : Handler question.QuestionResponse :=
  found ←
    try_except (notification.find_question_by_id question_id)
      (fun _ => raise (HTTPException 400 "Invalid question ID"));
  match found with
  | None => raise (HTTPException 404 "Question not found")
  | Some found =>
      user ← notification.find_user_by_id (q_user_id found);
      mret {| question.r_id := q_id found;
              question.r_title := q_title found;
              question.r_description := q_description found;
              question.r_tags := q_tags found;
              question.r_user_id := q_user_id found;
              question.r_answers := q_answers found;
              question.r_accepted_answer := q_accepted_answer found;
              question.r_answer_count := Z.of_nat (length (q_answers found));
              question.r_username :=
                match user with Some u => u_username u | None => "Unknown" end |}
  end.

(** The handler returns [suggested_tags] and the message. *)
Definition suggest_tags (title description : string) (current_user : User)
    : Handler (list string * string) :=
  let question_data :=
    {| auto_tag.title := title; auto_tag.body := description; auto_tag.tags := [] |} in
  let ai_tagged_question := auto_tag.auto_tag_question question_data 8 in
  mret (auto_tag.tags ai_tagged_question,
        "AI-generated tag suggestions based on your question content").

End Handlers.
End reads.

(** ** models/ai_generated_answer.py *)

Module ai_generated_answer.

(** The OpenAI client: whether it was set up, and what
    [client.chat.completions.create(model=..., messages=..., temperature=0.7)]
    gives for a model name and a user prompt: the content of the first
    choice, or the exception that the call raises. *)
Class Client := {
  AI_AVAILABLE : bool;
  chat_completion : string -> string -> result string
}.

(** [str(e)]: the message of the exception. *)
Definition str_of_exn (e : exn) : string :=
  match e with
  | Exception what => what
  | HTTPException status_code detail => PyFmt.of_int status_code +:+ ": " +:+ detail
  end.

Fixpoint occurs (c : ascii) (s : string) : bool :=
  match s with
  | EmptyString => false
  | String d r => Ascii.eqb d c || occurs c r
  end.

(** Whether [[^>]+>] matches at the start of [s]. *)
Definition opens (s : string) : bool :=
  match s with
  | EmptyString => false
  | String c r => negb (Ascii.eqb c ">") && occurs ">" r
  end.

(** [re.sub(r'<[^>]+>', '', text)]; [inside] says that a match is open. *)
Fixpoint sub_html_tags (inside : bool) (text : string) : string :=
  match text with
  | EmptyString => EmptyString
  | String c r =>
      if inside then sub_html_tags (negb (Ascii.eqb c ">")) r
      else if Ascii.eqb c "<" && opens r then sub_html_tags true r
      else String c (sub_html_tags false r)
  end.

(** The second substitution removes the code points from U+10000 on; the
    strings here hold none. *)
Definition remove_html_and_emojis (text : string) : string :=
  PyStr.strip (sub_html_tags false text).

Definition is_end (c : ascii) : bool :=
  Ascii.eqb c "." || Ascii.eqb c "!" || Ascii.eqb c "?".

Definition space_ahead (s : string) : bool :=
  match s with
  | EmptyString => false
  | String c _ => PyStr.is_space c
  end.

(** [re.split(r'(?<=[.!?])\s+', text)]: a separator is a whole run of
    whitespace that follows one of [.!?]; [skipping] says that a separator
    is open. *)
Fixpoint split_sentences (skipping : bool) (text : string) : list string :=
  match text with
  | EmptyString => [EmptyString]
  | String c r =>
      if skipping && PyStr.is_space c then split_sentences true r
      else if is_end c && space_ahead r
      then String c EmptyString :: split_sentences true r
      else match split_sentences false r with
           | piece :: more => String c piece :: more
           | [] => [String c EmptyString]
           end
  end.

(** [sep.join(l)]. *)
Fixpoint join (sep : string) (l : list string) : string :=
  match l with
  | [] => EmptyString
  | [x] => x
  | x :: rest => x +:+ sep +:+ join sep rest
  end.

Section Generate.
Context `{Client}.

Definition prompt (question : string) (max_sentences : Z) : string :=
  "Answer the following question clearly. No HTML tags or emojis. Limit to "
  +:+ PyFmt.of_int max_sentences +:+ " sentences."
  +:+ String "010" (String "010" "Question: ") +:+ question.

Definition unavailable_notice : string :=
  "AI answer generation is not available. Please provide your own answer.".

Definition generate_chatgpt_answer (question : string) (max_sentences : Z) (model : string)
    : string :=
  if negb AI_AVAILABLE then unavailable_notice
  else
    match chat_completion model (prompt question max_sentences) with
    | Return raw_text =>
        let cleaned := remove_html_and_emojis raw_text in
        let sentences := split_sentences false cleaned in
        join " " (PyList.slice_to sentences max_sentences)
    | Raise e => "Error: " +:+ str_of_exn e
    end.

(** [generate_chatgpt_answer(question_text)] as the routes call it, with
    the default [max_sentences] and [model]. *)
Definition chatgpt : answer.Llm :=
  {| answer.generate_chatgpt_answer := fun question =>
       generate_chatgpt_answer question 15 "gpt-3.5-turbo" |}.

End Generate.
End ai_generated_answer.

(** ** Sample data *)

Module Examples.

(** Every non-empty string is taken for an id, and printed as it is. *)
Definition any_id : Bson :=
  {| is_valid := fun s => negb (PyStr.is_empty s); oid_str := fun s => s |}.

(** The classifier and the taggers failed to import: the fallbacks run. *)
Definition no_classifier : toxic_spam_model.Classifier :=
  {| toxic_spam_model.AI_AVAILABLE := false;
     toxic_spam_model.toxic_probability := fun _ => 0%Q |}.

Definition no_taggers : auto_tag.Models :=
  {| auto_tag.AI_AVAILABLE := false;
     auto_tag.extract_keywords := fun _ _ => [];
     auto_tag.nlp := fun _ => [] |}.

Definition no_llm : answer.Llm :=
  {| answer.generate_chatgpt_answer := fun _ => "Error: unavailable" |}.

(** A set that iterates in the order of first insertion. *)
Definition first_seen : PyList.SetOrder :=
  {| PyList.list_of_set := remove_dups;
     PyList.list_of_set_NoDup := NoDup_remove_dups;
     PyList.list_of_set_elem := fun l x => elem_of_remove_dups l x |}.

(** A set that iterates in the opposite order. *)
Definition last_seen : PyList.SetOrder.
Proof.
  refine {| PyList.list_of_set := fun l => reverse (remove_dups l) |}.
  - intros l. rewrite reverse_Permutation. apply NoDup_remove_dups.
  - intros l x. rewrite elem_of_reverse. apply elem_of_remove_dups.
Defined.

(** A toy embedder: a text is embedded as its length, and two embeddings
    are the more similar the closer they are. *)
Definition by_length : smart_search.Embedder :=
  {| smart_search.embedding := Z;
     smart_search.encode := PyStr.len;
     smart_search.cos_sim := fun a b => (1 # Z.to_pos (1 + Z.abs (a - b)))%Q |}.

Definition indexed (n : Z) (text : string) : @smart_search.question by_length :=
  @smart_search.Build_question by_length n text "" [] (PyStr.len text).

Definition sample_questions : list (@smart_search.question by_length) :=
  [indexed 1 "law"; indexed 2 "engineering"; indexed 3 "exams"].

Definition alice : User :=
  {| u_id := "u1"; u_username := "alice"; u_email := "alice@example.org"; u_role := "user" |}.

Definition bob : User :=
  {| u_id := "u2"; u_username := "bob"; u_email := "bob@example.org"; u_role := "user" |}.

Definition carol : User :=
  {| u_id := "u3"; u_username := "carol"; u_email := "carol@example.org"; u_role := "admin" |}.

(** Alice's question [q1]. *)
Definition q1 : Question :=
  {| q_id := "q1"; q_title := "Sorting a list"; q_description := "How do I sort a list?";
     q_tags := ["sorting"]; q_user_id := "u1"; q_answers := ["a1"; "a2"];
     q_accepted_answer := Some "a1"; q_ai_enhanced := true; q_toxic_score := 0.1%Q |}.

(** Bob's accepted answer and Carol's answer to it. *)
Definition a1 : Answer :=
  {| a_id := "a1"; a_question_id := "q1"; a_user_id := "u2";
     a_content := "Call sorted on it."; a_votes := 3; a_is_accepted := true;
     a_ai_generated := false; a_toxic_score := 0.1%Q |}.

Definition a2 : Answer :=
  {| a_id := "a2"; a_question_id := "q1"; a_user_id := "u3";
     a_content := "Use the sort method."; a_votes := 0; a_is_accepted := false;
     a_ai_generated := false; a_toxic_score := 0.1%Q |}.

Definition sorting_question : question.QuestionCreate :=
  {| question.title := "Sorting strings in Python";
     question.description := "Which function sorts strings? Sorting fails here.";
     question.tags := ["python"; "sorting"] |}.

(** A question with three tags of the user that are not among the
    suggested ones. *)
Definition unicode_question : question.QuestionCreate :=
  {| question.title := "Sorting strings in Python";
     question.description :=
       "Which function sorts unicode words quickly? Locale rules differ between platforms.";
     question.tags := ["beginner"; "homework"; "locale"] |}.

Definition db0 : Database :=
  {| users := [alice; bob; carol]; questions := [q1]; answers := [a1; a2];
     notifications := []; driver := [] |}.

(** The same store with a driver that refuses the next notification. *)
Definition db_refusing : Database :=
  {| users := [alice; bob; carol]; questions := [q1]; answers := [a1; a2];
     notifications := []; driver := [Refused] |}.

(** The driver of the service for the next awaited inserts: each is stored
    and raises. *)
Definition awaiting : list write_outcome := repeat StoredThenRaised 8.

(** The same people under ids as [bson] makes them, Alice's question, Bob's
    accepted answer to it and an answer of her own, on the collections of
    the service. *)
Definition hex_alice : User :=
  {| u_id := "64a000000000000000000001"; u_username := "alice";
     u_email := "alice@example.org"; u_role := "user" |}.

Definition hex_bob : User :=
  {| u_id := "64a000000000000000000002"; u_username := "bob";
     u_email := "bob@example.org"; u_role := "user" |}.

Definition hex_carol : User :=
  {| u_id := "64a000000000000000000003"; u_username := "carol";
     u_email := "carol@example.org"; u_role := "admin" |}.

Definition hex_q1 : Question :=
  {| q_id := "64b000000000000000000001"; q_title := "Sorting a list";
     q_description := "How do I sort a list?"; q_tags := ["sorting"];
     q_user_id := "64a000000000000000000001";
     q_answers := ["64c000000000000000000001"; "64c000000000000000000002"];
     q_accepted_answer := Some "64c000000000000000000001"; q_ai_enhanced := true;
     q_toxic_score := 0.1%Q |}.

Definition hex_a1 : Answer :=
  {| a_id := "64c000000000000000000001"; a_question_id := "64b000000000000000000001";
     a_user_id := "64a000000000000000000002"; a_content := "Call sorted on it.";
     a_votes := 3; a_is_accepted := true; a_ai_generated := false;
     a_toxic_score := 0.1%Q |}.

Definition hex_a2 : Answer :=
  {| a_id := "64c000000000000000000002"; a_question_id := "64b000000000000000000001";
     a_user_id := "64a000000000000000000001"; a_content := "Use the sort method.";
     a_votes := 0; a_is_accepted := false; a_ai_generated := false;
     a_toxic_score := 0.1%Q |}.

Definition db_hex : Database :=
  {| users := [hex_alice; hex_bob; hex_carol]; questions := [hex_q1];
     answers := [hex_a1; hex_a2]; notifications := [];
     driver := awaiting |}.

(** The users alone, and the store when Alice has asked and nobody has
    answered. *)
Definition db_hex_start : Database :=
  {| users := [hex_alice; hex_bob; hex_carol]; questions := []; answers := [];
     notifications := []; driver := awaiting |}.


(** A user whose name holds a dot, and a store with that user. *)
Definition john_doe : User :=
  {| u_id := "u4"; u_username := "john.doe"; u_email := "john@example.org";
     u_role := "user" |}.

Definition db_dotted : Database :=
  {| users := [alice; bob; john_doe]; questions := []; answers := [];
     notifications := []; driver := [] |}.

(** A guest account, and a store with it. *)
Definition dave : User :=
  {| u_id := "u5"; u_username := "dave"; u_email := "dave@example.org"; u_role := "guest" |}.

Definition db_guest : Database :=
  {| users := [alice; dave; carol]; questions := []; answers := [];
     notifications := []; driver := [] |}.

(** A toy token check: a token is the name it stands for, and the empty
    token is rejected. *)
Definition name_tokens : auth.AuthUtils :=
  {| auth.verify_token := fun token =>
       if PyStr.is_empty token then Return None
       else Return (Some {| auth.sub := Some token |}) |}.

(** Notification ids by place: [n0], [n1], ... *)
Definition numbered : NotificationIds :=
  {| notification_oid := fun i => "n" +:+ PyFmt.of_int (Z.of_nat i) |}.

(** A model that always gives the same reply. *)
Definition canned_llm : answer.Llm :=
  {| answer.generate_chatgpt_answer := fun _ => "Call sorted on it, as @bob said." |}.

(** No API key: the client was not set up. *)
Definition no_client : ai_generated_answer.Client :=
  {| ai_generated_answer.AI_AVAILABLE := false;
     ai_generated_answer.chat_completion := fun _ _ => Raise (Exception "no client") |}.

(** A client whose calls time out. *)
Definition failing_client : ai_generated_answer.Client :=
  {| ai_generated_answer.AI_AVAILABLE := true;
     ai_generated_answer.chat_completion := fun _ _ =>
       Raise (Exception "Request timed out.") |}.

(** A client whose model replies with mark-up and many short sentences. *)
Definition chatty_client : ai_generated_answer.Client :=
  {| ai_generated_answer.AI_AVAILABLE := true;
     ai_generated_answer.chat_completion := fun _ _ =>
       Return " <p>Use <b>sorted</b>.  It returns a list!</p> Is that all? Yes. " |}.

(** A question that mentions Bob. *)
Definition mentioning_question : question.QuestionCreate :=
  {| question.title := "Sorting strings in Python";
     question.description := "Which function sorts strings? @bob may know.";
     question.tags := ["python"] |}.

(** A store without questions and answers. *)
Definition db_start : Database :=
  {| users := [alice; bob; carol]; questions := []; answers := [];
     notifications := []; driver := [] |}.

End Examples.


(** ** Vocabulary of the statements *)

(** [m] relates every store to the store it leaves, whatever it returns. *)
Definition preserves {A} (R : Database -> Database -> Prop) (m : Handler A) : Prop :=
  forall db, R db (m db).2.

(** Between [db] and [db'] only notifications were appended, each to a
    recipient other than its sender; the users, questions and answers are
    those of [db]. *)
Definition appends_to_others (db db' : Database) : Prop :=
  users db' = users db /\ questions db' = questions db /\ answers db' = answers db /\
  exists added,
    notifications db' = notifications db ++ added /\
    Forall (fun n => n_user_id n <> n_from_user_id n) added.


(** [users_collection.find_one({"username": username})]. *)
Definition find_by_username (us : list User) (username : string) : option User :=
  Mongo.find_one (fun u => String.eqb (u_username u) username) us.

(** The store with [added] appended to its notifications. *)
Definition add_notifications (added : list Notification) (db : Database) : Database :=
  set_notifications (notifications db ++ added) (driver db) db.

Definition mention_doc (from_username from_user_id : string)
    (question_id answer_id : option string) (u : User) : Notification :=
  {| n_user_id := u_id u;
     n_from_user_id := from_user_id;
     n_type := MENTION;
     n_message := from_username +:+ " mentioned you in a post";
     n_question_id := question_id;
     n_answer_id := answer_id;
     n_read := false |}.

(** The users that the mentions resolve to, one for every mention of a
    registered name, the sender left out. *)
Definition mention_recipients (us : list User) (from_user_id : string)
    (mentions : list string) : list User :=
  List.filter (fun u => negb (String.eqb (u_id u) from_user_id))
    (omap (find_by_username us) mentions).

(** How many of [ns] are addressed to [user_id], and how many times
    [username] stands in [mentions]. *)
Definition count_for (user_id : string) (ns : list Notification) : nat :=
  length (List.filter (fun n => String.eqb (n_user_id n) user_id) ns).

Definition occurrences (username : string) (mentions : list string) : nat :=
  length (List.filter (String.eqb username) mentions).

(** The sender's name in the message: the name of the user with the
    sender's id, or [Someone]. *)
Definition sender_name `{Bson} (db : Database) (from_user_id : string) : string :=
  notification.username_or_someone
    (Mongo.find_one (by_id u_id (oid_str from_user_id)) (users db)).

(** The answer document that [create_answer] inserts. *)
Definition new_answer_doc `{toxic_spam_model.Classifier} (question_id : string)
    (answer_data : answer.AnswerCreate) (current_user : User) (inserted_id : string)
    : Answer :=
  {| a_id := inserted_id;
     a_question_id := question_id;
     a_user_id := u_id current_user;
     a_content := answer.content answer_data;
     a_votes := 0;
     a_is_accepted := false;
     a_ai_generated := false;
     a_toxic_score :=
       (toxic_spam_model.is_toxic (answer.content answer_data)
          toxic_spam_model.default_threshold).2 |}.

(** The notification to the author of [question] about an answer by
    [answerer_id]: none when the author answers their own question. *)
Definition new_answer_notification `{Bson} (db : Database) (question : Question)
    (question_id answer_id answerer_id : string) : list Notification :=
  if String.eqb (q_user_id question) answerer_id then []
  else [ {| n_user_id := q_user_id question;
            n_from_user_id := answerer_id;
            n_type := ANSWER;
            n_message := sender_name db answerer_id +:+ " answered your question: "
                         +:+ q_title question;
            n_question_id := Some question_id;
            n_answer_id := Some answer_id;
            n_read := false |} ].

(** The mention notifications for [content] posted by [from_user_id]. *)
Definition mention_notifications `{Bson} (db : Database) (content from_user_id : string)
    (question_id answer_id : option string) : list Notification :=
  List.map (mention_doc (sender_name db from_user_id) from_user_id question_id answer_id)
    (mention_recipients (users db) from_user_id (notification.extract_mentions content)).

(** The store after the answer is inserted and pushed to its question. *)
Definition with_answer `{Bson} (question_id : string) (doc : Answer) (db : Database)
    : Database :=
  set_questions
    (Mongo.update_one (by_id q_id (oid_str question_id)) (answer.push_answer (a_id doc))
       (questions db))
    (set_answers (Mongo.insert_one doc (answers db)) db).

(** The notification steps of [create_answer] with their [except]. *)
Definition notification_steps `{Bson} (question_id : string) (answer_data : answer.AnswerCreate)
    (current_user : User) (inserted_id : string) : Handler unit :=
  try_except
    (notification.notify_new_answer question_id inserted_id (u_id current_user);;
     notification.notify_mentions (answer.content answer_data) (u_id current_user)
       (Some question_id) (Some inserted_id))
    (fun _ => mret tt).

(** The text that [create_question] moderates and scans for mentions. *)
Definition combined_text (question_data : question.QuestionCreate) : string :=
  question.title question_data +:+ " " +:+ question.description question_data.

(** [ai_suggested_tags] of [create_question]. *)
Definition ai_suggested_tags `{auto_tag.Models} (question_data : question.QuestionCreate)
    : list string :=
  auto_tag.extract_single_word_tags (question.title question_data)
    (question.description question_data) 8.

(** The question document that [create_question] inserts. *)
Definition new_question_doc `{toxic_spam_model.Classifier} `{auto_tag.Models}
    `{PyList.SetOrder} (question_data : question.QuestionCreate) (current_user : User)
    (inserted_id : string) : Question :=
  {| q_id := inserted_id;
     q_title := question.title question_data;
     q_description := question.description question_data;
     q_tags := question.final_tags (question.tags question_data)
                 (ai_suggested_tags question_data);
     q_user_id := u_id current_user;
     q_answers := [];
     q_accepted_answer := None;
     q_ai_enhanced := true;
     q_toxic_score :=
       (toxic_spam_model.is_toxic (combined_text question_data)
          toxic_spam_model.default_threshold).2 |}.

(** What a vote adds to the count. *)
Definition vote_delta (vote_action : answer.VoteAction) : Z :=
  if String.eqb (answer.action vote_action) "upvote" then 1
  else if String.eqb (answer.action vote_action) "downvote" then -1
  else 0.

(** A string that spells an id as [str] prints it. *)
Definition printed `{Bson} (id : string) : Prop := oid_str id = id.

(** The accepted answers to the question with the id [question_id]: the
    accepted answers whose [question_id] field spells that id, which are
    the ones that [ObjectId(answer["question_id"])] leads to the question. *)
Definition accepted_answers_of `{Bson} (question_id : string) (xs : list Answer)
    : list Answer :=
  List.filter
    (fun a => String.eqb (oid_str (a_question_id a)) question_id && a_is_accepted a) xs.

(** Ids are unique, the answers hold the id of their question as it is
    printed, and a question with an accepted answer names that answer in its
    [accepted_answer] field. *)
Definition accepted_consistent `{Bson} (db : Database) : Prop :=
  NoDup (a_id <$> answers db) /\
  NoDup (q_id <$> questions db) /\
  Forall (fun a => printed (a_question_id a)) (answers db) /\
  Forall (fun q =>
            Forall (fun a =>
                      oid_str (a_question_id a) = q_id q -> a_is_accepted a = true ->
                      q_accepted_answer q = Some (a_id a))
              (answers db))
    (questions db).

(** The answers after the two writes of [accept_answer]: the answers that
    hold the string [question_id] are reset, the answer with the id that
    [answer_id] spells is accepted. *)
Definition accept_in `{Bson} (answer_id question_id : string) (xs : list Answer)
    : list Answer :=
  Mongo.update_one (by_id a_id (oid_str answer_id)) (answer.set_is_accepted true)
    (Mongo.update_many (fun a => String.eqb (a_question_id a) question_id)
       (answer.set_is_accepted false) xs).

(** The store after the three writes of [accept_answer]; the question is
    given the string [answer_id] as it came with the request. *)
Definition accepted_in `{Bson} (answer_id : string) (accepted : Answer) (db : Database)
    : Database :=
  set_questions
    (Mongo.update_one (by_id q_id (oid_str (a_question_id accepted)))
       (answer.set_accepted_answer (Some answer_id)) (questions db))
    (set_answers (accept_in answer_id (a_question_id accepted) (answers db)) db).

(** The store after the writes of [delete_answer]; the string [answer_id]
    is pulled from the question as it came with the request. *)
Definition deleted_in `{Bson} (answer_id : string) (deleted : Answer) (db : Database)
    : Database :=
  let qs :=
    Mongo.update_one (by_id q_id (oid_str (a_question_id deleted)))
      (answer.pull_answer answer_id) (questions db) in
  let qs :=
    if a_is_accepted deleted
    then Mongo.update_one (by_id q_id (oid_str (a_question_id deleted)))
           (answer.set_accepted_answer None) qs
    else qs in
  set_answers (Mongo.delete_one (by_id a_id (oid_str answer_id)) (answers db))
    (set_questions qs db).

(** A good tag: one word without whitespace, in lower case, longer than two
    characters, not made of digits only. *)
Definition single_word_tag (t : string) : Prop :=
  length (PyStr.split t) = 1%nat /\
  PyStr.no_whitespace t /\
  PyStr.is_lowercase t /\
  2 < PyStr.len t /\
  PyStr.isdigit t = false.

(** A character that [lower()] leaves as it is. *)
Definition is_lower_fixed (c : ascii) : bool := Ascii.eqb (PyStr.lower_char c) c.

(** What the two loops keep: the tags gathered so far are good, differ from
    one another, have all been seen, and are fewer than [top_k]. *)
Definition gathering (seen : gset string) (tags : list string) (top_k : Z) : Prop :=
  Forall single_word_tag tags /\ NoDup tags /\ (forall t, t ∈ tags -> t ∈ seen) /\
  Z.of_nat (length tags) < top_k.

Definition gathered (tags : list string) (top_k : Z) : Prop :=
  Forall single_word_tag tags /\ NoDup tags /\ Z.of_nat (length tags) <= top_k.

(** [x] stands before [y] in a ranking: the score of [y] is not larger. *)
Definition ranks_before {A} (x y : A * Q) : Prop := (snd y <= snd x)%Q.

(** Every answer belongs to a question of the store. *)
Definition references_exist `{Bson} (db : Database) : Prop :=
  Forall (fun a => Exists (fun q => q_id q = oid_str (a_question_id a)) (questions db))
    (answers db).

Definition well_formed `{Bson} (db : Database) : Prop :=
  accepted_consistent db /\ references_exist db.

(** The requests that write questions or answers. *)
Inductive request :=
| CreateQuestion (question_data : question.QuestionCreate) (current_user : User)
    (inserted_id : string)
| DeleteQuestion (question_id : string) (current_user : User)
| CreateAnswer (question_id : string) (answer_data : answer.AnswerCreate)
    (current_user : User) (inserted_id : string)
| CreateAiAnswer (question_id : string) (current_user : User) (inserted_id : string)
| VoteAnswer (answer_id : string) (vote_action : answer.VoteAction) (current_user : User)
| AcceptAnswer (answer_id : string) (current_user : User)
| DeleteAnswer (answer_id : string) (current_user : User).

Section Service.
Context `{Bson} `{toxic_spam_model.Classifier} `{auto_tag.Models} `{PyList.SetOrder}
  `{answer.Llm}.

(** The store that a request leaves, whatever the handler returns. *)
Definition serve (r : request) (db : Database) : Database :=
  match r with
  | CreateQuestion question_data current_user inserted_id =>
      (question.create_question question_data current_user inserted_id db).2
  | DeleteQuestion question_id current_user =>
      (question.delete_question question_id current_user db).2
  | CreateAnswer question_id answer_data current_user inserted_id =>
      (answer.create_answer question_id answer_data current_user inserted_id db).2
  | CreateAiAnswer question_id current_user inserted_id =>
      (answer.create_ai_answer question_id current_user inserted_id db).2
  | VoteAnswer answer_id vote_action current_user =>
      (answer.vote_answer answer_id vote_action current_user db).2
  | AcceptAnswer answer_id current_user =>
      (answer.accept_answer answer_id current_user db).2
  | DeleteAnswer answer_id current_user =>
      (answer.delete_answer answer_id current_user db).2
  end.

(** The id that [insert_one] gives to a new document is not in use. *)
Definition fresh (r : request) (db : Database) : Prop :=
  match r with
  | CreateQuestion _ _ inserted_id => inserted_id ∉ q_id <$> questions db
  | CreateAnswer _ _ _ inserted_id | CreateAiAnswer _ _ inserted_id =>
      inserted_id ∉ a_id <$> answers db
  | _ => True
  end.

(** The request spells the id of the question or the answer that it
    addresses as the service prints ids.  A vote leaves the ids alone, so
    any spelling will do for it. *)
Definition as_printed (r : request) : Prop :=
  match r with
  | CreateQuestion _ _ _ | VoteAnswer _ _ _ => True
  | DeleteQuestion question_id _ | CreateAnswer question_id _ _ _
  | CreateAiAnswer question_id _ _ =>
      is_valid question_id = true -> printed question_id
  | AcceptAnswer answer_id _ | DeleteAnswer answer_id _ =>
      is_valid answer_id = true -> printed answer_id
  end.

(** The stores that the service reaches when its clients spell ids as it
    prints them: it starts without questions and answers, serves requests,
    and between them anything may happen to the users, the notifications
    and the driver. *)
Inductive reachable : Database -> Prop :=
| reachable_start db :
    questions db = [] -> answers db = [] -> reachable db
| reachable_serve r db :
    reachable db -> fresh r db -> as_printed r -> reachable (serve r db)
| reachable_elsewhere db db' :
    reachable db -> questions db' = questions db -> answers db' = answers db ->
    reachable db'.

End Service.

(** ** Vocabulary of the further statements *)

(** A name that [@(\w+)] can capture whole: not empty, word characters
    only. *)
Definition mentionable (name : string) : Prop :=
  name <> EmptyString /\ PyStr.all PyStr.is_word name = true.

(** The text does not go on with a word character. *)
Definition word_ends (rest : string) : Prop :=
  match rest with
  | EmptyString => True
  | String c _ => PyStr.is_word c = false
  end.

(** A character that [clean_text] lets through. *)
Definition is_clean (c : ascii) : bool :=
  (PyStr.is_word c || PyStr.is_space c) && is_lower_fixed c.

(** The user document that [register] inserts. *)
Definition new_user_doc (user_data : auth.UserCreate) (inserted_id : string) : User :=
  {| u_id := inserted_id;
     u_username := auth.username user_data;
     u_email := auth.email user_data;
     u_role := "user" |}.

(** No two users share a name, an address or an id. *)
Definition users_unique (db : Database) : Prop :=
  NoDup (u_username <$> users db) /\ NoDup (u_email <$> users db) /\
  NoDup (u_id <$> users db).

(** The store after the votes [votes] on one answer, cast one after the
    other, each by the user it is paired with. *)
Fixpoint cast_votes `{Bson} (answer_id : string) (votes : list (answer.VoteAction * User))
    (db : Database) : Database :=
  match votes with
  | [] => db
  | (vote_action, current_user) :: rest =>
      cast_votes answer_id rest
        (answer.vote_answer answer_id vote_action current_user db).2
  end.

(** What the votes add up to. *)
Definition total_delta (votes : list (answer.VoteAction * User)) : Z :=
  foldr (fun vote total => vote_delta vote.1 + total) 0 votes.

(** The response of [create_question] and [get_question] for a stored
    question whose author has the name [username]. *)
Definition question_response (q : Question) (username : string) : question.QuestionResponse :=
  {| question.r_id := q_id q;
     question.r_title := q_title q;
     question.r_description := q_description q;
     question.r_tags := q_tags q;
     question.r_user_id := q_user_id q;
     question.r_answers := q_answers q;
     question.r_accepted_answer := q_accepted_answer q;
     question.r_answer_count := Z.of_nat (length (q_answers q));
     question.r_username := username |}.

(** The answer document that [create_ai_answer] inserts. *)
Definition ai_answer_doc `{answer.Llm} (question : Question) (question_id : string)
    (current_user : User) (inserted_id : string) : Answer :=
  {| a_id := inserted_id;
     a_question_id := question_id;
     a_user_id := u_id current_user;
     a_content :=
       answer.generate_chatgpt_answer (q_title question +:+ " - " +:+ q_description question);
     a_votes := 0;
     a_is_accepted := false;
     a_ai_generated := true;
     a_toxic_score := 0 |}.

(** The ids of the stored answers to the question with the id
    [question_id], in the order in which they were stored: the answers
    whose [question_id] field spells that id. *)
Definition answers_to `{Bson} (question_id : string) (xs : list Answer) : list string :=
  a_id <$> List.filter (fun a => String.eqb (oid_str (a_question_id a)) question_id) xs.

(** Every question lists exactly the stored answers to it. *)
Definition answers_listed `{Bson} (db : Database) : Prop :=
  Forall (fun q => q_answers q = answers_to (q_id q) (answers db)) (questions db).

(** The pattern [<[^>]+>] matches nowhere in the text. *)
Fixpoint tag_free (s : string) : bool :=
  match s with
  | EmptyString => true
  | String c r => negb (Ascii.eqb c "<" && ai_generated_answer.opens r) && tag_free r
  end.

(** * Properties *)

(** ** Reasoning about handlers *)

Section HandlerLogic.

Context (R : Database -> Database -> Prop) `{!Reflexive R} `{!Transitive R}.

Lemma preserves_ret {A} (a : A) : preserves R (mret a).
Proof. intros db. apply reflexivity. Qed.

Lemma preserves_raise {A} (e : exn) : preserves R (@raise A e).
Proof. intros db. apply reflexivity. Qed.

Lemma preserves_read {A} (f : Database -> A) : preserves R (read f).
Proof. intros db. apply reflexivity. Qed.

Lemma preserves_bind {A B} (m : Handler A) (k : A -> Handler B) :
  preserves R m -> (forall a, preserves R (k a)) -> preserves R (m ≫= k).
Proof.
  intros Hm Hk db. unfold mbind, Handler_bind.
  specialize (Hm db). destruct (m db) as [[a|e] db1]; simpl in *; [|done].
  etrans; [exact Hm|apply Hk].
Qed.

Lemma preserves_try {A} (m : Handler A) (h : exn -> Handler A) :
  preserves R m -> (forall e, preserves R (h e)) -> preserves R (try_except m h).
Proof.
  intros Hm Hh db. unfold try_except.
  specialize (Hm db). destruct (m db) as [[a|e] db1]; simpl in *; [done|].
  etrans; [exact Hm|apply Hh].
Qed.

Lemma preserves_ObjectId `{Bson} (s : string) : preserves R (ObjectId s).
Proof. unfold ObjectId. destruct (is_valid s); [apply preserves_ret|apply preserves_raise]. Qed.

End HandlerLogic.

(** Settles a closed decidable statement by evaluating its decision. *)
Ltac by_evaluation := refine (bool_decide_unpack _ _); vm_compute; exact I.

(** ** The primitives on sample inputs *)

Example extract_mentions_sample :
  notification.extract_mentions "@bob hi @bob, mail a@b.com @@x @ y @john.doe"
  = ["bob"; "bob"; "b"; "x"; "john"].
Proof. reflexivity. Qed.

Example clean_text_sample :
  @auto_tag.clean_text "How to <b>parse</b> JSON < in Python 3000 quickly? "
  = "how to parse json  in python 3000 quickly".
Proof. reflexivity. Qed.

Example split_sample : PyStr.split "  sort  a list " = ["sort"; "a"; "list"].
Proof. reflexivity. Qed.

Example slice_to_sample :
  (PyList.slice_to [1; 2; 3] 2, PyList.slice_to [1; 2; 3] 7,
   PyList.slice_to [1; 2; 3] (-1), PyList.slice_to [1; 2; 3] (-5))
  = ([1; 2], [1; 2; 3], [1; 2], []).
Proof. reflexivity. Qed.

Example is_toxic_fallback_sample :
  (@toxic_spam_model.is_toxic Examples.no_classifier "No SPAM please"
     toxic_spam_model.default_threshold).1 = true.
Proof. reflexivity. Qed.

(** The sort is stable: of the two results with score 1/2 the first stays
    first. *)
Example smart_search_sample :
  List.map (fun r => (smart_search.id r.1, r.2))
    (@smart_search.smart_search Examples.by_length "exam" Examples.sample_questions 3)
  = [(1, (1 # 2)%Q); (3, (1 # 2)%Q); (2, (1 # 8)%Q)].
Proof. reflexivity. Qed.

(** ** The notification triggers never notify the sender *)

Section NoSelfNotification.
Context `{Bson}.

#[export] Instance appends_to_others_refl : Reflexive appends_to_others.
Proof.
  intros db. repeat split. exists []. by rewrite app_nil_r.
Qed.

#[export] Instance appends_to_others_trans : Transitive appends_to_others.
Proof.
  intros d1 d2 d3 (Hu1 & Hq1 & Ha1 & l1 & Hn1 & Hf1) (Hu2 & Hq2 & Ha2 & l2 & Hn2 & Hf2).
  repeat split; [congruence..|].
  exists (l1 ++ l2). split.
  - by rewrite Hn2, Hn1, app_assoc.
  - by apply Forall_app.
Qed.

Lemma await_insert_one_appends (doc : Notification) :
  n_user_id doc <> n_from_user_id doc ->
  preserves appends_to_others (notification.await_insert_one doc).
Proof.
  intros Hne db. unfold notification.await_insert_one.
  destruct (driver db) as [|[| |] ws]; simpl; repeat split;
    solve [ exists [doc]; split; [done|by constructor]
          | exists []; split; [by rewrite app_nil_r|constructor] ].
Qed.

Lemma create_notification_appends user_id from_user_id t message question_id answer_id :
  preserves appends_to_others
    (notification.create_notification user_id from_user_id t message question_id answer_id).
Proof.
  unfold notification.create_notification.
  destruct (String.eqb user_id from_user_id) eqn:E; simpl.
  - apply preserves_ret; apply _.
  - apply await_insert_one_appends. simpl. by apply String.eqb_neq.
Qed.

Lemma create_notification_self user_id t message question_id answer_id db :
  notification.create_notification user_id user_id t message question_id answer_id db
  = (Return tt, db).
Proof.
  unfold notification.create_notification. by rewrite String.eqb_refl.
Qed.

Lemma find_user_by_id_appends s : preserves appends_to_others (notification.find_user_by_id s).
Proof.
  apply preserves_bind; try apply _; [apply preserves_ObjectId; apply _|].
  intros a. apply preserves_read; apply _.
Qed.

Lemma find_question_by_id_appends s :
  preserves appends_to_others (notification.find_question_by_id s).
Proof.
  apply preserves_bind; try apply _; [apply preserves_ObjectId; apply _|].
  intros a. apply preserves_read; apply _.
Qed.

Lemma find_answer_by_id_appends s :
  preserves appends_to_others (notification.find_answer_by_id s).
Proof.
  apply preserves_bind; try apply _; [apply preserves_ObjectId; apply _|].
  intros a. apply preserves_read; apply _.
Qed.

Lemma notify_new_answer_appends question_id answer_id answerer_id :
  preserves appends_to_others
    (notification.notify_new_answer question_id answer_id answerer_id).
Proof.
  apply preserves_bind; try apply _; [apply find_question_by_id_appends|].
  intros [q|]; [|apply preserves_ret; apply _].
  apply preserves_bind; try apply _; [apply find_user_by_id_appends|].
  intros u. apply create_notification_appends.
Qed.

Lemma notify_accepted_answer_appends answer_id question_author_id :
  preserves appends_to_others
    (notification.notify_accepted_answer answer_id question_author_id).
Proof.
  apply preserves_bind; try apply _; [apply find_answer_by_id_appends|].
  intros [a|]; [|apply preserves_ret; apply _].
  apply preserves_bind; try apply _; [apply find_question_by_id_appends|].
  intros [q|]; [|apply preserves_ret; apply _].
  apply preserves_bind; try apply _; [apply find_user_by_id_appends|].
  intros u. apply create_notification_appends.
Qed.

Lemma notify_each_appends mentions from_username from_user_id question_id answer_id :
  preserves appends_to_others
    (notification.notify_each mentions from_username from_user_id question_id answer_id).
Proof.
  induction mentions as [|username rest IH]; simpl.
  - apply preserves_ret; apply _.
  - apply preserves_bind; try apply _; [apply preserves_read; apply _|].
    intros [u|]; [|exact IH].
    apply preserves_bind; try apply _; [apply create_notification_appends|].
    intros _. exact IH.
Qed.

Lemma notify_mentions_appends content from_user_id question_id answer_id :
  preserves appends_to_others
    (notification.notify_mentions content from_user_id question_id answer_id).
Proof.
  unfold notification.notify_mentions.
  destruct (notification.extract_mentions content) as [|m ms] eqn:E.
  - apply preserves_ret; apply _.
  - apply preserves_bind; try apply _; [apply find_user_by_id_appends|].
    intros u. apply notify_each_appends.
Qed.

(** C1.  [create_notification] leaves the store as it is when the recipient
    is the sender, and in every case it and the three triggers
    [notify_new_answer], [notify_accepted_answer] and [notify_mentions] only
    append notifications whose recipient differs from their sender,
    whatever the driver does and whatever they return. *)
Theorem no_self_notification (db : Database) :
  (forall user_id from_user_id t message question_id answer_id,
     (user_id = from_user_id ->
      (notification.create_notification user_id from_user_id t message
         question_id answer_id db).2 = db) /\
     appends_to_others db
       (notification.create_notification user_id from_user_id t message
          question_id answer_id db).2) /\
  (forall question_id answer_id answerer_id,
     appends_to_others db
       (notification.notify_new_answer question_id answer_id answerer_id db).2) /\
  (forall answer_id question_author_id,
     appends_to_others db
       (notification.notify_accepted_answer answer_id question_author_id db).2) /\
  (forall content from_user_id question_id answer_id,
     appends_to_others db
       (notification.notify_mentions content from_user_id question_id answer_id db).2).
Proof.
  split; [|split; [|split]].
  - intros user_id from_user_id t message question_id answer_id. split.
    + intros ->. by rewrite create_notification_self.
    + apply create_notification_appends.
  - intros. apply notify_new_answer_appends.
  - intros. apply notify_accepted_answer_appends.
  - intros. apply notify_mentions_appends.
Qed.

End NoSelfNotification.

(** ** What the triggers write when every insert is stored *)

Section FanOut.
Context `{Bson}.

Lemma add_notifications_nil db : add_notifications [] db = db.
Proof. destruct db. unfold add_notifications, set_notifications. simpl. by rewrite app_nil_r. Qed.

Lemma add_notifications_app xs ys db :
  add_notifications ys (add_notifications xs db) = add_notifications (xs ++ ys) db.
Proof. unfold add_notifications, set_notifications. simpl. by rewrite app_assoc. Qed.

Lemma await_insert_one_stored doc db :
  driver db = [] ->
  notification.await_insert_one doc db = (Return tt, add_notifications [doc] db).
Proof.
  intros Hd. unfold notification.await_insert_one, add_notifications. by rewrite Hd.
Qed.

Lemma create_notification_stored user_id from_user_id t message question_id answer_id db :
  driver db = [] ->
  notification.create_notification user_id from_user_id t message question_id answer_id db
  = (Return tt,
     add_notifications
       (if String.eqb user_id from_user_id then []
        else [ {| n_user_id := user_id; n_from_user_id := from_user_id; n_type := t;
                  n_message := message; n_question_id := question_id;
                  n_answer_id := answer_id; n_read := false |} ]) db).
Proof.
  intros Hd. unfold notification.create_notification.
  destruct (String.eqb user_id from_user_id); simpl.
  - by rewrite add_notifications_nil.
  - by apply await_insert_one_stored.
Qed.

Lemma mention_recipients_cons us from_user_id username rest :
  mention_recipients us from_user_id (username :: rest)
  = match find_by_username us username with
    | Some u =>
        if String.eqb (u_id u) from_user_id then mention_recipients us from_user_id rest
        else u :: mention_recipients us from_user_id rest
    | None => mention_recipients us from_user_id rest
    end.
Proof.
  unfold mention_recipients. simpl.
  destruct (find_by_username us username) as [u|]; simpl; [|done].
  by destruct (String.eqb (u_id u) from_user_id).
Qed.

Lemma notify_each_stored mentions from_username from_user_id question_id answer_id db :
  driver db = [] ->
  notification.notify_each mentions from_username from_user_id question_id answer_id db
  = (Return tt,
     add_notifications
       (List.map (mention_doc from_username from_user_id question_id answer_id)
          (mention_recipients (users db) from_user_id mentions)) db).
Proof.
  revert db. induction mentions as [|username rest IH]; intros db Hd.
  - simpl. by rewrite add_notifications_nil.
  - rewrite mention_recipients_cons. simpl. unfold mbind, Handler_bind, read. simpl.
    fold (find_by_username (users db) username).
    destruct (find_by_username (users db) username) as [u|]; [|by apply IH].
    rewrite create_notification_stored by done.
    rewrite IH by done. simpl.
    destruct (String.eqb (u_id u) from_user_id); simpl.
    + by rewrite add_notifications_nil.
    + by rewrite add_notifications_app.
Qed.

Lemma notify_mentions_stored content from_user_id question_id answer_id db :
  driver db = [] ->
  is_valid from_user_id = true ->
  notification.notify_mentions content from_user_id question_id answer_id db
  = (Return tt,
     add_notifications
       (List.map
          (mention_doc (sender_name db from_user_id) from_user_id question_id answer_id)
          (mention_recipients (users db) from_user_id
             (notification.extract_mentions content))) db).
Proof.
  intros Hd Hv. unfold notification.notify_mentions.
  destruct (notification.extract_mentions content) as [|m ms] eqn:E.
  - simpl. by rewrite add_notifications_nil.
  - unfold notification.find_user_by_id, ObjectId. rewrite Hv.
    unfold mbind, Handler_bind, mret, Handler_ret, read.
    by rewrite notify_each_stored.
Qed.

End FanOut.

(** ** Mentions as they are written *)

Section Written.

Lemma word_prefix_word s : PyStr.all PyStr.is_word (PyRe.word_prefix s) = true.
Proof.
  induction s as [|c s IH]; simpl; [done|].
  destruct (PyStr.is_word c) eqn:E; [|done]. simpl. by rewrite E, IH.
Qed.

Lemma findall_at_word_mentionable text name :
  name ∈ PyRe.findall_at_word text -> mentionable name.
Proof.
  induction text as [|c r IH]; simpl.
  - by intros ?%elem_of_nil.
  - destruct (Ascii.eqb c "@"); [|exact IH].
    destruct (PyRe.word_prefix r) as [|c' w] eqn:E; [exact IH|].
    intros [->|Hin]%elem_of_cons; [|by apply IH].
    split; [done|]. rewrite <- E. apply word_prefix_word.
Qed.

Lemma append_nil s : EmptyString +:+ s = s.
Proof. reflexivity. Qed.

Lemma append_cons c s t : String c s +:+ t = String c (s +:+ t).
Proof. reflexivity. Qed.

Lemma word_prefix_app name rest :
  PyStr.all PyStr.is_word name = true -> word_ends rest ->
  PyRe.word_prefix (name +:+ rest) = name.
Proof.
  induction name as [|c name IH]; rewrite ?append_nil, ?append_cons; simpl.
  - intros _ Hrest. destruct rest as [|c r]; [done|]. simpl in *. by rewrite Hrest.
  - intros [Hc Hname]%andb_true_iff Hrest. rewrite Hc. f_equal. by apply IH.
Qed.

Lemma findall_at_word_app before after name :
  name ∈ PyRe.findall_at_word after ->
  name ∈ PyRe.findall_at_word (before +:+ after).
Proof.
  induction before as [|c before IH]; rewrite ?append_nil, ?append_cons; simpl; [done|].
  intros Hin. destruct (Ascii.eqb c "@"); [|by apply IH].
  destruct (PyRe.word_prefix (before +:+ after)); [by apply IH|].
  apply elem_of_cons. right. by apply IH.
Qed.

End Written.

(** ** The mention loop on the collections of the service *)

Section Awaited.
Context `{Bson}.










End Awaited.

(** ** How often a mention is notified *)

Section MentionCount.
Context `{Bson}.

Lemma NoDup_fmap_eq {A B} (f : A -> B) (l : list A) (x y : A) :
  NoDup (f <$> l) -> x ∈ l -> y ∈ l -> f x = f y -> x = y.
Proof.
  induction l as [|z l IH]; intros Hnd Hx Hy Hf; [by apply elem_of_nil in Hx|].
  rewrite fmap_cons in Hnd. apply NoDup_cons in Hnd as [Hz Hnd].
  apply elem_of_cons in Hx as [->|Hx]; apply elem_of_cons in Hy as [->|Hy]; try done.
  - exfalso. apply Hz. rewrite Hf. by apply list_elem_of_fmap_2.
  - exfalso. apply Hz. rewrite <- Hf. by apply list_elem_of_fmap_2.
  - by apply IH.
Qed.

Lemma find_by_username_Some us username u :
  find_by_username us username = Some u -> u ∈ us /\ u_username u = username.
Proof.
  unfold find_by_username, Mongo.find_one. intros Hf.
  apply find_some in Hf as [Hin Heq].
  split; [by apply list_elem_of_In|by apply String.eqb_eq].
Qed.

Lemma find_by_username_None us username u :
  find_by_username us username = None -> u ∈ us -> u_username u <> username.
Proof.
  unfold find_by_username, Mongo.find_one. intros Hf Hin Heq.
  apply list_elem_of_In in Hin.
  pose proof (find_none _ _ Hf _ Hin) as Hn. simpl in Hn.
  apply String.eqb_neq in Hn. done.
Qed.

Lemma count_for_mention_docs from_username from_user_id question_id answer_id user_id us :
  count_for user_id
    (List.map (mention_doc from_username from_user_id question_id answer_id) us)
  = length (List.filter (fun u => String.eqb (u_id u) user_id) us).
Proof.
  unfold count_for. induction us as [|u us IH]; [done|]. simpl.
  destruct (String.eqb (u_id u) user_id); simpl; by rewrite IH.
Qed.

Lemma recipients_count us from_user_id mentions u :
  NoDup (u_username <$> us) -> NoDup (u_id <$> us) ->
  u ∈ us -> u_id u <> from_user_id ->
  length (List.filter (fun u' => String.eqb (u_id u') (u_id u))
            (mention_recipients us from_user_id mentions))
  = occurrences (u_username u) mentions.
Proof.
  intros Hnames Hids Hu Hne. unfold occurrences.
  induction mentions as [|m rest IH]; [done|].
  rewrite mention_recipients_cons. simpl.
  destruct (find_by_username us m) as [u'|] eqn:Hf.
  - apply find_by_username_Some in Hf as [Hu' Hm].
    destruct (String.eqb (u_username u) m) eqn:Em.
    + apply String.eqb_eq in Em.
      assert (u' = u) as -> by (apply (NoDup_fmap_eq u_username us); congruence).
      apply String.eqb_neq in Hne. rewrite Hne. simpl.
      rewrite String.eqb_refl. simpl. by rewrite IH.
    + apply String.eqb_neq in Em.
      destruct (String.eqb (u_id u') from_user_id); [done|]. simpl.
      destruct (String.eqb (u_id u') (u_id u)) eqn:Ei; [|done].
      apply String.eqb_eq in Ei.
      assert (u' = u) as -> by (by apply (NoDup_fmap_eq u_id us)).
      congruence.
  - pose proof (find_by_username_None _ _ _ Hf Hu) as Hn.
    apply String.eqb_neq in Hn. by rewrite Hn.
Qed.


End MentionCount.


(** On the collections of the service the first notification is stored and
    the call ends there: Bob, mentioned twice, is notified once. *)
Example notify_mentions_sample :
  let run :=
    @notification.notify_mentions bson.hex_ids "@bob thanks, @bob"
      "64a000000000000000000001" (Some "64b000000000000000000001") None
      Examples.db_hex in
  run.1 = Raise (Exception "await") /\
  notifications run.2
  = [mention_doc "alice" "64a000000000000000000001" (Some "64b000000000000000000001")
       None Examples.hex_bob].
Proof. split; reflexivity. Qed.

(** ** Who is notified *)

Section FanOutTargets.
Context `{Bson}.



Lemma notify_new_answer_stored question_id answer_id answerer_id question db :
  driver db = [] ->
  is_valid question_id = true ->
  is_valid answerer_id = true ->
  Mongo.find_one (by_id q_id (oid_str question_id)) (questions db) = Some question ->
  notification.notify_new_answer question_id answer_id answerer_id db
  = (Return tt,
     add_notifications
       (if String.eqb (q_user_id question) answerer_id then []
        else [ {| n_user_id := q_user_id question;
                  n_from_user_id := answerer_id;
                  n_type := ANSWER;
                  n_message := sender_name db answerer_id +:+ " answered your question: "
                               +:+ q_title question;
                  n_question_id := Some question_id;
                  n_answer_id := Some answer_id;
                  n_read := false |} ]) db).
Proof.
  intros Hd Hq Ha Hf. unfold notification.notify_new_answer,
    notification.find_question_by_id, notification.find_user_by_id, ObjectId.
  rewrite Hq, Ha. unfold mbind, Handler_bind, mret, Handler_ret, read. rewrite Hf.
  by rewrite create_notification_stored.
Qed.

Lemma notify_accepted_answer_stored answer_id question_author_id answer question db :
  driver db = [] ->
  is_valid answer_id = true ->
  is_valid (a_question_id answer) = true ->
  is_valid question_author_id = true ->
  Mongo.find_one (by_id a_id (oid_str answer_id)) (answers db) = Some answer ->
  Mongo.find_one (by_id q_id (oid_str (a_question_id answer))) (questions db)
  = Some question ->
  notification.notify_accepted_answer answer_id question_author_id db
  = (Return tt,
     add_notifications
       (if String.eqb (a_user_id answer) question_author_id then []
        else [ {| n_user_id := a_user_id answer;
                  n_from_user_id := question_author_id;
                  n_type := ACCEPTED_ANSWER;
                  n_message := sender_name db question_author_id
                               +:+ " accepted your answer to: " +:+ q_title question;
                  n_question_id := Some (a_question_id answer);
                  n_answer_id := Some answer_id;
                  n_read := false |} ]) db).
Proof.
  intros Hd Ha Hq Hu Hfa Hfq. unfold notification.notify_accepted_answer,
    notification.find_answer_by_id, notification.find_question_by_id,
    notification.find_user_by_id, ObjectId.
  rewrite Ha. unfold mbind, Handler_bind, mret, Handler_ret, read. rewrite Hfa.
  rewrite Hq, Hfq, Hu.
  by rewrite create_notification_stored.
Qed.





End FanOutTargets.



(** ** [create_answer] and the failures of its notification steps *)

Section CreateAnswer.
Context `{Bson} `{toxic_spam_model.Classifier} `{answer.Llm}.

Lemma find_one_app_last {A} (p : A -> bool) (l : list A) (x : A) :
  p x = true -> exists y, Mongo.find_one p (l ++ [x]) = Some y /\ p y = true.
Proof.
  intros Hx. unfold Mongo.find_one. induction l as [|z l IH]; simpl.
  - rewrite Hx. by exists x.
  - destruct (p z) eqn:Hz; [by exists z|exact IH].
Qed.

Lemma find_one_update_one {A} (p : A -> bool) (f : A -> A) (l : list A) (x : A) :
  (forall y, p (f y) = p y) ->
  Mongo.find_one p l = Some x ->
  Mongo.find_one p (Mongo.update_one p f l) = Some (f x).
Proof.
  intros Hf. unfold Mongo.find_one. induction l as [|z l IH]; simpl; [done|].
  destruct (p z) eqn:Hz; simpl.
  - intros [= ->]. by rewrite Hf, Hz.
  - rewrite Hz. exact IH.
Qed.

Lemma store_answer_run question_id doc db :
  is_valid question_id = true ->
  answer.store_answer question_id doc db
  = (Return (Mongo.find_one (by_id a_id (a_id doc)) (Mongo.insert_one doc (answers db))),
     with_answer question_id doc db).
Proof.
  intros Hv. unfold answer.store_answer, ObjectId. rewrite Hv. reflexivity.
Qed.

Lemma notification_steps_return question_id answer_data current_user inserted_id db :
  (notification_steps question_id answer_data current_user inserted_id db).1 = Return tt.
Proof.
  unfold notification_steps, try_except.
  match goal with |- context [match ?m db with _ => _ end] => destruct (m db) as [[[]|e] db'] end;
    reflexivity.
Qed.

Lemma create_answer_run question_id answer_data current_user inserted_id question db :
  is_valid question_id = true ->
  Mongo.find_one (by_id q_id (oid_str question_id)) (questions db) = Some question ->
  (toxic_spam_model.is_toxic (answer.content answer_data)
     toxic_spam_model.default_threshold).1 = false ->
  exists created,
    Mongo.find_one (by_id a_id inserted_id)
      (Mongo.insert_one (new_answer_doc question_id answer_data current_user inserted_id)
         (answers db)) = Some created /\
    answer.create_answer question_id answer_data current_user inserted_id db
    = (Return (answer.response created (u_username current_user) (u_role current_user)),
       (notification_steps question_id answer_data current_user inserted_id
          (with_answer question_id
             (new_answer_doc question_id answer_data current_user inserted_id) db)).2).
Proof.
  intros Hv Hf Htox.
  destruct (find_one_app_last (by_id a_id inserted_id) (answers db)
              (new_answer_doc question_id answer_data current_user inserted_id))
    as (created & Hc & _); [apply String.eqb_refl|].
  exists created. split; [exact Hc|].
  unfold answer.create_answer, notification.find_question_by_id, ObjectId.
  rewrite Hv. unfold new_answer_doc in *.
  destruct (toxic_spam_model.is_toxic _ _) as [flag score]. simpl in Htox. subst flag.
  cbn [fst snd] in *.
  unfold try_except at 1.
  unfold mbind at 1, Handler_bind at 1.
  unfold try_except at 1.
  unfold mbind at 1, Handler_bind at 1, mret at 1, Handler_ret at 1, read at 1.
  rewrite Hf.
  unfold mbind at 1, Handler_bind at 1.
  rewrite store_answer_run by done. cbn [a_id]. unfold Mongo.insert_one at 1. rewrite Hc.
  unfold mbind at 1, Handler_bind at 1.
  fold (notification_steps question_id answer_data current_user inserted_id).
  pose proof (notification_steps_return question_id answer_data current_user inserted_id
    (with_answer question_id
       {| a_id := inserted_id; a_question_id := question_id;
          a_user_id := u_id current_user; a_content := answer.content answer_data;
          a_votes := 0; a_is_accepted := false; a_ai_generated := false;
          a_toxic_score := score |} db)) as Hr.
  destruct (notification_steps _ _ _ _ _) as [r db2]. simpl in Hr. subst r.
  reflexivity.
Qed.

Lemma notification_steps_appends question_id answer_data current_user inserted_id :
  preserves appends_to_others
    (notification_steps question_id answer_data current_user inserted_id).
Proof.
  apply preserves_try; try apply _.
  - apply preserves_bind; try apply _; [apply notify_new_answer_appends|].
    intros _. apply notify_mentions_appends.
  - intros e. apply preserves_ret; apply _.
Qed.

Lemma find_question_with_answer question_id doc question db :
  Mongo.find_one (by_id q_id (oid_str question_id)) (questions db) = Some question ->
  Mongo.find_one (by_id q_id (oid_str question_id)) (questions (with_answer question_id doc db))
  = Some (answer.push_answer (a_id doc) question).
Proof.
  intros Hf. unfold with_answer. simpl. by apply find_one_update_one.
Qed.

Lemma notification_steps_stored question_id answer_data current_user inserted_id question db :
  driver db = [] ->
  is_valid question_id = true ->
  is_valid (u_id current_user) = true ->
  Mongo.find_one (by_id q_id (oid_str question_id)) (questions db) = Some question ->
  notification_steps question_id answer_data current_user inserted_id db
  = (Return tt,
     add_notifications
       (new_answer_notification db question question_id inserted_id (u_id current_user)
        ++ mention_notifications db (answer.content answer_data) (u_id current_user)
             (Some question_id) (Some inserted_id)) db).
Proof.
  intros Hd Hq Hu Hf. unfold notification_steps, try_except.
  unfold mbind, Handler_bind.
  rewrite (notify_new_answer_stored _ _ _ question) by done.
  rewrite notify_mentions_stored by done.
  by rewrite add_notifications_app.
Qed.

Lemma notification_steps_first_raises question_id answer_data current_user inserted_id
    question outcome ws db :
  driver db = outcome :: ws ->
  outcome <> Stored ->
  is_valid question_id = true ->
  is_valid (u_id current_user) = true ->
  Mongo.find_one (by_id q_id (oid_str question_id)) (questions db) = Some question ->
  q_user_id question <> u_id current_user ->
  (notification_steps question_id answer_data current_user inserted_id db).2
  = set_notifications
      (notifications db ++
       match outcome with
       | Refused => []
       | _ => new_answer_notification db question question_id inserted_id
                (u_id current_user)
       end) ws db.
Proof.
  intros Hd Ho Hq Hu Hf Hne. apply String.eqb_neq in Hne.
  unfold notification_steps, try_except, mbind, Handler_bind,
    notification.notify_new_answer, notification.find_question_by_id,
    notification.find_user_by_id, ObjectId.
  rewrite Hq, Hu. unfold mbind, Handler_bind, mret, Handler_ret, read. rewrite Hf.
  unfold notification.create_notification, new_answer_notification. rewrite Hne. simpl.
  unfold notification.await_insert_one. rewrite Hd.
  destruct outcome; [done| |]; simpl.
  - by rewrite app_nil_r.
  - reflexivity.
Qed.

(** C3, as the code has it.  On an existing question and with content that
    passes moderation, [create_answer] stores the answer and returns it
    whatever the driver does in the notification steps.  When every insert
    is stored, the new-answer notification for the question's author and
    the mention notifications are appended.  When the first insert raises,
    the exception is swallowed and the later notifications are never
    attempted: nothing is appended when the insert was refused, and only the
    new-answer notification when it raised after storing. *)
Theorem create_answer_swallows_notification_failures (db : Database)
    (question_id : string) (answer_data : answer.AnswerCreate) (current_user : User)
    (inserted_id : string) (question : Question) :
  is_valid question_id = true ->
  is_valid (u_id current_user) = true ->
  Mongo.find_one (by_id q_id (oid_str question_id)) (questions db) = Some question ->
  (toxic_spam_model.is_toxic (answer.content answer_data)
     toxic_spam_model.default_threshold).1 = false ->
  exists resp db',
    answer.create_answer question_id answer_data current_user inserted_id db
    = (Return resp, db') /\
    answers db'
    = answers db ++ [new_answer_doc question_id answer_data current_user inserted_id] /\
    (driver db = [] ->
     notifications db'
     = notifications db
       ++ new_answer_notification db question question_id inserted_id (u_id current_user)
       ++ mention_notifications db (answer.content answer_data) (u_id current_user)
            (Some question_id) (Some inserted_id)) /\
    (forall ws,
       driver db = Refused :: ws -> q_user_id question <> u_id current_user ->
       notifications db' = notifications db) /\
    (forall ws,
       driver db = StoredThenRaised :: ws -> q_user_id question <> u_id current_user ->
       notifications db'
       = notifications db
         ++ new_answer_notification db question question_id inserted_id
              (u_id current_user)).
Proof.
  intros Hq Hu Hf Htox.
  destruct (create_answer_run question_id answer_data current_user inserted_id question db)
    as (created & _ & Hrun); [done..|].
  set (doc := new_answer_doc question_id answer_data current_user inserted_id) in *.
  pose proof (find_question_with_answer question_id doc question db Hf) as Hf1.
  eexists _, _. split; [exact Hrun|]. split; [|split; [|split]].
  - destruct (notification_steps_appends question_id answer_data current_user inserted_id
                (with_answer question_id doc db)) as (_ & _ & Ha & _).
    rewrite Ha. reflexivity.
  - intros Hd.
    rewrite (notification_steps_stored _ _ _ _ (answer.push_answer (a_id doc) question))
      by done.
    reflexivity.
  - intros ws Hd Hne.
    rewrite (notification_steps_first_raises _ _ _ _
               (answer.push_answer (a_id doc) question) Refused ws) by done.
    simpl. by rewrite app_nil_r.
  - intros ws Hd Hne.
    rewrite (notification_steps_first_raises _ _ _ _
               (answer.push_answer (a_id doc) question) StoredThenRaised ws) by done.
    reflexivity.
Qed.

End CreateAnswer.

(** C3, as it is stated, fails: the driver refuses the notification about
    Bob's answer to Alice's question; the answer is created and returned,
    and neither Alice nor the mentioned Carol is notified. *)
Lemma refused_notification_is_dropped :
  (exists resp,
     (@answer.create_answer Examples.any_id Examples.no_classifier "q1"
        {| answer.content := "Use a key function, as @carol said." |}
        Examples.bob "a3" Examples.db_refusing).1 = Return resp) /\
  notifications
    (@answer.create_answer Examples.any_id Examples.no_classifier "q1"
       {| answer.content := "Use a key function, as @carol said." |}
       Examples.bob "a3" Examples.db_refusing).2 = [].
Proof. split; [eexists|]; vm_compute; reflexivity. Qed.

Lemma create_answer_swallows_notification_failures_witness :
  exists resp db',
    @answer.create_answer Examples.any_id Examples.no_classifier "q1"
      {| answer.content := "Use a key function, as @carol said." |}
      Examples.bob "a3" Examples.db0 = (Return resp, db') /\
    length (answers db') = 3%nat /\
    length (notifications db') = 2%nat.
Proof.
  destruct (@create_answer_swallows_notification_failures Examples.any_id
              Examples.no_classifier Examples.db0 "q1"
              {| answer.content := "Use a key function, as @carol said." |}
              Examples.bob "a3" Examples.q1)
    as (resp & db' & Hrun & Hanswers & Hstored & _); [reflexivity..|].
  exists resp, db'. split; [exact Hrun|]. split.
  - rewrite Hanswers. reflexivity.
  - rewrite (Hstored eq_refl). reflexivity.
Defined.

(** ** [create_question]: moderation and tags *)

Section CreateQuestion.
Context `{Bson} `{toxic_spam_model.Classifier} `{auto_tag.Models} `{PyList.SetOrder}.

Lemma is_toxic_threshold text :
  (toxic_spam_model.is_toxic text toxic_spam_model.default_threshold).1
  = Qle_bool toxic_spam_model.default_threshold
      (toxic_spam_model.is_toxic text toxic_spam_model.default_threshold).2.
Proof.
  unfold toxic_spam_model.is_toxic.
  destruct toxic_spam_model.AI_AVAILABLE; simpl; [done|].
  match goal with |- context [if ?b then _ else _] => destruct b end; reflexivity.
Qed.

Lemma create_question_toxic question_data current_user inserted_id db :
  (toxic_spam_model.is_toxic (combined_text question_data)
     toxic_spam_model.default_threshold).1 = true ->
  question.create_question question_data current_user inserted_id db
  = (Raise (HTTPException 400 question.guidelines_detail), db).
Proof.
  unfold question.create_question, combined_text.
  destruct (toxic_spam_model.is_toxic _ _) as [flag score]. simpl. by intros ->.
Qed.

Lemma create_question_inserts question_data current_user inserted_id db :
  (toxic_spam_model.is_toxic (combined_text question_data)
     toxic_spam_model.default_threshold).1 = false ->
  appends_to_others
    (set_questions
       (questions db ++ [new_question_doc question_data current_user inserted_id]) db)
    (question.create_question question_data current_user inserted_id db).2.
Proof.
  unfold question.create_question, new_question_doc, ai_suggested_tags, combined_text.
  destruct (toxic_spam_model.is_toxic _ _) as [flag score]. simpl. intros ->.
  unfold mbind at 1, Handler_bind at 1, write at 1.
  unfold mbind at 1, Handler_bind at 1, read at 1.
  unfold mbind at 1, Handler_bind at 1.
  unfold Mongo.insert_one.
  match goal with
  | |- context [notification.notify_mentions ?c ?u ?q ?a ?d] =>
      pose proof (notify_mentions_appends c u q a d) as Hn;
      destruct (notification.notify_mentions c u q a d) as [[[]|e] db2]
  end; simpl in *; [|exact Hn].
  destruct (Mongo.find_one _ _); exact Hn.
Qed.

(** C6.  [create_question] moderates the title, a space and the description.
    When [is_toxic] flags that text the handler raises HTTP 400 and leaves
    the whole store as it was: no question, no notification.  When it does
    not, the question document is appended to the questions, and whatever
    follows only appends notifications.  The flag is set exactly when the
    score is at or above the threshold 0.5. *)
Theorem toxic_question_is_rejected (question_data : question.QuestionCreate)
    (current_user : User) (inserted_id : string) (db : Database) :
  let verdict :=
    toxic_spam_model.is_toxic
      (question.title question_data +:+ " " +:+ question.description question_data)
      toxic_spam_model.default_threshold in
  (verdict.1 = true ->
   question.create_question question_data current_user inserted_id db
   = (Raise (HTTPException 400 question.guidelines_detail), db)) /\
  (verdict.1 = false ->
   questions (question.create_question question_data current_user inserted_id db).2
   = questions db ++ [new_question_doc question_data current_user inserted_id]) /\
  verdict.1 = Qle_bool 0.5 verdict.2.
Proof.
  split; [|split].
  - apply create_question_toxic.
  - intros Hv. by destruct (create_question_inserts _ current_user inserted_id db Hv)
      as (_ & -> & _).
  - apply is_toxic_threshold.
Qed.

Lemma slice_to_10 {A} (l : list A) : PyList.slice_to l 10 = take 10 l.
Proof. reflexivity. Qed.

(** C9, as the code has it.  The tags stored by [create_question] are the
    first ten of the set of the user's tags and the suggested tags, in the
    order in which the set iterates: they hold no tag twice, each of them
    is a tag of the user or a suggested one, and they are at most ten.  They
    are all the tags of both lists when these are at most ten different
    tags; when they are more, some tag of the two lists is not stored. *)
Theorem stored_tags_are_bounded (question_data : question.QuestionCreate)
    (current_user : User) (inserted_id : string) (db : Database) :
  (toxic_spam_model.is_toxic (combined_text question_data)
     toxic_spam_model.default_threshold).1 = false ->
  exists doc,
    questions (question.create_question question_data current_user inserted_id db).2
    = questions db ++ [doc] /\
    q_id doc = inserted_id /\
    q_tags doc
    = take 10 (PyList.list_of_set
                 (question.tags question_data ++ ai_suggested_tags question_data)) /\
    NoDup (q_tags doc) /\
    (forall t, t ∈ q_tags doc ->
       t ∈ question.tags question_data \/ t ∈ ai_suggested_tags question_data) /\
    (length (q_tags doc) <= 10)%nat /\
    ((length (PyList.list_of_set
                (question.tags question_data ++ ai_suggested_tags question_data))
      <= 10)%nat ->
     forall t,
       t ∈ question.tags question_data \/ t ∈ ai_suggested_tags question_data ->
       t ∈ q_tags doc) /\
    ((10 < length (PyList.list_of_set
                     (question.tags question_data ++ ai_suggested_tags question_data)))%nat ->
     exists t,
       (t ∈ question.tags question_data \/ t ∈ ai_suggested_tags question_data) /\
       t ∉ q_tags doc).
Proof.
  intros Hv. exists (new_question_doc question_data current_user inserted_id).
  destruct (create_question_inserts _ current_user inserted_id db Hv) as (_ & Hq & _).
  split; [exact Hq|]. split; [done|]. simpl. unfold question.final_tags.
  rewrite slice_to_10.
  set (l := question.tags question_data ++ ai_suggested_tags question_data).
  split; [done|]. split; [|split; [|split; [|split]]].
  - eapply sublist_NoDup; [apply PyList.list_of_set_NoDup|apply sublist_take].
  - intros t Ht. apply elem_of_app, PyList.list_of_set_elem.
    by apply (subseteq_take 10).
  - rewrite length_take. lia.
  - intros Hlen t Ht. rewrite take_ge by done.
    apply PyList.list_of_set_elem, elem_of_app. done.
  - intros Hlen.
    pose proof (PyList.list_of_set_NoDup l) as Hnd.
    rewrite <- (take_drop 10 (PyList.list_of_set l)) in Hnd.
    apply NoDup_app in Hnd as (_ & Hdisjoint & _).
    destruct (drop 10 (PyList.list_of_set l)) as [|t rest] eqn:Hdrop.
    { apply (f_equal length) in Hdrop. rewrite length_drop in Hdrop. simpl in Hdrop. lia. }
    exists t. split.
    + apply elem_of_app, PyList.list_of_set_elem.
      rewrite <- (take_drop 10 (PyList.list_of_set l)), Hdrop.
      apply elem_of_app. right. by left.
    + intros Ht. apply (Hdisjoint t Ht). by left.
Qed.

End CreateQuestion.

(** C9, as it is stated, fails.  Three tags of the user and the eight
    suggested tags, all different: eleven tags, of which ten are stored.
    Which one is lost depends on the order in which the set iterates: with
    one order it is a suggested tag, with another a tag of the user. *)
Lemma eleven_tags_lose_one :
  let stored order :=
    List.map q_tags
      (questions
         (@question.create_question bson.hex_ids Examples.no_classifier
            Examples.no_taggers order Examples.unicode_question Examples.hex_alice
            "64b000000000000000000001" Examples.db_hex_start).2) in
  question.tags Examples.unicode_question = ["beginner"; "homework"; "locale"] /\
  @ai_suggested_tags Examples.no_taggers Examples.unicode_question
  = ["sorting"; "strings"; "python"; "which"; "function"; "sorts"; "unicode"; "words"] /\
  stored Examples.first_seen
  = [["beginner"; "homework"; "locale"; "sorting"; "strings"; "python"; "which";
      "function"; "sorts"; "unicode"]] /\
  stored Examples.last_seen
  = [["words"; "unicode"; "sorts"; "function"; "which"; "python"; "strings"; "sorting";
      "locale"; "homework"]] /\
  ("words" ∉ concat (stored Examples.first_seen)) /\
  ("beginner" ∉ concat (stored Examples.last_seen)).
Proof.
  cbv zeta. split; [reflexivity|]. split; [reflexivity|]. split; [reflexivity|].
  split; [reflexivity|]. split; by_evaluation.
Qed.

Lemma stored_tags_are_bounded_witness :
  exists doc,
    questions
      (@question.create_question Examples.any_id Examples.no_classifier
         Examples.no_taggers Examples.first_seen Examples.sorting_question
         Examples.alice "q2" Examples.db0).2
    = questions Examples.db0 ++ [doc] /\
    NoDup (q_tags doc) /\ (length (q_tags doc) <= 10)%nat.
Proof.
  destruct (@stored_tags_are_bounded Examples.any_id Examples.no_classifier
              Examples.no_taggers Examples.first_seen Examples.sorting_question
              Examples.alice "q2" Examples.db0 eq_refl)
    as (doc & Hq & _ & _ & Hnd & _ & Hlen & _).
  exists doc. split; [exact Hq|]. split; [exact Hnd|exact Hlen].
Defined.

(** ** [vote_answer] *)

Section Votes.
Context `{Bson} `{toxic_spam_model.Classifier} `{answer.Llm}.

Lemma find_one_split {A} (p : A -> bool) (l : list A) (x : A) :
  Mongo.find_one p l = Some x ->
  exists before after,
    l = before ++ x :: after /\ p x = true /\ forallb (fun y => negb (p y)) before = true.
Proof.
  unfold Mongo.find_one. induction l as [|z l IH]; simpl; [done|].
  destruct (p z) eqn:Hz.
  - intros [= ->]. by exists [], l.
  - intros Hf. destruct (IH Hf) as (before & after & -> & Hx & Hb).
    exists (z :: before), after. simpl. by rewrite Hz.
Qed.

Lemma update_one_split {A} (p : A -> bool) (f : A -> A) (before after : list A) (x : A) :
  p x = true -> forallb (fun y => negb (p y)) before = true ->
  Mongo.update_one p f (before ++ x :: after) = before ++ f x :: after.
Proof.
  intros Hx. induction before as [|z before IH]; simpl.
  - by rewrite Hx.
  - intros [Hz Hb]%andb_true_iff. apply negb_true_iff in Hz. rewrite Hz. by rewrite IH.
Qed.

Lemma find_one_after_update {A} (p : A -> bool) (f : A -> A) (before after : list A) (x : A) :
  p (f x) = true -> forallb (fun y => negb (p y)) before = true ->
  Mongo.find_one p (before ++ f x :: after) = Some (f x).
Proof.
  intros Hx. unfold Mongo.find_one. induction before as [|z before IH]; simpl.
  - by rewrite Hx.
  - intros [Hz Hb]%andb_true_iff. apply negb_true_iff in Hz. rewrite Hz. by apply IH.
Qed.

Lemma find_answer_or_400_valid answer_id db :
  is_valid answer_id = true ->
  answer.find_answer_or_400 answer_id db
  = (Return (Mongo.find_one (by_id a_id (oid_str answer_id)) (answers db)), db).
Proof.
  intros Hv. unfold answer.find_answer_or_400, notification.find_answer_by_id,
    try_except, ObjectId. by rewrite Hv.
Qed.

Lemma set_votes_same answer : answer.set_votes (a_votes answer + 0) answer = answer.
Proof. destruct answer. unfold answer.set_votes. simpl. by rewrite Z.add_0_r. Qed.

Lemma set_answers_same db : set_answers (answers db) db = db.
Proof. by destruct db. Qed.

(** C10.  On an existing answer, a vote by the answer's author raises HTTP
    400 and leaves the store as it was.  A vote by anyone else returns the
    new count, which is the old count plus one for [upvote], minus one for
    [downvote] and unchanged otherwise, and the store differs from the old
    one in the [votes] field of that answer alone. *)
Theorem vote_semantics (db : Database) (answer_id : string)
    (vote_action : answer.VoteAction) (current_user : User) (voted : Answer) :
  is_valid answer_id = true ->
  Mongo.find_one (by_id a_id (oid_str answer_id)) (answers db) = Some voted ->
  (a_user_id voted = u_id current_user ->
   answer.vote_answer answer_id vote_action current_user db
   = (Raise (HTTPException 400 "You cannot vote on your own answer"), db)) /\
  (a_user_id voted <> u_id current_user ->
   exists before after,
     answers db = before ++ voted :: after /\
     answer.vote_answer answer_id vote_action current_user db
     = (Return ("Vote " +:+ answer.action vote_action +:+ " applied successfully",
                a_votes voted + vote_delta vote_action),
        set_answers
          (before ++ answer.set_votes (a_votes voted + vote_delta vote_action) voted
             :: after) db)) /\
  (answer.action vote_action = "upvote" -> vote_delta vote_action = 1) /\
  (answer.action vote_action = "downvote" -> vote_delta vote_action = -1) /\
  (answer.action vote_action = "remove" -> vote_delta vote_action = 0).
Proof.
  intros Hv Hf. split; [|split; [|split; [|split]]].
  - intros Hown. unfold answer.vote_answer, mbind, Handler_bind.
    rewrite find_answer_or_400_valid, Hf by done.
    apply String.eqb_eq in Hown. by rewrite Hown.
  - intros Hother. apply String.eqb_neq in Hother.
    destruct (find_one_split _ _ _ Hf) as (before & after & Hl & Hp & Hb).
    exists before, after. split; [exact Hl|].
    unfold answer.vote_answer. unfold mbind at 1, Handler_bind at 1.
    rewrite find_answer_or_400_valid, Hf by done. rewrite Hother.
    unfold vote_delta, answer.update_answer, notification.find_answer_by_id, ObjectId.
    rewrite Hv.
    destruct (String.eqb (answer.action vote_action) "upvote");
      [|destruct (String.eqb (answer.action vote_action) "downvote")];
      unfold mbind, Handler_bind, mret, Handler_ret, read, write; simpl.
    + rewrite Hl, update_one_split by done.
      rewrite (find_one_after_update _ (answer.inc_votes 1)) by done. reflexivity.
    + rewrite Hl, update_one_split by done.
      rewrite (find_one_after_update _ (answer.inc_votes (-1))) by done. reflexivity.
    + rewrite set_votes_same, <- Hl, set_answers_same, Z.add_0_r, Hf. reflexivity.
  - unfold vote_delta. by intros ->.
  - unfold vote_delta. by intros ->.
  - unfold vote_delta. by intros ->.
Qed.

End Votes.

Lemma vote_semantics_witness :
  (@answer.vote_answer Examples.any_id "a2" {| answer.action := "upvote" |}
     Examples.alice Examples.db0).1
  = Return ("Vote upvote applied successfully", 1) /\
  @answer.vote_answer Examples.any_id "a2" {| answer.action := "upvote" |}
    Examples.carol Examples.db0
  = (Raise (HTTPException 400 "You cannot vote on your own answer"), Examples.db0).
Proof.
  destruct (@vote_semantics Examples.any_id Examples.db0 "a2"
              {| answer.action := "upvote" |} Examples.alice Examples.a2 eq_refl eq_refl)
    as (_ & Hother & _).
  destruct (@vote_semantics Examples.any_id Examples.db0 "a2"
              {| answer.action := "upvote" |} Examples.carol Examples.a2 eq_refl eq_refl)
    as (Hown & _).
  split.
  - destruct Hother as (before & after & Hl & Hrun); [discriminate|].
    rewrite Hrun. reflexivity.
  - apply Hown. reflexivity.
Defined.

(** ** Accepted answers *)

Section Accepted.
Context `{Bson} `{toxic_spam_model.Classifier} `{answer.Llm}.

Lemma find_one_update_one_fmap {A} (p : A -> bool) (f : A -> A) (l : list A) :
  (forall y, p (f y) = p y) ->
  Mongo.find_one p (Mongo.update_one p f l) = f <$> Mongo.find_one p l.
Proof.
  intros Hf. unfold Mongo.find_one. induction l as [|z l IH]; simpl; [done|].
  destruct (p z) eqn:Hz; simpl.
  - by rewrite Hf, Hz.
  - by rewrite Hz.
Qed.

(** With unique ids, updating the first document of an id updates the only one. *)
Lemma update_one_unique {A} (id_of : A -> string) (f : A -> A) (x : string) (l : list A) :
  NoDup (id_of <$> l) ->
  Mongo.update_one (by_id id_of x) f l
  = List.map (fun y => if by_id id_of x y then f y else y) l.
Proof.
  induction l as [|z l IH]; simpl; [done|].
  intros [Hz Hnd]%NoDup_cons. destruct (by_id id_of x z) eqn:E.
  - f_equal. symmetry. rewrite <- (map_id l) at 2. apply map_ext_in.
    intros y Hy. destruct (by_id id_of x y) eqn:Ey; [|done].
    exfalso. apply Hz. unfold by_id in *.
    apply String.eqb_eq in E, Ey. rewrite E, <- Ey.
    apply list_elem_of_fmap_2. by apply list_elem_of_In.
  - f_equal. by apply IH.
Qed.

Lemma delete_one_unique {A} (id_of : A -> string) (x : string) (l : list A) :
  NoDup (id_of <$> l) ->
  Mongo.delete_one (by_id id_of x) l = List.filter (fun y => negb (by_id id_of x y)) l.
Proof.
  induction l as [|z l IH]; simpl; [done|].
  intros [Hz Hnd]%NoDup_cons. destruct (by_id id_of x z) eqn:E; simpl.
  - symmetry. apply forallb_filter_id, forallb_forall. intros y Hy.
    apply negb_true_iff. destruct (by_id id_of x y) eqn:Ey; [|done].
    exfalso. apply Hz. unfold by_id in *.
    apply String.eqb_eq in E, Ey. rewrite E, <- Ey.
    apply list_elem_of_fmap_2. by apply list_elem_of_In.
  - f_equal. by apply IH.
Qed.

Lemma fmap_id_update_one {A} (id_of : A -> string) (p : A -> bool) (f : A -> A) (l : list A) :
  (forall y, id_of (f y) = id_of y) ->
  id_of <$> Mongo.update_one p f l = id_of <$> l.
Proof.
  intros Hf. induction l as [|z l IH]; simpl; [done|].
  destruct (p z); csimpl; [by rewrite Hf|by rewrite IH].
Qed.

Lemma fmap_id_update_many {A} (id_of : A -> string) (p : A -> bool) (f : A -> A) (l : list A) :
  (forall y, id_of (f y) = id_of y) ->
  id_of <$> Mongo.update_many p f l = id_of <$> l.
Proof.
  intros Hf. unfold Mongo.update_many. induction l as [|z l IH]; csimpl; [done|].
  rewrite IH. by destruct (p z); rewrite ?Hf.
Qed.

Lemma Forall_update_one {A} (P : A -> Prop) (p : A -> bool) (f : A -> A) (l : list A) :
  (forall x, P x -> P (f x)) -> Forall P l -> Forall P (Mongo.update_one p f l).
Proof.
  intros Hf. induction 1 as [|z l Hz Hl IH]; simpl; [constructor|].
  destruct (p z); constructor; auto.
Qed.

Lemma Forall_update_many {A} (P : A -> Prop) (p : A -> bool) (f : A -> A) (l : list A) :
  (forall x, P x -> P (f x)) -> Forall P l -> Forall P (Mongo.update_many p f l).
Proof.
  intros Hf. unfold Mongo.update_many. induction 1 as [|z l Hz Hl IH]; simpl; [constructor|].
  destruct (p z); constructor; auto.
Qed.

Lemma Forall_delete_one {A} (P : A -> Prop) (p : A -> bool) (l : list A) :
  Forall P l -> Forall P (Mongo.delete_one p l).
Proof.
  induction 1 as [|z l Hz Hl IH]; simpl; [constructor|].
  destruct (p z); [done|by constructor].
Qed.

Lemma Forall_delete_many {A} (P : A -> Prop) (p : A -> bool) (l : list A) :
  Forall P l -> Forall P (Mongo.delete_many p l).
Proof.
  unfold Mongo.delete_many. induction 1 as [|z l Hz Hl IH]; simpl; [constructor|].
  destruct (p z); simpl; [done|by constructor].
Qed.

(** The accepted answers that hold the string [question_id].  Among answers
    that hold the id of their question as it is printed, they are the
    accepted answers to the question with that id. *)
Local Abbreviation accepted_holding question_id xs :=
  (List.filter (fun a => String.eqb (a_question_id a) question_id && a_is_accepted a) xs).




Lemma find_answer_or_400_run answer_id db :
  answer.find_answer_or_400 answer_id db
  = if is_valid answer_id
    then (Return (Mongo.find_one (by_id a_id (oid_str answer_id)) (answers db)), db)
    else (Raise (HTTPException 400 "Invalid answer ID"), db).
Proof.
  unfold answer.find_answer_or_400, notification.find_answer_by_id, try_except, ObjectId.
  by destruct (is_valid answer_id).
Qed.

Lemma find_question_by_id_run question_id db :
  notification.find_question_by_id question_id db
  = if is_valid question_id
    then (Return (Mongo.find_one (by_id q_id (oid_str question_id)) (questions db)), db)
    else (Raise (Exception "InvalidId"), db).
Proof.
  unfold notification.find_question_by_id, ObjectId. by destruct (is_valid question_id).
Qed.

Lemma update_answer_run answer_id f db :
  is_valid answer_id = true ->
  answer.update_answer answer_id f db
  = (Return tt, set_answers (Mongo.update_one (by_id a_id (oid_str answer_id)) f (answers db)) db).
Proof. intros Hv. unfold answer.update_answer, ObjectId. by rewrite Hv. Qed.

Lemma update_question_run question_id f db :
  answer.update_question question_id f db
  = if is_valid question_id
    then (Return tt,
          set_questions (Mongo.update_one (by_id q_id (oid_str question_id)) f (questions db)) db)
    else (Raise (Exception "InvalidId"), db).
Proof. unfold answer.update_question, ObjectId. by destruct (is_valid question_id). Qed.

Lemma accept_answer_run answer_id current_user db :
  answer.accept_answer answer_id current_user db
  = if is_valid answer_id then
      match Mongo.find_one (by_id a_id (oid_str answer_id)) (answers db) with
      | None => (Raise (HTTPException 404 "Answer not found"), db)
      | Some accepted =>
          if is_valid (a_question_id accepted) then
            match Mongo.find_one (by_id q_id (oid_str (a_question_id accepted))) (questions db) with
            | None => (Raise (HTTPException 404 "Question not found"), db)
            | Some question =>
                if String.eqb (q_user_id question) (u_id current_user) then
                  (match (notification.notify_accepted_answer answer_id (u_id current_user)
                            (accepted_in answer_id accepted db)).1 with
                   | Return _ => Return "Answer accepted successfully"
                   | Raise e => Raise e
                   end,
                   (notification.notify_accepted_answer answer_id (u_id current_user)
                      (accepted_in answer_id accepted db)).2)
                else
                  (Raise (HTTPException 403 "Only the question author can accept answers"),
                   db)
            end
          else (Raise (Exception "InvalidId"), db)
      end
    else (Raise (HTTPException 400 "Invalid answer ID"), db).
Proof.
  unfold answer.accept_answer. unfold mbind at 1, Handler_bind at 1.
  rewrite find_answer_or_400_run.
  destruct (is_valid answer_id) eqn:Hv; [|done].
  destruct (Mongo.find_one (by_id a_id (oid_str answer_id)) (answers db)) as [accepted|]; [|done].
  unfold mbind at 1, Handler_bind at 1. rewrite find_question_by_id_run.
  destruct (is_valid (a_question_id accepted)) eqn:Hvq; [|done].
  destruct (Mongo.find_one (by_id q_id (oid_str (a_question_id accepted))) (questions db))
    as [question|]; [|done].
  destruct (String.eqb (q_user_id question) (u_id current_user)); [|done].
  cbn [negb].
  unfold mbind at 1, Handler_bind at 1, write at 1.
  unfold mbind at 1, Handler_bind at 1. rewrite update_answer_run by done.
  unfold mbind at 1, Handler_bind at 1. rewrite update_question_run.
  cbn [a_question_id]. rewrite Hvq.
  unfold mbind, Handler_bind, mret, Handler_ret.
  change (set_questions _ _) with (accepted_in answer_id accepted db).
  by destruct (notification.notify_accepted_answer _ _ _) as [[[]|e] db'].
Qed.

Lemma delete_answer_run answer_id current_user db :
  answer.delete_answer answer_id current_user db
  = if is_valid answer_id then
      match Mongo.find_one (by_id a_id (oid_str answer_id)) (answers db) with
      | None => (Raise (HTTPException 404 "Answer not found"), db)
      | Some deleted =>
          if negb (String.eqb (a_user_id deleted) (u_id current_user))
             && negb (String.eqb (u_role current_user) "admin")
          then (Raise (HTTPException 403 "You can only delete your own answers"), db)
          else if is_valid (a_question_id deleted)
          then (Return tt, deleted_in answer_id deleted db)
          else (Raise (Exception "InvalidId"), db)
      end
    else (Raise (HTTPException 400 "Invalid answer ID"), db).
Proof.
  unfold answer.delete_answer. unfold mbind at 1, Handler_bind at 1.
  rewrite find_answer_or_400_run.
  destruct (is_valid answer_id) eqn:Hv; [|done].
  destruct (Mongo.find_one (by_id a_id (oid_str answer_id)) (answers db)) as [deleted|]; [|done].
  destruct (negb (String.eqb (a_user_id deleted) (u_id current_user))
            && negb (String.eqb (u_role current_user) "admin")); [done|].
  unfold mbind at 1, Handler_bind at 1. rewrite update_question_run.
  destruct (is_valid (a_question_id deleted)) eqn:Hvq; [|done].
  unfold deleted_in.
  destruct (a_is_accepted deleted).
  - unfold mbind at 1, Handler_bind at 1. rewrite update_question_run.
    cbn [questions set_questions]. rewrite Hvq.
    unfold mbind, Handler_bind, ObjectId. rewrite Hv. reflexivity.
  - unfold mbind, Handler_bind, ObjectId. rewrite Hv. reflexivity.
Qed.

Lemma find_one_elem {A} (p : A -> bool) (l : list A) (x : A) :
  Mongo.find_one p l = Some x -> x ∈ l /\ p x = true.
Proof.
  unfold Mongo.find_one. intros [Hin Hp]%find_some. split; [by apply list_elem_of_In|done].
Qed.

Lemma by_id_unique {A} (id_of : A -> string) (x : string) (l : list A) (y z : A) :
  NoDup (id_of <$> l) -> y ∈ l -> z ∈ l ->
  by_id id_of x y = true -> by_id id_of x z = true -> y = z.
Proof.
  unfold by_id. intros Hnd Hy Hz Ey%String.eqb_eq Ez%String.eqb_eq.
  apply (NoDup_fmap_eq id_of l); congruence.
Qed.

Lemma elem_of_map {A B} (f : A -> B) (l : list A) (y : B) :
  y ∈ List.map f l <-> exists x, y = f x /\ x ∈ l.
Proof.
  rewrite list_elem_of_In, in_map_iff. split; intros (x & Hx & Hin); exists x;
    (split; [done|by apply list_elem_of_In]).
Qed.

Lemma accepted_consistent_alt db :
  accepted_consistent db <->
  NoDup (a_id <$> answers db) /\ NoDup (q_id <$> questions db) /\
  (forall a, a ∈ answers db -> oid_str (a_question_id a) = a_question_id a) /\
  forall q a, q ∈ questions db -> a ∈ answers db ->
              a_question_id a = q_id q -> a_is_accepted a = true ->
              q_accepted_answer q = Some (a_id a).
Proof.
  unfold accepted_consistent, printed. rewrite !Forall_forall.
  split; intros (Hna & Hnq & Hp & Hinv); (split; [done|split; [done|split; [done|]]]).
  - intros q a Hq Ha Hqid. specialize (Hinv q Hq). rewrite Forall_forall in Hinv.
    apply Hinv; [done|]. by rewrite (Hp a Ha).
  - intros q Hq. apply Forall_forall. intros a Ha Hqid. apply Hinv; [done..|].
    by rewrite <- (Hp a Ha).
Qed.


Lemma accepted_consistent_accepted_in answer_id accepted db :
  printed answer_id ->
  Mongo.find_one (by_id a_id (oid_str answer_id)) (answers db) = Some accepted ->
  accepted_consistent db ->
  accepted_consistent (accepted_in answer_id accepted db).
Proof.
  intros Hpa Hf (Hna & Hnq & Hp & Hinv)%accepted_consistent_alt.
  apply find_one_elem in Hf as [Hin Hid].
  pose proof (Hp accepted Hin) as Hpq. unfold printed in Hpa.
  apply accepted_consistent_alt.
  unfold accepted_in, accept_in. rewrite Hpa, Hpq in *. simpl.
  rewrite !fmap_id_update_one, fmap_id_update_many by done.
  split; [done|]. split; [done|]. split.
  { apply Forall_forall, Forall_update_one; [by intros x|].
    apply Forall_update_many; [by intros x|]. by apply Forall_forall. }
  rewrite (update_one_unique q_id) by done.
  rewrite (update_one_unique a_id) by (by rewrite fmap_id_update_many).
  unfold Mongo.update_many. rewrite map_map.
  intros q' a' (q & -> & Hq)%elem_of_map (a & -> & Ha)%elem_of_map.
  specialize (Hinv q a Hq Ha).
  assert (Hreset : by_id a_id answer_id
            (if String.eqb (a_question_id a) (a_question_id accepted)
             then answer.set_is_accepted false a else a) = by_id a_id answer_id a).
  { by destruct (String.eqb (a_question_id a) (a_question_id accepted)). }
  rewrite Hreset. clear Hreset.
  assert (Hsame : by_id a_id answer_id a = true -> a = accepted).
  { intros Ea. by apply (by_id_unique a_id answer_id (answers db)). }
  unfold by_id in *. apply String.eqb_eq in Hid.
  destruct (String.eqb (a_id a) answer_id) eqn:Ea.
  - assert (a = accepted) as -> by (by apply Hsame). clear Hsame.
    rewrite String.eqb_refl. simpl.
    destruct (String.eqb (q_id q) (a_question_id accepted)) eqn:Eq0; simpl; intros Hqid _.
    + by rewrite Hid.
    + apply String.eqb_neq in Eq0. congruence.
  - clear Hsame.
    destruct (String.eqb (a_question_id a) (a_question_id accepted)) eqn:Eq;
      destruct (String.eqb (q_id q) (a_question_id accepted)) eqn:Eq0; simpl;
      intros Hqid Hacc; try discriminate.
    + apply String.eqb_eq in Eq0. apply String.eqb_neq in Eq. congruence.
    + by apply Hinv.
Qed.

Lemma delete_one_sublist {A} (p : A -> bool) (l : list A) :
  Mongo.delete_one p l `sublist_of` l.
Proof.
  induction l as [|z l IH]; simpl; [done|].
  destruct (p z); [by apply sublist_cons|by apply sublist_skip].
Qed.

Lemma filter_sublist {A} (p : A -> bool) (l : list A) : List.filter p l `sublist_of` l.
Proof.
  induction l as [|z l IH]; simpl; [done|].
  destruct (p z); [by apply sublist_skip|by apply sublist_cons].
Qed.

Lemma questions_deleted_in answer_id deleted db q' :
  NoDup (q_id <$> questions db) ->
  q' ∈ questions (deleted_in answer_id deleted db) ->
  exists q,
    q ∈ questions db /\ q_id q' = q_id q /\
    (q_accepted_answer q' = q_accepted_answer q \/
     (q_accepted_answer q' = None /\ q_id q = oid_str (a_question_id deleted) /\
      a_is_accepted deleted = true)).
Proof.
  intros Hnq. unfold deleted_in. simpl.
  destruct (a_is_accepted deleted) eqn:Hacc.
  - rewrite (update_one_unique q_id) by (by rewrite fmap_id_update_one).
    rewrite (update_one_unique q_id) by done. rewrite map_map.
    intros (q & -> & Hq)%elem_of_map. exists q. split; [done|].
    unfold by_id. simpl.
    destruct (String.eqb (q_id q) (oid_str (a_question_id deleted))) eqn:E; simpl.
    + rewrite E. simpl. split; [done|]. right. by apply String.eqb_eq in E.
    + rewrite E. auto.
  - rewrite (update_one_unique q_id) by done.
    intros (q & -> & Hq)%elem_of_map. exists q. split; [done|].
    by destruct (by_id q_id (oid_str (a_question_id deleted)) q); auto.
Qed.

Lemma accepted_consistent_deleted_in answer_id deleted db :
  Mongo.find_one (by_id a_id (oid_str answer_id)) (answers db) = Some deleted ->
  accepted_consistent db ->
  accepted_consistent (deleted_in answer_id deleted db).
Proof.
  intros Hf (Hna & Hnq & Hp & Hinv)%accepted_consistent_alt.
  apply find_one_elem in Hf as [Hin Hid].
  apply accepted_consistent_alt. split; [|split; [|split]].
  - unfold deleted_in. simpl. eapply sublist_NoDup; [exact Hna|].
    apply fmap_sublist, delete_one_sublist.
  - unfold deleted_in. simpl.
    destruct (a_is_accepted deleted); by rewrite !fmap_id_update_one.
  - unfold deleted_in. simpl. apply Forall_forall, Forall_delete_one.
    by apply Forall_forall.
  - intros q' a Hq' Ha.
    destruct (questions_deleted_in _ _ _ _ Hnq Hq') as (q & Hq & Hqid & Hacc).
    unfold deleted_in in Ha. simpl in Ha.
    rewrite (delete_one_unique a_id) in Ha by done.
    apply list_elem_of_In, filter_In in Ha as [Ha Hne].
    apply list_elem_of_In in Ha. apply negb_true_iff in Hne.
    rewrite Hqid. intros Haq Ha_acc.
    destruct Hacc as [->|(_ & Hdq & Hd_acc)]; [by apply Hinv|].
    exfalso. rewrite (Hp deleted Hin) in Hdq.
    pose proof (Hinv q a Hq Ha Haq Ha_acc) as E1.
    pose proof (Hinv q deleted Hq Hin (eq_sym Hdq) Hd_acc) as E2.
    unfold by_id in *. apply String.eqb_eq in Hid. apply String.eqb_neq in Hne.
    congruence.
Qed.




End Accepted.

(** ** Facts about the string primitives *)

Section PyStrFacts.
Import PyStr.

Lemma lower_char_fixed c : is_lower_fixed (lower_char c) = true.
Proof. destruct c as [[] [] [] [] [] [] [] []]; vm_compute; reflexivity. Qed.

Lemma is_space_lower_char c : is_space (lower_char c) = is_space c.
Proof. destruct c as [[] [] [] [] [] [] [] []]; vm_compute; reflexivity. Qed.

Lemma all_lower s : all is_lower_fixed (lower s) = true.
Proof.
  unfold lower. induction s as [|c s IH]; simpl; [done|]. by rewrite lower_char_fixed, IH.
Qed.

Lemma lower_fixed s : all is_lower_fixed s = true -> is_lowercase s.
Proof.
  unfold is_lowercase, lower. induction s as [|c s IH]; simpl; [done|].
  intros [Hc Hs]%andb_true_iff. apply Ascii.eqb_eq in Hc. by rewrite Hc, IH.
Qed.

Lemma all_lstrip p s : all p s = true -> all p (lstrip s) = true.
Proof.
  induction s as [|c s IH]; simpl; [done|].
  intros [Hc Hs]%andb_true_iff. destruct (is_space c); [by apply IH|].
  simpl. by rewrite Hc, Hs.
Qed.

Lemma all_rstrip p s : all p s = true -> all p (rstrip s) = true.
Proof.
  induction s as [|c s IH]; simpl; [done|].
  intros [Hc Hs]%andb_true_iff. specialize (IH Hs).
  destruct (rstrip s) as [|c' r'].
  - destruct (is_space c); simpl; [done|by rewrite Hc].
  - simpl in *. by rewrite Hc, IH.
Qed.

Lemma all_strip p s : all p s = true -> all p (strip s) = true.
Proof. intros Hs. by apply all_rstrip, all_lstrip. Qed.

Lemma split_word_ahead s : word_ahead s = true -> split s <> [].
Proof.
  destruct s as [|c r]; simpl; [done|]. intros Hc%negb_true_iff. rewrite Hc.
  destruct (word_ahead r); [by destruct (split r)|done].
Qed.

(** Every word of [split] is made of characters of the string, none of
    them whitespace. *)
Lemma all_split p s w :
  all p s = true -> w ∈ split s -> all p w = true /\ no_whitespace w.
Proof.
  unfold no_whitespace. revert w. induction s as [|c r IH]; simpl; intros w.
  - intros _ Hw. by apply elem_of_nil in Hw.
  - intros [Hc Hr]%andb_true_iff. destruct (is_space c) eqn:Hsp; [by apply IH|].
    destruct (word_ahead r).
    + destruct (split r) as [|w1 ws] eqn:Hs.
      * intros ->%list_elem_of_singleton. simpl. by rewrite Hc, Hsp.
      * intros [->|Hw]%elem_of_cons.
        -- destruct (IH w1 Hr ltac:(apply elem_of_cons; by left)) as [H1 H2].
           simpl. by rewrite Hc, Hsp, H1, H2.
        -- apply IH; [done|]. apply elem_of_cons. by right.
    + intros [->|Hw]%elem_of_cons.
      * simpl. by rewrite Hc, Hsp.
      * by apply IH.
Qed.

Lemma split_nil_spaces s : split s = [] -> all is_space s = true.
Proof.
  induction s as [|c r IH]; simpl; [done|].
  destruct (is_space c); [by apply IH|].
  destruct (word_ahead r); [by destruct (split r)|done].
Qed.

Lemma rstrip_spaces s : all is_space s = true -> rstrip s = EmptyString.
Proof.
  induction s as [|c r IH]; simpl; [done|].
  intros [Hc Hr]%andb_true_iff. by rewrite IH, Hc.
Qed.

Lemma rstrip_idemp s : rstrip (rstrip s) = rstrip s.
Proof.
  induction s as [|c r IH]; simpl; [done|].
  destruct (rstrip r) as [|c' r'] eqn:Hr.
  - destruct (is_space c) eqn:Hc; simpl; [done|by rewrite Hc].
  - simpl. simpl in IH. by rewrite IH.
Qed.

Lemma rstrip_word_ahead s : word_ahead s = true -> word_ahead (rstrip s) = true.
Proof.
  destruct s as [|c r]; simpl; [done|]. intros Hc.
  destruct (rstrip r); simpl; [|done].
  apply negb_true_iff in Hc. by rewrite Hc; simpl; rewrite Hc.
Qed.

Lemma lstrip_word_ahead s : lstrip s = EmptyString \/ word_ahead (lstrip s) = true.
Proof.
  induction s as [|c r IH]; simpl; [by left|].
  destruct (is_space c) eqn:Hc; [done|]. right. simpl. by rewrite Hc.
Qed.

Lemma rstrip_tail c r :
  rstrip (String c r) = String c r -> r <> EmptyString -> rstrip r = r.
Proof.
  simpl. destruct (rstrip r) as [|c2 r2].
  - destruct (is_space c); [done|]. by intros [= <-].
  - by intros [= <-].
Qed.

(** A string without whitespace at its ends that [split] sees as one word
    has no whitespace at all. *)
Lemma one_word_no_whitespace s :
  rstrip s = s -> word_ahead s = true -> length (split s) = 1%nat -> no_whitespace s.
Proof.
  unfold no_whitespace. induction s as [|c r IH]; [done|].
  intros Hrs Hwa Hlen. simpl in Hwa. cbn [all]. rewrite Hwa. simpl.
  apply negb_true_iff in Hwa. cbn [split] in Hlen. rewrite Hwa in Hlen.
  destruct (decide (r = EmptyString)) as [->|Hne]; [done|].
  pose proof (rstrip_tail c r Hrs Hne) as Hr.
  destruct (word_ahead r) eqn:Hw.
  - apply IH; [done..|].
    pose proof (split_word_ahead _ Hw) as Hsplit.
    destruct (split r) as [|w [|w' ws]]; [done|done|]. simpl in Hlen. lia.
  - exfalso. destruct (split r) as [|w ws] eqn:Hs; [|simpl in Hlen; lia].
    apply split_nil_spaces, rstrip_spaces in Hs. congruence.
Qed.

Lemma strip_one_word_no_whitespace s :
  length (split (strip s)) = 1%nat -> no_whitespace (strip s).
Proof.
  intros Hlen. apply one_word_no_whitespace; [apply rstrip_idemp| |done].
  unfold strip in *. destruct (lstrip_word_ahead s) as [E|Hw].
  - rewrite E in Hlen. simpl in Hlen. lia.
  - by apply rstrip_word_ahead.
Qed.

End PyStrFacts.

(** ** Tags *)

Section Tags.
Context `{auto_tag.Models}.

Lemma is_good_single_word_true w :
  auto_tag.is_good_single_word w = true ->
  length (PyStr.split w) = 1%nat /\ PyStr.isdigit w = false /\ 2 < PyStr.len w.
Proof.
  unfold auto_tag.is_good_single_word.
  destruct (negb auto_tag.AI_AVAILABLE).
  - intros [[[H1 H2]%andb_true_iff H3]%andb_true_iff _]%andb_true_iff.
    apply Nat.eqb_eq in H1. apply negb_true_iff in H2. apply Z.ltb_lt in H3. done.
  - intros [[[H1 _]%andb_true_iff H2]%andb_true_iff H3]%andb_true_iff.
    apply Nat.eqb_eq in H1. apply negb_true_iff in H2. apply Z.ltb_lt in H3. done.
Qed.

Lemma gathering_gathered seen tags top_k : gathering seen tags top_k -> gathered tags top_k.
Proof. intros (H1 & H2 & _ & H3). repeat split; [done..|lia]. Qed.

(** One more tag: the loop stops with it or goes on gathering. *)
Lemma gathering_step seen tags top_k t :
  gathering seen tags top_k -> single_word_tag t -> t ∉ seen ->
  gathered (tags ++ [t]) top_k /\
  ((Z.of_nat (length (tags ++ [t])) >=? top_k) = false ->
   gathering ({[t]} ∪ seen) (tags ++ [t]) top_k).
Proof.
  intros (Hgood & Hnd & Hseen & Hlen) Ht Hnew.
  assert (Hgood' : Forall single_word_tag (tags ++ [t])).
  { apply Forall_app. split; [done|]. by constructor. }
  assert (Hnd' : NoDup (tags ++ [t])).
  { apply NoDup_app. split; [done|]. split; [|apply NoDup_singleton].
    intros x Hx Hx'%list_elem_of_singleton. subst. apply Hnew. by apply Hseen. }
  assert (Hlen' : Z.of_nat (length (tags ++ [t])) = Z.of_nat (length tags) + 1).
  { rewrite length_app. simpl. lia. }
  split.
  - repeat split; [done..|lia].
  - intros Hgo. rewrite Z.geb_leb in Hgo. apply Z.leb_gt in Hgo.
    repeat split; [done..| |lia].
    intros x [Hx|Hx%list_elem_of_singleton]%elem_of_app; [|subst; set_solver].
    apply elem_of_union. right. by apply Hseen.
Qed.

Lemma keyword_loop_gathered raw_keywords seen tags top_k :
  gathering seen tags top_k ->
  gathered (auto_tag.keyword_loop raw_keywords seen tags top_k) top_k.
Proof.
  revert seen tags. induction raw_keywords as [|[kw score] rest IH]; intros seen tags Hg.
  - simpl. by eapply gathering_gathered.
  - simpl. set (kw' := PyStr.strip (PyStr.lower kw)).
    destruct (bool_decide (kw' ∈ seen)) eqn:Hseen; simpl; [by apply IH|].
    destruct (auto_tag.is_good_single_word kw') eqn:Hgood; simpl; [|by apply IH].
    apply bool_decide_eq_false in Hseen.
    apply is_good_single_word_true in Hgood as (Hone & Hdigit & Hlen).
    assert (Htag : single_word_tag kw').
    { split; [done|]. split; [by apply strip_one_word_no_whitespace|].
      split; [|done]. apply lower_fixed, all_strip, all_lower. }
    destruct (gathering_step seen tags top_k kw' Hg Htag Hseen) as [Hstop Hgo].
    destruct (Z.of_nat (length (tags ++ [kw'])) >=? top_k) eqn:E; [done|].
    apply IH. by apply Hgo.
Qed.

Lemma fallback_loop_gathered words seen tags top_k :
  Forall (fun w => PyStr.no_whitespace w /\ PyStr.all is_lower_fixed w = true) words ->
  gathering seen tags top_k ->
  gathered (auto_tag.fallback_loop words seen tags top_k) top_k.
Proof.
  revert seen tags. induction words as [|word rest IH]; intros seen tags Hwords Hg.
  - simpl. by eapply gathering_gathered.
  - apply Forall_cons in Hwords as [[Hns Hlow] Hrest]. simpl.
    destruct (bool_decide (word ∈ seen)) eqn:Hseen; simpl; [by apply IH|].
    destruct (auto_tag.is_good_single_word word) eqn:Hgood; simpl; [|by apply IH].
    destruct (3 <? PyStr.len word); [|by apply IH].
    apply bool_decide_eq_false in Hseen.
    apply is_good_single_word_true in Hgood as (Hone & Hdigit & Hlen).
    assert (Htag : single_word_tag word).
    { split; [done|]. split; [done|]. split; [by apply lower_fixed|done]. }
    destruct (gathering_step seen tags top_k word Hg Htag Hseen) as [Hstop Hgo].
    destruct (Z.of_nat (length (tags ++ [word])) >=? top_k) eqn:E; [done|].
    apply IH; [done|]. by apply Hgo.
Qed.

Lemma clean_text_words text :
  Forall (fun w => PyStr.no_whitespace w /\ PyStr.all is_lower_fixed w = true)
    (PyStr.split (auto_tag.clean_text text)).
Proof.
  apply Forall_forall. intros w Hw. unfold auto_tag.clean_text in Hw.
  destruct (all_split is_lower_fixed _ w
              (all_strip _ _ (all_lower _)) Hw) as [H1 H2].
  done.
Qed.

(** C5, as the code has it.  For a limit [top_k] of at least one, every tag
    that [extract_single_word_tags] returns, and so every tag that
    [auto_tag_question] stores, is one word without whitespace, in lower
    case, longer than two characters and not made of digits only; no tag is
    returned twice and at most [top_k] tags are returned. *)
Theorem tags_are_single_words (title body : string) (top_k : Z) :
  1 <= top_k ->
  let tags := auto_tag.extract_single_word_tags title body top_k in
  Forall single_word_tag tags /\ NoDup tags /\ Z.of_nat (length tags) <= top_k /\
  auto_tag.tags
    (auto_tag.auto_tag_question
       {| auto_tag.title := title; auto_tag.body := body; auto_tag.tags := [] |} top_k)
  = tags.
Proof.
  intros Hk tags.
  assert (Hstart : gathering ∅ [] top_k).
  { repeat split; [constructor|constructor| |simpl; lia].
    intros t Ht. by apply elem_of_nil in Ht. }
  assert (Hg : gathered tags top_k).
  { unfold tags, auto_tag.extract_single_word_tags.
    destruct (negb auto_tag.AI_AVAILABLE).
    - unfold auto_tag.extract_tags_fallback.
      apply fallback_loop_gathered; [apply clean_text_words|done].
    - by apply keyword_loop_gathered. }
  destruct Hg as (H1 & H2 & H3). done.
Qed.

End Tags.

(** C5, as it is stated, fails for the limit zero: the length is compared
    with [top_k] after the tag is appended, so one tag is returned. *)
Lemma zero_limit_returns_a_tag :
  @auto_tag.extract_single_word_tags Examples.no_taggers "Python" "" 0 = ["python"] /\
  ~ (Z.of_nat
       (length (@auto_tag.extract_single_word_tags Examples.no_taggers "Python" "" 0))
     <= 0).
Proof. split; [vm_compute; reflexivity|]. vm_compute. intros Hle. by apply Hle. Qed.

Lemma tags_are_single_words_witness :
  Forall single_word_tag
    (@auto_tag.extract_single_word_tags Examples.no_taggers
       "Sorting strings in Python" "Which function sorts strings?" 3) /\
  @auto_tag.extract_single_word_tags Examples.no_taggers
    "Sorting strings in Python" "Which function sorts strings?" 3
  = ["sorting"; "strings"; "python"].
Proof.
  destruct (@tags_are_single_words Examples.no_taggers
              "Sorting strings in Python" "Which function sorts strings?" 3)
    as (Hgood & _); [lia|].
  split; [exact Hgood|vm_compute; reflexivity].
Defined.

(** ** Search *)

Section Ranking.
Context `{smart_search.Embedder}.

Lemma insert_desc_Permutation (x : smart_search.question * Q) l : smart_search.insert_desc x l ≡ₚ x :: l.
Proof.
  induction l as [|y l IH]; simpl; [done|].
  destruct (Qle_bool (snd y) (snd x)); [done|].
  rewrite IH. apply Permutation_swap.
Qed.

Lemma sort_desc_Permutation (l : list (smart_search.question * Q)) : smart_search.sort_desc l ≡ₚ l.
Proof.
  induction l as [|x l IH]; simpl; [done|].
  by rewrite insert_desc_Permutation, IH.
Qed.

Lemma insert_desc_sorted (x : smart_search.question * Q) l :
  StronglySorted ranks_before l -> StronglySorted ranks_before (smart_search.insert_desc x l).
Proof.
  induction l as [|y l IH]; simpl; intros Hs.
  - by repeat constructor.
  - apply StronglySorted_inv in Hs as [Hl Hy].
    destruct (Qle_bool (snd y) (snd x)) eqn:E.
    + apply Qle_bool_iff in E. constructor; [by constructor|].
      constructor; [done|].
      eapply Forall_impl; [exact Hy|]. intros z Hz. unfold ranks_before in *. simpl in *.
      by eapply Qle_trans.
    + constructor; [by apply IH|].
      rewrite insert_desc_Permutation. constructor; [|done].
      unfold ranks_before. apply Qlt_le_weak, Qnot_le_lt.
      intros Hle. apply Qle_bool_iff in Hle. congruence.
Qed.

Lemma sort_desc_sorted (l : list (smart_search.question * Q)) : StronglySorted ranks_before (smart_search.sort_desc l).
Proof.
  induction l as [|x l IH]; simpl; [constructor|]. by apply insert_desc_sorted.
Qed.

Lemma StronglySorted_take {A} (R : A -> A -> Prop) n (l : list A) :
  StronglySorted R l -> StronglySorted R (take n l).
Proof.
  revert n. induction l as [|x l IH]; intros [|n] Hs; simpl; try constructor.
  - apply IH. by apply StronglySorted_inv in Hs as [? _].
  - apply StronglySorted_inv in Hs as [_ Hx].
    apply Forall_forall. intros y Hy. rewrite Forall_forall in Hx. apply Hx.
    by apply (subseteq_take n).
Qed.

Lemma StronglySorted_take_drop {A} (R : A -> A -> Prop) n (l : list A) x y :
  StronglySorted R l -> x ∈ take n l -> y ∈ drop n l -> R x y.
Proof.
  revert n. induction l as [|z l IH]; intros [|n] Hs; simpl.
  - by intros ?%elem_of_nil.
  - by intros ?%elem_of_nil.
  - by intros ?%elem_of_nil.
  - apply StronglySorted_inv in Hs as [Hl Hz].
    intros [->|Hx]%elem_of_cons Hy.
    + rewrite Forall_forall in Hz. apply Hz. by apply (subseteq_drop n).
    + by apply (IH n).
Qed.

Lemma slice_to_nonneg {A} (l : list A) (stop : Z) :
  0 <= stop -> PyList.slice_to l stop = take (Z.to_nat stop) l.
Proof.
  intros Hs. unfold PyList.slice_to.
  destruct (stop <? 0) eqn:E; [apply Z.ltb_lt in E; lia|done].
Qed.

(** C7, as the code has it.  For a limit [top_k] that is not negative,
    [smart_search] returns the least of [top_k] and the number of questions
    many pairs; they stand in the order of their scores, largest first; each
    pairs a question of the list with the similarity of the query to it; and
    the pairs left out score no higher than any pair returned, the returned
    and the left out ones together being all the scored questions. *)
Theorem search_returns_ranked_top_k (query : string)
    (questions : list smart_search.question) (top_k : Z) :
  0 <= top_k ->
  let found := smart_search.smart_search query questions top_k in
  let scored q :=
    (q, smart_search.cos_sim (smart_search.encode query) (smart_search.q_embedding q)) in
  Z.of_nat (length found) = Z.min top_k (Z.of_nat (length questions)) /\
  StronglySorted ranks_before found /\
  (forall q s, (q, s) ∈ found -> q ∈ questions /\ (q, s) = scored q) /\
  exists left_out,
    found ++ left_out ≡ₚ List.map scored questions /\
    forall x y, x ∈ found -> y ∈ left_out -> ranks_before x y.
Proof.
  intros Hk found scored.
  set (results := List.map scored questions).
  assert (Hfound : found = take (Z.to_nat top_k) (smart_search.sort_desc results)).
  { unfold found, smart_search.smart_search. by rewrite slice_to_nonneg. }
  split; [|split; [|split]].
  - rewrite Hfound, length_take, (Permutation_length (sort_desc_Permutation results)).
    unfold results. rewrite length_map. lia.
  - rewrite Hfound. apply StronglySorted_take, sort_desc_sorted.
  - intros q s Hqs. rewrite Hfound in Hqs.
    apply (subseteq_take (Z.to_nat top_k)) in Hqs.
    rewrite sort_desc_Permutation in Hqs.
    apply list_elem_of_In, in_map_iff in Hqs as (q' & Heq & Hin).
    unfold scored in Heq. injection Heq as -> <-.
    split; [by apply list_elem_of_In|done].
  - exists (drop (Z.to_nat top_k) (smart_search.sort_desc results)). split.
    + rewrite Hfound, take_drop. apply sort_desc_Permutation.
    + intros x y Hx Hy. rewrite Hfound in Hx.
      eapply StronglySorted_take_drop; [apply sort_desc_sorted|done..].
Qed.

End Ranking.

(** C7, as it is stated, fails for a negative limit: the slice
    [results[:-1]] drops the last of the three results and keeps two, which
    is not the least of [-1] and [3]. *)
Lemma negative_limit_keeps_results :
  Z.of_nat
    (length (@smart_search.smart_search Examples.by_length "exam"
               Examples.sample_questions (-1)))
  <> Z.min (-1) (Z.of_nat (length Examples.sample_questions)).
Proof. vm_compute. discriminate. Qed.

Lemma search_returns_ranked_top_k_witness :
  List.map (fun r => smart_search.id (fst r))
    (@smart_search.smart_search Examples.by_length "exam" Examples.sample_questions 2)
  = [1; 3] /\
  StronglySorted ranks_before
    (@smart_search.smart_search Examples.by_length "exam" Examples.sample_questions 2).
Proof.
  destruct (@search_returns_ranked_top_k Examples.by_length "exam"
              Examples.sample_questions 2) as (_ & Hsorted & _); [lia|].
  split; [vm_compute; reflexivity|exact Hsorted].
Defined.

(** ** The stores of the running service *)

Section MongoFacts.
Context {A : Type}.
Implicit Types (p : A -> bool) (f : A -> A) (l : list A).

Lemma elem_of_update_one p f l y :
  y ∈ Mongo.update_one p f l -> y ∈ l \/ exists x, x ∈ l /\ y = f x.
Proof.
  induction l as [|z l IH]; simpl; [by left|].
  destruct (p z).
  - intros [->|Hy]%elem_of_cons.
    + right. exists z. split; [apply elem_of_cons; by left|done].
    + left. apply elem_of_cons. by right.
  - intros [->|Hy]%elem_of_cons.
    + left. apply elem_of_cons. by left.
    + destruct (IH Hy) as [?|(x & ? & ?)].
      * left. apply elem_of_cons. by right.
      * right. exists x. split; [apply elem_of_cons; by right|done].
Qed.

Lemma elem_of_update_many p f l y :
  y ∈ Mongo.update_many p f l -> y ∈ l \/ exists x, x ∈ l /\ y = f x.
Proof.
  unfold Mongo.update_many. intros (x & -> & Hx)%elem_of_map.
  destruct (p x); [right; by exists x|by left].
Qed.

Lemma elem_of_delete_one p l y : y ∈ Mongo.delete_one p l -> y ∈ l.
Proof. intros Hy. by eapply sublist_subseteq; [apply delete_one_sublist|]. Qed.

Lemma elem_of_delete_one_other p l y :
  y ∈ l -> p y = false -> y ∈ Mongo.delete_one p l.
Proof.
  induction l as [|z l IH]; simpl; [done|].
  intros [->|Hy]%elem_of_cons Hp.
  - rewrite Hp. apply elem_of_cons. by left.
  - destruct (p z); [done|]. apply elem_of_cons. right. by apply IH.
Qed.

Lemma elem_of_delete_many p l y : y ∈ Mongo.delete_many p l -> y ∈ l /\ p y = false.
Proof.
  unfold Mongo.delete_many. intros [Hy Hp]%list_elem_of_In%filter_In.
  split; [by apply list_elem_of_In|by apply negb_true_iff].
Qed.

Lemma delete_many_sublist p l : Mongo.delete_many p l `sublist_of` l.
Proof. apply filter_sublist. Qed.

End MongoFacts.

Section WellFormed.
Context `{Bson} `{toxic_spam_model.Classifier} `{auto_tag.Models} `{PyList.SetOrder}
  `{answer.Llm}.

Lemma references_exist_alt db :
  references_exist db <->
  forall a, a ∈ answers db -> oid_str (a_question_id a) ∈ q_id <$> questions db.
Proof.
  unfold references_exist. rewrite Forall_forall. split; intros Hr a Ha.
  - specialize (Hr a Ha). apply Exists_exists in Hr as (q & Hq & <-).
    by apply list_elem_of_fmap_2.
  - specialize (Hr a Ha). apply list_elem_of_fmap in Hr as (q & Hqid & Hin).
    apply Exists_exists. by exists q.
Qed.

Lemma well_formed_same db db' :
  questions db' = questions db -> answers db' = answers db ->
  well_formed db -> well_formed db'.
Proof.
  unfold well_formed, accepted_consistent, references_exist. by intros -> ->.
Qed.

Lemma well_formed_appends db db' :
  appends_to_others db db' -> well_formed db -> well_formed db'.
Proof. intros (_ & Hq & Ha & _). by apply well_formed_same. Qed.

Lemma well_formed_start db : questions db = [] -> answers db = [] -> well_formed db.
Proof.
  intros Hq Ha. unfold well_formed, accepted_consistent, references_exist.
  rewrite Hq, Ha. repeat split; constructor.
Qed.

Lemma well_formed_update_answers p f db :
  (forall a, a_id (f a) = a_id a /\ a_question_id (f a) = a_question_id a /\
             (a_is_accepted (f a) = true -> a_is_accepted a = true)) ->
  well_formed db ->
  well_formed (set_answers (Mongo.update_one p f (answers db)) db).
Proof.
  intros Hf [(Hna & Hnq & Hp & Hinv)%accepted_consistent_alt Hrefs].
  rewrite references_exist_alt in Hrefs.
  split.
  - apply accepted_consistent_alt. simpl.
    rewrite fmap_id_update_one by (intros a; apply Hf).
    split; [done|]. split; [done|]. split.
    + intros a' [Ha|(a & Ha & ->)]%elem_of_update_one; [by apply Hp|].
      destruct (Hf a) as (_ & -> & _). by apply Hp.
    + intros q a' Hq [Ha|(a & Ha & ->)]%elem_of_update_one; [by apply Hinv|].
      destruct (Hf a) as (-> & -> & Hacc). intros Hqid Ha'. apply Hinv; auto.
  - apply references_exist_alt. simpl.
    intros a' [Ha|(a & Ha & ->)]%elem_of_update_one; [by apply Hrefs|].
    destruct (Hf a) as (_ & -> & _). by apply Hrefs.
Qed.

Lemma well_formed_update_questions p f db :
  (forall q, q_id (f q) = q_id q /\ q_accepted_answer (f q) = q_accepted_answer q) ->
  well_formed db ->
  well_formed (set_questions (Mongo.update_one p f (questions db)) db).
Proof.
  intros Hf [(Hna & Hnq & Hp & Hinv)%accepted_consistent_alt Hrefs].
  rewrite references_exist_alt in Hrefs.
  split.
  - apply accepted_consistent_alt. simpl.
    rewrite fmap_id_update_one by (intros q; apply Hf).
    split; [done|]. split; [done|]. split; [done|].
    intros q' a [Hq|(q & Hq & ->)]%elem_of_update_one Ha; [by apply Hinv|].
    destruct (Hf q) as (-> & ->). by apply Hinv.
  - apply references_exist_alt. simpl.
    rewrite fmap_id_update_one by (intros q; apply Hf). done.
Qed.

Lemma well_formed_insert_answer doc db :
  a_id doc ∉ a_id <$> answers db ->
  a_is_accepted doc = false ->
  printed (a_question_id doc) ->
  a_question_id doc ∈ q_id <$> questions db ->
  well_formed db ->
  well_formed (set_answers (Mongo.insert_one doc (answers db)) db).
Proof.
  intros Hfresh Hacc Hpd Hq [(Hna & Hnq & Hp & Hinv)%accepted_consistent_alt Hrefs].
  rewrite references_exist_alt in Hrefs. unfold printed in Hpd.
  unfold Mongo.insert_one. split.
  - apply accepted_consistent_alt. simpl. rewrite fmap_app. simpl.
    split; [|split; [done|split]].
    + apply NoDup_app. split; [done|]. split; [|apply NoDup_singleton].
      intros x Hx Hx'%list_elem_of_singleton. by subst.
    + intros a [Ha|Ha%list_elem_of_singleton]%elem_of_app; [by apply Hp|by subst].
    + intros q a Hqin [Ha|Ha%list_elem_of_singleton]%elem_of_app; [by apply Hinv|].
      subst. intros _ Hd. congruence.
  - apply references_exist_alt. simpl.
    intros a [Ha|Ha%list_elem_of_singleton]%elem_of_app; [by apply Hrefs|].
    subst. by rewrite Hpd.
Qed.

Lemma well_formed_insert_question doc db :
  q_id doc ∉ q_id <$> questions db ->
  well_formed db ->
  well_formed (set_questions (questions db ++ [doc]) db).
Proof.
  intros Hfresh [(Hna & Hnq & Hp & Hinv)%accepted_consistent_alt Hrefs].
  rewrite references_exist_alt in Hrefs.
  split.
  - apply accepted_consistent_alt. simpl. rewrite fmap_app. simpl.
    split; [done|]. split; [|split; [done|]].
    + apply NoDup_app. split; [done|]. split; [|apply NoDup_singleton].
      intros x Hx Hx'%list_elem_of_singleton. by subst.
    + intros q a [Hq|Hq%list_elem_of_singleton]%elem_of_app Ha; [by apply Hinv|].
      subst. intros Hqid _. exfalso. apply Hfresh. rewrite <- Hqid, <- (Hp a Ha).
      by apply Hrefs.
  - apply references_exist_alt. simpl. intros a Ha. rewrite fmap_app.
    apply elem_of_app. left. by apply Hrefs.
Qed.

Lemma well_formed_delete_question question_id db :
  printed question_id ->
  well_formed db ->
  well_formed
    (set_answers
       (Mongo.delete_many (fun a => String.eqb (a_question_id a) question_id) (answers db))
       (set_questions
          (Mongo.delete_one (by_id q_id (oid_str question_id)) (questions db)) db)).
Proof.
  intros Hpq [(Hna & Hnq & Hp & Hinv)%accepted_consistent_alt Hrefs].
  rewrite references_exist_alt in Hrefs. unfold printed in Hpq. rewrite Hpq.
  split.
  - apply accepted_consistent_alt. simpl. split; [|split; [|split]].
    + eapply sublist_NoDup; [exact Hna|]. apply fmap_sublist, delete_many_sublist.
    + eapply sublist_NoDup; [exact Hnq|]. apply fmap_sublist, delete_one_sublist.
    + intros a [Ha _]%elem_of_delete_many. by apply Hp.
    + intros q a Hq%elem_of_delete_one [Ha _]%elem_of_delete_many. by apply Hinv.
  - apply references_exist_alt. simpl.
    intros a [Ha Hne]%elem_of_delete_many.
    specialize (Hrefs a Ha). rewrite (Hp a Ha) in *.
    apply list_elem_of_fmap in Hrefs as (q & Hqid & Hq).
    rewrite Hqid. apply list_elem_of_fmap_2, elem_of_delete_one_other; [done|].
    unfold by_id. by rewrite <- Hqid.
Qed.

Lemma well_formed_accepted_in answer_id accepted db :
  printed answer_id ->
  Mongo.find_one (by_id a_id (oid_str answer_id)) (answers db) = Some accepted ->
  well_formed db -> well_formed (accepted_in answer_id accepted db).
Proof.
  intros Hpa Hf [Hacc Hrefs]. split; [by apply accepted_consistent_accepted_in|].
  rewrite references_exist_alt in Hrefs. apply references_exist_alt.
  unfold accepted_in, accept_in. simpl. rewrite fmap_id_update_one by done.
  intros a1 [Ha1|(a2 & Ha2 & ->)]%elem_of_update_one.
  - apply elem_of_update_many in Ha1 as [Ha|(a & Ha & ->)]; simpl; by apply Hrefs.
  - apply elem_of_update_many in Ha2 as [Ha|(a & Ha & ->)]; simpl; by apply Hrefs.
Qed.

Lemma well_formed_deleted_in answer_id deleted db :
  Mongo.find_one (by_id a_id (oid_str answer_id)) (answers db) = Some deleted ->
  well_formed db -> well_formed (deleted_in answer_id deleted db).
Proof.
  intros Hf [Hacc Hrefs]. split; [by apply accepted_consistent_deleted_in|].
  rewrite references_exist_alt in Hrefs. apply references_exist_alt.
  unfold deleted_in. simpl.
  assert (Hids : q_id <$>
            (if a_is_accepted deleted
             then Mongo.update_one (by_id q_id (oid_str (a_question_id deleted)))
                    (answer.set_accepted_answer None)
                    (Mongo.update_one (by_id q_id (oid_str (a_question_id deleted)))
                       (answer.pull_answer answer_id) (questions db))
             else Mongo.update_one (by_id q_id (oid_str (a_question_id deleted)))
                    (answer.pull_answer answer_id) (questions db))
          = q_id <$> questions db).
  { destruct (a_is_accepted deleted); by rewrite !fmap_id_update_one. }
  rewrite Hids. intros a Ha%elem_of_delete_one. by apply Hrefs.
Qed.

Lemma accept_answer_well_formed answer_id current_user db :
  (is_valid answer_id = true -> printed answer_id) ->
  well_formed db -> well_formed (answer.accept_answer answer_id current_user db).2.
Proof.
  intros Hpa Hwf. rewrite accept_answer_run.
  destruct (is_valid answer_id); [|done].
  destruct (Mongo.find_one (by_id a_id (oid_str answer_id)) (answers db))
    as [accepted|] eqn:Hf; [|done].
  destruct (is_valid (a_question_id accepted)); [|done].
  destruct (Mongo.find_one (by_id q_id (oid_str (a_question_id accepted))) (questions db));
    [|done].
  destruct (String.eqb _ _); [|done]. simpl.
  eapply well_formed_appends; [apply notify_accepted_answer_appends|].
  apply well_formed_accepted_in; auto.
Qed.

Lemma delete_answer_well_formed answer_id current_user db :
  well_formed db -> well_formed (answer.delete_answer answer_id current_user db).2.
Proof.
  intros Hwf. rewrite delete_answer_run.
  destruct (is_valid answer_id); [|done].
  destruct (Mongo.find_one (by_id a_id (oid_str answer_id)) (answers db))
    as [deleted|] eqn:Hf; [|done].
  destruct (negb _ && negb _); [done|].
  destruct (is_valid (a_question_id deleted)); [|done]. simpl.
  by apply well_formed_deleted_in.
Qed.

Lemma vote_answer_well_formed answer_id vote_action current_user db :
  well_formed db ->
  well_formed (answer.vote_answer answer_id vote_action current_user db).2.
Proof.
  intros Hwf. unfold answer.vote_answer. unfold mbind at 1, Handler_bind at 1.
  rewrite find_answer_or_400_run.
  destruct (is_valid answer_id) eqn:Hv; [|done].
  destruct (Mongo.find_one (by_id a_id (oid_str answer_id)) (answers db)) as [voted|];
    [|done].
  destruct (String.eqb (a_user_id voted) (u_id current_user)); [done|].
  assert (Hread : forall db1 : Database, well_formed db1 ->
    well_formed
      ((updated_answer ← notification.find_answer_by_id answer_id;
        match updated_answer with
        | None => raise (Exception "TypeError")
        | Some updated_answer =>
            mret ("Vote " +:+ answer.action vote_action +:+ " applied successfully",
                  a_votes updated_answer)
        end) db1).2).
  { intros db1 Hwf1. unfold notification.find_answer_by_id, ObjectId. rewrite Hv.
    unfold mbind, Handler_bind, mret, Handler_ret, read.
    by destruct (Mongo.find_one _ _). }
  destruct (String.eqb (answer.action vote_action) "upvote");
    [|destruct (String.eqb (answer.action vote_action) "downvote")];
    unfold mbind at 1, Handler_bind at 1; rewrite ?update_answer_run by done;
    apply Hread; try done; by apply well_formed_update_answers.
Qed.

Lemma reraise_http_state {A} (body : Handler A) detail db :
  (try_except body (answer.reraise_http detail) db).2 = (body db).2.
Proof.
  unfold try_except. destruct (body db) as [[a|e] db']; [done|]. by destruct e.
Qed.

Lemma find_question_or_400_run question_id db :
  try_except (notification.find_question_by_id question_id)
    (fun _ => raise (HTTPException 400 "Invalid question ID")) db
  = if is_valid question_id
    then (Return (Mongo.find_one (by_id q_id (oid_str question_id)) (questions db)), db)
    else (Raise (HTTPException 400 "Invalid question ID"), db).
Proof.
  unfold try_except. rewrite find_question_by_id_run. by destruct (is_valid question_id).
Qed.

(** The store after an answer is stored and the notification steps [steps]
    have run inside their [try]. *)
Lemma stored_answer_state {A} question_id doc (steps : Handler unit)
    (respond : option Answer -> Handler A) db :
  is_valid question_id = true ->
  (forall created db1, (respond created db1).2 = db1) ->
  ((created_answer ← answer.store_answer question_id doc;
    try_except steps (fun _ => mret tt);;
    respond created_answer) db).2
  = (try_except steps (fun _ => mret tt) (with_answer question_id doc db)).2.
Proof.
  intros Hv Hrespond. unfold mbind at 1, Handler_bind at 1.
  rewrite store_answer_run by done.
  unfold mbind, Handler_bind, try_except.
  destruct (steps (with_answer question_id doc db)) as [[[]|e] db1]; simpl;
    by rewrite Hrespond.
Qed.

Lemma well_formed_with_answer question_id doc question db :
  printed question_id ->
  Mongo.find_one (by_id q_id (oid_str question_id)) (questions db) = Some question ->
  a_question_id doc = question_id ->
  a_is_accepted doc = false ->
  a_id doc ∉ a_id <$> answers db ->
  well_formed db -> well_formed (with_answer question_id doc db).
Proof.
  intros Hpq Hf Hqid Hacc Hfresh Hwf. unfold with_answer.
  apply (well_formed_update_questions _ _ (set_answers _ db)); [done|].
  apply well_formed_insert_answer; [done..|by rewrite Hqid| |done].
  apply find_one_elem in Hf as [Hq Hid]. unfold by_id in Hid.
  apply String.eqb_eq in Hid. unfold printed in Hpq. rewrite Hpq in Hid.
  rewrite Hqid, <- Hid. by apply list_elem_of_fmap_2.
Qed.

Lemma create_answer_well_formed question_id answer_data current_user inserted_id db :
  (is_valid question_id = true -> printed question_id) ->
  inserted_id ∉ a_id <$> answers db ->
  well_formed db ->
  well_formed
    (answer.create_answer question_id answer_data current_user inserted_id db).2.
Proof.
  intros Hpq Hfresh Hwf. unfold answer.create_answer. rewrite reraise_http_state.
  unfold mbind at 1, Handler_bind at 1. rewrite find_question_or_400_run.
  destruct (is_valid question_id) eqn:Hv; [|done].
  destruct (Mongo.find_one (by_id q_id (oid_str question_id)) (questions db))
    as [question|] eqn:Hf; [|done].
  destruct (toxic_spam_model.is_toxic _ _) as [[] score]; [done|].
  rewrite stored_answer_state; [|done|by intros [c|] db1].
  eapply well_formed_appends.
  - apply (notification_steps_appends question_id answer_data current_user inserted_id).
  - eapply well_formed_with_answer; eauto.
Qed.

Lemma create_ai_answer_well_formed question_id current_user inserted_id db :
  (is_valid question_id = true -> printed question_id) ->
  inserted_id ∉ a_id <$> answers db ->
  well_formed db ->
  well_formed (answer.create_ai_answer question_id current_user inserted_id db).2.
Proof.
  intros Hpq Hfresh Hwf. unfold answer.create_ai_answer. rewrite reraise_http_state.
  unfold mbind at 1, Handler_bind at 1. rewrite find_question_or_400_run.
  destruct (is_valid question_id) eqn:Hv; [|done].
  destruct (Mongo.find_one (by_id q_id (oid_str question_id)) (questions db))
    as [question|] eqn:Hf; [|done].
  destruct (negb _); [done|].
  destruct (PyStr.startswith _ _); [done|].
  rewrite stored_answer_state; [|done|by intros [c|] db1].
  assert (Hsteps : preserves appends_to_others
            (try_except
               (notification.notify_new_answer question_id inserted_id (u_id current_user))
               (fun _ => mret tt))).
  { apply preserves_try; try apply _; [apply notify_new_answer_appends|].
    intros e. apply preserves_ret; apply _. }
  eapply well_formed_appends; [apply Hsteps|].
  eapply well_formed_with_answer; eauto.
Qed.

Lemma create_question_well_formed question_data current_user inserted_id db :
  inserted_id ∉ q_id <$> questions db ->
  well_formed db ->
  well_formed (question.create_question question_data current_user inserted_id db).2.
Proof.
  intros Hfresh Hwf.
  destruct (toxic_spam_model.is_toxic (combined_text question_data)
              toxic_spam_model.default_threshold).1 eqn:Hv.
  - by rewrite create_question_toxic.
  - eapply well_formed_appends; [by apply create_question_inserts|].
    by apply well_formed_insert_question.
Qed.

Lemma delete_question_well_formed question_id current_user db :
  (is_valid question_id = true -> printed question_id) ->
  well_formed db ->
  well_formed (question.delete_question question_id current_user db).2.
Proof.
  intros Hpq Hwf. unfold question.delete_question. unfold mbind at 1, Handler_bind at 1.
  rewrite find_question_or_400_run.
  destruct (is_valid question_id) eqn:Hv; [|done].
  destruct (Mongo.find_one (by_id q_id (oid_str question_id)) (questions db)); [|done].
  destruct (negb _ && negb _); [done|].
  unfold mbind, Handler_bind, ObjectId, write. rewrite Hv. simpl.
  apply well_formed_delete_question; auto.
Qed.

Lemma serve_well_formed r db :
  fresh r db -> as_printed r -> well_formed db -> well_formed (serve r db).
Proof.
  destruct r; simpl; intros Hfresh Hprinted Hwf.
  - by apply create_question_well_formed.
  - by apply delete_question_well_formed.
  - by apply create_answer_well_formed.
  - by apply create_ai_answer_well_formed.
  - by apply vote_answer_well_formed.
  - by apply accept_answer_well_formed.
  - by apply delete_answer_well_formed.
Qed.

Lemma reachable_well_formed db : reachable db -> well_formed db.
Proof.
  induction 1 as [db Hq Ha|r db _ IH Hfresh Hprinted|db db' _ IH Hq Ha].
  - by apply well_formed_start.
  - by apply serve_well_formed.
  - by eapply well_formed_same.
Qed.


End WellFormed.



(** Alice asks, Bob and Carol answer, Alice accepts Bob's answer and then
    Carol's, all with ids spelled as printed: the store is reachable, and
    the question names Carol's answer, the only accepted one. *)
Example served_requests_stay_consistent :
  let served :=
    @serve bson.hex_ids Examples.no_classifier Examples.no_taggers
      Examples.first_seen Examples.no_llm in
  let db :=
    served (AcceptAnswer "64c000000000000000000002" Examples.hex_alice)
      (served (AcceptAnswer "64c000000000000000000001" Examples.hex_alice)
         (served (CreateAnswer "64b000000000000000000001"
                    {| answer.content := "Use the sort method." |}
                    Examples.hex_carol "64c000000000000000000002")
            (served (CreateAnswer "64b000000000000000000001"
                       {| answer.content := "Call sorted on it." |}
                       Examples.hex_bob "64c000000000000000000001")
               (served (CreateQuestion Examples.sorting_question Examples.hex_alice
                          "64b000000000000000000001")
                  Examples.db_hex_start)))) in
  @reachable bson.hex_ids Examples.no_classifier Examples.no_taggers
    Examples.first_seen Examples.no_llm db /\
  List.map q_accepted_answer (questions db) = [Some "64c000000000000000000002"] /\
  List.map a_id (@accepted_answers_of bson.hex_ids "64b000000000000000000001" (answers db))
  = ["64c000000000000000000002"].
Proof.
  split; [|split; vm_compute; reflexivity].
  repeat (apply reachable_serve;
          [|by_evaluation || exact I|(intros _; reflexivity) || exact I]).
  by apply reachable_start.
Qed.

(** The question is given the string of the request: accepted under an
    upper-case spelling, Alice's answer is accepted, and [accepted_answer]
    holds a string that is the [_id] of no answer. *)
Example accepted_answer_holds_the_request_string :
  let db' :=
    (@answer.accept_answer bson.hex_ids "64C000000000000000000002" Examples.hex_alice
       Examples.db_hex).2 in
  List.map (fun a => (a_id a, a_is_accepted a)) (answers db')
  = [("64c000000000000000000001", false); ("64c000000000000000000002", true)] /\
  List.map q_accepted_answer (questions db') = [Some "64C000000000000000000002"].
Proof. split; reflexivity. Qed.

(** * Further properties *)

(** ** Which names can be mentioned *)

Section Mentionable.
Context `{Bson}.

(** X1.  Every name that [extract_mentions] returns is a non-empty string of
    word characters.  So a user whose name holds any other character (a dot,
    a hyphen, a space) is never among the mentions of any text, and one call
    of [notify_mentions] writes no notification for that user. *)
Theorem only_word_names_are_mentioned (content : string) :
  (forall name, name ∈ notification.extract_mentions content -> mentionable name) /\
  (forall (db : Database) (from_user_id : string) (question_id answer_id : option string)
          (u : User),
     ~ mentionable (u_username u) ->
     driver db = [] -> is_valid from_user_id = true ->
     NoDup (u_username <$> users db) -> NoDup (u_id <$> users db) -> u ∈ users db ->
     u_id u <> from_user_id ->
     exists added,
       notification.notify_mentions content from_user_id question_id answer_id db
       = (Return tt, add_notifications added db) /\
       count_for (u_id u) added = 0%nat).
Proof.
  split.
  - intros name. apply findall_at_word_mentionable.
  - intros db from_user_id question_id answer_id u Hname Hd Hv Hnames Hids Hu Hne.
    eexists. split; [by apply notify_mentions_stored|].
    rewrite count_for_mention_docs, recipients_count by done.
    unfold occurrences.
    destruct (List.filter (String.eqb (u_username u)) (notification.extract_mentions content))
      as [|m ms] eqn:E; [done|].
    exfalso. apply Hname.
    assert (Hin : In m (List.filter (String.eqb (u_username u))
                          (notification.extract_mentions content)))
      by (rewrite E; by left).
    apply filter_In in Hin as [Hin Heq]. apply String.eqb_eq in Heq. subst m.
    apply (findall_at_word_mentionable content). by apply list_elem_of_In.
Qed.

(** X2.  A mentionable name written after [@] is extracted, whatever text
    comes before it, provided that the text that follows does not go on with
    a word character. *)
Theorem written_mention_is_extracted (before name after : string) :
  mentionable name -> word_ends after ->
  name ∈ notification.extract_mentions (before +:+ "@" +:+ name +:+ after).
Proof.
  intros [Hne Hword] Hafter. unfold notification.extract_mentions.
  apply findall_at_word_app. rewrite append_cons, append_nil. simpl.
  rewrite word_prefix_app by done.
  destruct name as [|c name]; [done|]. apply elem_of_cons. by left.
Qed.

End Mentionable.

Lemma only_word_names_are_mentioned_witness :
  exists added,
    @notification.notify_mentions Examples.any_id "ask @john.doe about it" "u1" None None
      Examples.db_dotted
    = (Return tt, add_notifications added Examples.db_dotted) /\
    count_for "u4" added = 0%nat.
Proof.
  destruct (@only_word_names_are_mentioned Examples.any_id "ask @john.doe about it")
    as [_ Hnever].
  apply (Hnever Examples.db_dotted "u1" None None Examples.john_doe).
  - intros [_ Hword]. vm_compute in Hword. discriminate.
  - reflexivity.
  - reflexivity.
  - by_evaluation.
  - by_evaluation.
  - by_evaluation.
  - discriminate.
Defined.

Lemma written_mention_is_extracted_witness :
  "bob_2" ∈ notification.extract_mentions "thanks @bob_2, see a@b.c".
Proof.
  apply (written_mention_is_extracted "thanks " "bob_2" ", see a@b.c").
  - split; [discriminate|reflexivity].
  - reflexivity.
Defined.

(** ** More on the tags *)

Section MoreTags.
Context `{auto_tag.Models}.

Lemma keyword_loop_bounded raw_keywords seen tags top_k :
  gathering seen tags (Z.max top_k 1) ->
  gathered (auto_tag.keyword_loop raw_keywords seen tags top_k) (Z.max top_k 1).
Proof.
  revert seen tags. induction raw_keywords as [|[kw score] rest IH]; intros seen tags Hg.
  - simpl. by eapply gathering_gathered.
  - simpl. set (kw' := PyStr.strip (PyStr.lower kw)).
    destruct (bool_decide (kw' ∈ seen)) eqn:Hseen; simpl; [by apply IH|].
    destruct (auto_tag.is_good_single_word kw') eqn:Hgood; simpl; [|by apply IH].
    apply bool_decide_eq_false in Hseen.
    apply is_good_single_word_true in Hgood as (Hone & Hdigit & Hlen).
    assert (Htag : single_word_tag kw').
    { split; [done|]. split; [by apply strip_one_word_no_whitespace|].
      split; [|done]. apply lower_fixed, all_strip, all_lower. }
    destruct (gathering_step seen tags (Z.max top_k 1) kw' Hg Htag Hseen) as [Hstop Hgo].
    destruct (Z.of_nat (length (tags ++ [kw'])) >=? top_k) eqn:E; [done|].
    apply IH, Hgo. rewrite Z.geb_leb in *. apply Z.leb_gt in E. apply Z.leb_gt. lia.
Qed.

Lemma fallback_loop_bounded words seen tags top_k :
  Forall (fun w => PyStr.no_whitespace w /\ PyStr.all is_lower_fixed w = true) words ->
  gathering seen tags (Z.max top_k 1) ->
  gathered (auto_tag.fallback_loop words seen tags top_k) (Z.max top_k 1).
Proof.
  revert seen tags. induction words as [|word rest IH]; intros seen tags Hwords Hg.
  - simpl. by eapply gathering_gathered.
  - apply Forall_cons in Hwords as [[Hns Hlow] Hrest]. simpl.
    destruct (bool_decide (word ∈ seen)) eqn:Hseen; simpl; [by apply IH|].
    destruct (auto_tag.is_good_single_word word) eqn:Hgood; simpl; [|by apply IH].
    destruct (3 <? PyStr.len word); [|by apply IH].
    apply bool_decide_eq_false in Hseen.
    apply is_good_single_word_true in Hgood as (Hone & Hdigit & Hlen).
    assert (Htag : single_word_tag word).
    { split; [done|]. split; [done|]. split; [by apply lower_fixed|done]. }
    destruct (gathering_step seen tags (Z.max top_k 1) word Hg Htag Hseen) as [Hstop Hgo].
    destruct (Z.of_nat (length (tags ++ [word])) >=? top_k) eqn:E; [done|].
    apply IH; [done|]. apply Hgo.
    rewrite Z.geb_leb in *. apply Z.leb_gt in E. apply Z.leb_gt. lia.
Qed.

Lemma extract_single_word_tags_bounded title body top_k :
  gathered (auto_tag.extract_single_word_tags title body top_k) (Z.max top_k 1).
Proof.
  assert (Hstart : gathering ∅ [] (Z.max top_k 1)).
  { repeat split; [constructor|constructor| |simpl; lia].
    intros t Ht. by apply elem_of_nil in Ht. }
  unfold auto_tag.extract_single_word_tags.
  destruct (negb auto_tag.AI_AVAILABLE).
  - unfold auto_tag.extract_tags_fallback.
    apply fallback_loop_bounded; [apply clean_text_words|done].
  - by apply keyword_loop_bounded.
Qed.

(** X3.  Whatever the limit [top_k] is, zero and negative limits included,
    [extract_single_word_tags] returns good tags, no tag twice, and at most
    [max(top_k, 1)] of them: a limit below one still lets one tag through. *)
Theorem tags_for_every_limit (title body : string) (top_k : Z) :
  Forall single_word_tag (auto_tag.extract_single_word_tags title body top_k) /\
  NoDup (auto_tag.extract_single_word_tags title body top_k) /\
  Z.of_nat (length (auto_tag.extract_single_word_tags title body top_k)) <= Z.max top_k 1.
Proof. apply extract_single_word_tags_bounded. Qed.

(** The tags that the fallback loop returns are the tags it was given
    followed by accepted words, in the order of the text. *)
Lemma fallback_loop_extends words seen tags top_k :
  exists more,
    auto_tag.fallback_loop words seen tags top_k = tags ++ more /\
    more `sublist_of` words /\
    Forall (fun w => auto_tag.is_good_single_word w = true /\ 3 < PyStr.len w) more.
Proof.
  revert seen tags. induction words as [|word rest IH]; intros seen tags; simpl.
  - exists []. by rewrite app_nil_r.
  - destruct (negb (bool_decide (word ∈ seen)) && auto_tag.is_good_single_word word
              && (3 <? PyStr.len word)) eqn:E.
    + apply andb_true_iff in E as [[_ Hgood]%andb_true_iff Hlen%Z.ltb_lt].
      destruct (Z.of_nat (length (tags ++ [word])) >=? top_k).
      * exists [word]. split; [done|]. split; [|by repeat constructor].
        apply sublist_skip, sublist_nil_l.
      * destruct (IH ({[word]} ∪ seen) (tags ++ [word])) as (more & -> & Hsub & Hall).
        exists (word :: more). rewrite <- app_assoc. split; [done|].
        split; [by apply sublist_skip|by constructor].
    + destruct (IH seen tags) as (more & -> & Hsub & Hall).
      exists more. split; [done|]. split; [by apply sublist_cons|done].
Qed.

(** X4.  Without the AI models, the tags are words of the cleaned text in the
    order of the text, each alphabetic and at least four characters long. *)
Theorem fallback_tags_are_words_of_the_text (title body : string) (top_k : Z) :
  auto_tag.AI_AVAILABLE = false ->
  auto_tag.extract_single_word_tags title body top_k
    `sublist_of` PyStr.split (auto_tag.clean_text (title +:+ " " +:+ body)) /\
  Forall (fun t => PyStr.isalpha t = true /\ 4 <= PyStr.len t)
    (auto_tag.extract_single_word_tags title body top_k).
Proof.
  intros Hai. unfold auto_tag.extract_single_word_tags, auto_tag.extract_tags_fallback.
  rewrite Hai. simpl.
  destruct (fallback_loop_extends
              (PyStr.split (auto_tag.clean_text (title +:+ " " +:+ body))) ∅ [] top_k)
    as (more & -> & Hsub & Hall).
  simpl. split; [done|].
  eapply Forall_impl; [exact Hall|]. intros w [Hgood Hlen]. split; [|lia].
  unfold auto_tag.is_good_single_word in Hgood. rewrite Hai in Hgood. simpl in Hgood.
  by apply andb_true_iff in Hgood as [_ ?].
Qed.

Lemma fallback_loop_prefix words seen tags k k' :
  Z.of_nat (length tags) < k -> k <= k' ->
  auto_tag.fallback_loop words seen tags k
  = take (Z.to_nat k) (auto_tag.fallback_loop words seen tags k').
Proof.
  revert seen tags. induction words as [|word rest IH]; intros seen tags Hlen Hk; simpl.
  - rewrite take_ge; [done|lia].
  - destruct (negb (bool_decide (word ∈ seen)) && auto_tag.is_good_single_word word
              && (3 <? PyStr.len word)); [|by apply IH].
    assert (Hlen' : Z.of_nat (length (tags ++ [word])) = Z.of_nat (length tags) + 1).
    { rewrite length_app. simpl. lia. }
    destruct (Z.of_nat (length (tags ++ [word])) >=? k) eqn:E1;
      destruct (Z.of_nat (length (tags ++ [word])) >=? k') eqn:E2;
      rewrite Z.geb_leb in E1, E2;
      try apply Z.leb_le in E1; try apply Z.leb_gt in E1;
      try apply Z.leb_le in E2; try apply Z.leb_gt in E2.
    + rewrite take_ge; [done|lia].
    + destruct (fallback_loop_extends rest ({[word]} ∪ seen) (tags ++ [word]) k')
        as (more & -> & _).
      rewrite take_app_length'; [done|lia].
    + lia.
    + apply IH; lia.
Qed.

(** X5.  Without the AI models, asking for more tags only appends: the tags
    for a limit [k] of at least one are the first [k] of the tags for any
    larger limit. *)
Theorem fallback_tags_grow_by_appending (title body : string) (k k' : Z) :
  auto_tag.AI_AVAILABLE = false -> 1 <= k -> k <= k' ->
  auto_tag.extract_single_word_tags title body k
  = take (Z.to_nat k) (auto_tag.extract_single_word_tags title body k').
Proof.
  intros Hai Hk Hk'. unfold auto_tag.extract_single_word_tags, auto_tag.extract_tags_fallback.
  rewrite Hai. simpl. apply fallback_loop_prefix; simpl; lia.
Qed.

End MoreTags.

Lemma fallback_tags_are_words_of_the_text_witness :
  @auto_tag.extract_single_word_tags Examples.no_taggers
    "Sorting strings in Python" "Which function sorts strings?" 10
    `sublist_of` ["sorting"; "strings"; "in"; "python"; "which"; "function"; "sorts";
                  "strings"].
Proof.
  destruct (@fallback_tags_are_words_of_the_text Examples.no_taggers
              "Sorting strings in Python" "Which function sorts strings?" 10 eq_refl)
    as [Hsub _].
  exact Hsub.
Defined.

Lemma fallback_tags_grow_by_appending_witness :
  @auto_tag.extract_single_word_tags Examples.no_taggers
    "Sorting strings in Python" "Which function sorts strings?" 2
  = take 2 (@auto_tag.extract_single_word_tags Examples.no_taggers
              "Sorting strings in Python" "Which function sorts strings?" 10).
Proof.
  apply (@fallback_tags_grow_by_appending Examples.no_taggers
           "Sorting strings in Python" "Which function sorts strings?" 2 10);
    [reflexivity|lia|lia].
Defined.

(** ** The text cleaner *)

Section CleanText.
Import PyStr.

Lemma is_word_lower_char c : is_word (lower_char c) = is_word c.
Proof. destruct c as [[] [] [] [] [] [] [] []]; vm_compute; reflexivity. Qed.

Lemma all_and p q s : all (fun c => p c && q c) s = all p s && all q s.
Proof.
  induction s as [|c s IH]; simpl; [done|]. rewrite IH.
  destruct (p c), (q c), (all p s); reflexivity.
Qed.

Lemma all_sub_non_word_space s :
  all (fun c => is_word c || is_space c) (PyRe.sub_non_word_space s) = true.
Proof.
  induction s as [|c s IH]; simpl; [done|].
  destruct (is_word c || is_space c) eqn:E; [|done]. simpl. by rewrite E, IH.
Qed.

Lemma all_word_space_lower s :
  all (fun c => is_word c || is_space c) (lower s)
  = all (fun c => is_word c || is_space c) s.
Proof.
  unfold lower. induction s as [|c s IH]; simpl; [done|].
  by rewrite is_word_lower_char, is_space_lower_char, IH.
Qed.

Lemma clean_text_clean text : all is_clean (auto_tag.clean_text text) = true.
Proof.
  unfold auto_tag.clean_text. apply all_strip. unfold is_clean. rewrite all_and.
  by rewrite all_word_space_lower, all_sub_non_word_space, all_lower.
Qed.

Lemma lstrip_fixed s : word_ahead s = true -> lstrip s = s.
Proof. destruct s as [|c r]; simpl; [done|]. by intros ->%negb_true_iff. Qed.

Lemma strip_idemp s : strip (strip s) = strip s.
Proof.
  unfold strip. destruct (lstrip_word_ahead s) as [->|Hw]; [done|].
  rewrite (lstrip_fixed (rstrip (lstrip s))); [apply rstrip_idemp|].
  by apply rstrip_word_ahead.
Qed.

Lemma sub_tags_clean s : all is_clean s = true -> PyRe.sub_tags false s = s.
Proof.
  induction s as [|c s IH]; simpl; [done|].
  intros [Hc Hs]%andb_true_iff.
  destruct (Ascii.eqb_spec c "<") as [->|_]; [by vm_compute in Hc|].
  simpl. by rewrite IH.
Qed.

Lemma sub_non_word_space_clean s : all is_clean s = true -> PyRe.sub_non_word_space s = s.
Proof.
  induction s as [|c s IH]; simpl; [done|].
  intros [Hc Hs]%andb_true_iff. unfold is_clean in Hc.
  apply andb_true_iff in Hc as [-> _]. by rewrite IH.
Qed.

Lemma lower_clean s : all is_clean s = true -> lower s = s.
Proof.
  intros Hs. apply lower_fixed. unfold is_clean in Hs. rewrite all_and in Hs.
  by apply andb_true_iff in Hs as [_ ?].
Qed.

(** X6.  On texts of code points below 256, the strings of this
    development, [clean_text] normalises: what it returns holds only word
    characters and whitespace, no upper-case letter, and no whitespace at
    either end; cleaning a cleaned text again changes nothing.  ([lower()]
    works character by character on these texts; it does not on a text
    that holds U+0130, and the statement says nothing about such a text.) *)
Theorem clean_text_is_a_normal_form (text : string) :
  all is_clean (auto_tag.clean_text text) = true /\
  strip (auto_tag.clean_text text) = auto_tag.clean_text text /\
  auto_tag.clean_text (auto_tag.clean_text text) = auto_tag.clean_text text.
Proof.
  pose proof (clean_text_clean text) as Hclean.
  assert (Hstrip : strip (auto_tag.clean_text text) = auto_tag.clean_text text).
  { unfold auto_tag.clean_text. apply strip_idemp. }
  split; [done|]. split; [done|].
  unfold auto_tag.clean_text at 1.
  by rewrite (sub_tags_clean _ Hclean), (sub_non_word_space_clean _ Hclean),
    (lower_clean _ Hclean).
Qed.

End CleanText.

(** ** The moderation fallback *)

Section Moderation.
Context `{toxic_spam_model.Classifier}.
Import PyStr.

Lemma lower_app s t : lower (s +:+ t) = lower s +:+ lower t.
Proof.
  unfold lower. induction s as [|c s IH]; rewrite ?append_nil, ?append_cons; simpl; [done|].
  by rewrite IH.
Qed.

Lemma startswith_refl s : startswith s s = true.
Proof. induction s as [|c s IH]; simpl; [done|]. by rewrite Ascii.eqb_refl. Qed.

Lemma startswith_app sub s t : startswith sub s = true -> startswith sub (s +:+ t) = true.
Proof.
  revert s. induction sub as [|a sub IH]; intros s; [done|].
  destruct s as [|b s]; [done|]. rewrite append_cons. simpl.
  intros [-> Hs]%andb_true_iff. by apply IH.
Qed.

Lemma contains_refl s : contains s s = true.
Proof. destruct s; simpl; [done|]. by rewrite Ascii.eqb_refl, startswith_refl. Qed.

Lemma contains_app_r sub s t : contains sub s = true -> contains sub (s +:+ t) = true.
Proof.
  induction s as [|c s IH].
  - simpl. rewrite orb_false_r. intros Hs. destruct sub; [|done]. by destruct t.
  - rewrite append_cons. simpl contains at 1.
    intros [Hs|Hs]%orb_true_iff.
    + apply (startswith_app _ _ t) in Hs. rewrite append_cons in Hs.
      simpl contains. by rewrite Hs.
    + simpl contains. rewrite (IH Hs). apply orb_true_r.
Qed.

Lemma contains_app_l sub s t : contains sub t = true -> contains sub (s +:+ t) = true.
Proof.
  intros Ht. induction s as [|c s IH]; rewrite ?append_nil, ?append_cons; [done|].
  simpl. rewrite IH. apply orb_true_r.
Qed.

(** X7.  Without the classifier, moderation is a substring test on the
    lowered text: a text in which one of the five listed words is written,
    in any letter case and even inside a longer word, is flagged with score
    0.8, whatever the threshold is. *)
Theorem fallback_flags_every_occurrence (word written before after : string)
    (threshold : Q) :
  toxic_spam_model.AI_AVAILABLE = false ->
  word ∈ toxic_spam_model.toxic_words ->
  lower written = word ->
  toxic_spam_model.is_toxic (before +:+ written +:+ after) threshold = (true, 0.8%Q).
Proof.
  intros Hai Hword Hwritten. unfold toxic_spam_model.is_toxic. rewrite Hai. simpl negb.
  cbv iota.
  assert (Hex : existsb
                  (fun word => contains word (lower (before +:+ written +:+ after)))
                  toxic_spam_model.toxic_words = true).
  { apply existsb_exists. exists word. split; [by apply list_elem_of_In|].
    rewrite !lower_app, Hwritten.
    apply contains_app_l, contains_app_r, contains_refl. }
  by rewrite Hex.
Qed.

End Moderation.

Lemma fallback_flags_every_occurrence_witness :
  @toxic_spam_model.is_toxic Examples.no_classifier "Whatever works" 1%Q = (true, 0.8%Q).
Proof.
  apply (@fallback_flags_every_occurrence Examples.no_classifier "hate" "hate" "W"
           "ver works" 1%Q); [reflexivity|by_evaluation|reflexivity].
Defined.

(** ** The ranking *)

Section MoreRanking.
Context `{smart_search.Embedder}.

Lemma insert_desc_filter (p : smart_search.question * Q -> bool)
    (x : smart_search.question * Q) l :
  (forall y, p x = true -> p y = true -> Qle_bool (snd y) (snd x) = true) ->
  List.filter p (smart_search.insert_desc x l)
  = if p x then x :: List.filter p l else List.filter p l.
Proof.
  intros Htie. induction l as [|y l IH]; simpl; [done|].
  destruct (Qle_bool (snd y) (snd x)) eqn:E; simpl; [done|].
  rewrite IH. destruct (p x) eqn:Hx; [|done].
  destruct (p y) eqn:Hy; [|done]. rewrite (Htie y eq_refl Hy) in E. done.
Qed.

Lemma sort_desc_filter (p : smart_search.question * Q -> bool) l :
  (forall x y, p x = true -> p y = true -> Qle_bool (snd y) (snd x) = true) ->
  List.filter p (smart_search.sort_desc l) = List.filter p l.
Proof.
  intros Htie. induction l as [|x l IH]; simpl; [done|].
  rewrite insert_desc_filter; [|by apply Htie]. by rewrite IH.
Qed.

Lemma length_sort_desc (l : list (smart_search.question * Q)) :
  length (smart_search.sort_desc l) = length l.
Proof. by rewrite (sort_desc_Permutation l). Qed.

(** X8.  The ranking is stable: the questions that score the same as a
    given score stand in the ranking in the order of the input list. *)
Theorem equal_scores_keep_their_order (query : string)
    (questions : list smart_search.question) (score : Q) :
  let tied (r : smart_search.question * Q) := Qeq_bool (snd r) score in
  List.filter tied
    (smart_search.smart_search query questions (Z.of_nat (length questions)))
  = List.filter tied
      (List.map
         (fun q => (q, smart_search.cos_sim (smart_search.encode query)
                         (smart_search.q_embedding q)))
         questions).
Proof.
  intros tied. unfold smart_search.smart_search.
  rewrite slice_to_nonneg by lia. rewrite Nat2Z.id.
  rewrite take_ge by (rewrite length_sort_desc, length_map; lia).
  apply sort_desc_filter. intros x y Hx%Qeq_bool_iff Hy%Qeq_bool_iff.
  apply Qle_bool_iff. rewrite Hx, Hy. apply Qle_refl.
Qed.

(** X9.  A negative [top_k] does not empty the result: it drops the last
    [-top_k] entries of the full ranking and keeps the best ones. *)
Theorem negative_limit_drops_the_tail (query : string)
    (questions : list smart_search.question) (top_k : Z) :
  top_k < 0 ->
  smart_search.smart_search query questions top_k
  = take (length questions - Z.to_nat (- top_k))
      (smart_search.smart_search query questions (Z.of_nat (length questions))) /\
  Z.of_nat (length (smart_search.smart_search query questions top_k))
  = Z.max 0 (Z.of_nat (length questions) + top_k).
Proof.
  intros Hneg. unfold smart_search.smart_search.
  rewrite (slice_to_nonneg _ (Z.of_nat (length questions))) by lia. rewrite Nat2Z.id.
  rewrite (take_ge _ (length questions)) by (rewrite length_sort_desc, length_map; lia).
  unfold PyList.slice_to. destruct (Z.ltb_spec top_k 0); [|lia].
  rewrite length_sort_desc, length_map. split; [done|].
  rewrite length_firstn, length_sort_desc, length_map. lia.
Qed.

End MoreRanking.

Lemma negative_limit_drops_the_tail_witness :
  List.map (fun r => smart_search.id (fst r))
    (@smart_search.smart_search Examples.by_length "exam" Examples.sample_questions (-1))
  = [1; 3].
Proof.
  destruct (@negative_limit_drops_the_tail Examples.by_length "exam"
              Examples.sample_questions (-1) ltac:(lia)) as [Hsame _].
  rewrite Hsame. reflexivity.
Defined.

(** ** The notification bell *)

Section Bell.
Context `{Bson} `{NotificationIds}.
Import notification_routes.

Lemma count_documents_map {A} (p : A -> bool) (g : A -> A) (l : list A) :
  count_documents p (List.map g l) = count_documents (fun x => p (g x)) l.
Proof.
  unfold count_documents. f_equal.
  induction l as [|x l IH]; simpl; [done|]. destruct (p (g x)); simpl; by rewrite IH.
Qed.

Lemma count_documents_ext {A} (p q : A -> bool) (l : list A) :
  (forall x, p x = q x) -> count_documents p l = count_documents q l.
Proof. intros Hpq. unfold count_documents. by rewrite (List.filter_ext p q Hpq). Qed.

Lemma count_documents_none {A} (p : A -> bool) (l : list A) :
  (forall x, p x = false) -> count_documents p l = 0.
Proof.
  intros Hp. unfold count_documents.
  induction l as [|x l IH]; simpl; [done|]. by rewrite Hp.
Qed.

(** X10.  After [mark_all_notifications_read] the caller's bell shows no
    unread notification and the same total; the message reports how many
    were unread before; the bells of the other users, and the users,
    questions and answers, are as before; a second call marks nothing. *)
Theorem mark_all_read_clears_the_bell (current_user : User) (db : Database) :
  exists unread total db',
    get_notification_stats current_user db
    = (Return {| unread_count := unread; total_count := total |}, db) /\
    mark_all_notifications_read current_user db
    = (Return ("Marked " +:+ PyFmt.of_int unread +:+ " notifications as read"), db') /\
    get_notification_stats current_user db'
    = (Return {| unread_count := 0; total_count := total |}, db') /\
    (forall other,
       u_id other <> u_id current_user ->
       (get_notification_stats other db').1 = (get_notification_stats other db).1) /\
    users db' = users db /\ questions db' = questions db /\ answers db' = answers db /\
    mark_all_notifications_read current_user db'
    = (Return "Marked 0 notifications as read", db').
Proof.
  set (mine := fun n => String.eqb (n_user_id n) (u_id current_user)).
  set (g := fun n => if mine n then set_read true n else n).
  set (ns := notifications db).
  assert (Huser : forall n, n_user_id (g n) = n_user_id n).
  { intros n. unfold g. by destruct (mine n). }
  assert (Hread : forall n, mine n = true -> n_read (g n) = true).
  { intros n Hn. unfold g. by rewrite Hn. }
  assert (Hother : forall n, mine n = false -> g n = n).
  { intros n Hn. unfold g. by rewrite Hn. }
  assert (Htotal : forall u,
             count_documents (fun n => String.eqb (n_user_id n) (u_id u)) (List.map g ns)
             = count_documents (fun n => String.eqb (n_user_id n) (u_id u)) ns).
  { intros u. rewrite count_documents_map. apply count_documents_ext.
    intros n. by rewrite Huser. }
  assert (Hmine : count_documents
                    (fun n => String.eqb (n_user_id n) (u_id current_user)
                              && Bool.eqb (n_read n) false) (List.map g ns) = 0).
  { rewrite count_documents_map. apply count_documents_none. intros n.
    rewrite Huser. fold (mine n). destruct (mine n) eqn:E; [|done].
    by rewrite (Hread n E). }
  assert (Hmine' : count_documents
                     (fun n => String.eqb (n_user_id n) (u_id current_user)
                               && negb (n_read n)) (List.map g ns) = 0).
  { rewrite <- Hmine. apply count_documents_ext. intros n. by destruct (n_read n). }
  assert (Hothers : forall other,
             u_id other <> u_id current_user ->
             count_documents
               (fun n => String.eqb (n_user_id n) (u_id other) && Bool.eqb (n_read n) false)
               (List.map g ns)
             = count_documents
                 (fun n => String.eqb (n_user_id n) (u_id other)
                           && Bool.eqb (n_read n) false) ns).
  { intros other Hne. rewrite count_documents_map. apply count_documents_ext.
    intros n. rewrite Huser.
    destruct (String.eqb_spec (n_user_id n) (u_id other)) as [Heq|]; [|done].
    rewrite Hother; [done|]. apply String.eqb_neq. congruence. }
  assert (Hidem : List.map g (List.map g ns) = List.map g ns).
  { rewrite List.map_map. apply List.map_ext. intros n.
    destruct (mine n) eqn:En.
    - unfold g. rewrite En. by destruct (mine (set_read true n)).
    - rewrite (Hother n En). unfold g. by rewrite En. }
  assert (Hcall : forall db1,
             mark_all_notifications_read current_user db1
             = (Return ("Marked "
                        +:+ PyFmt.of_int
                              (count_documents
                                 (fun n => String.eqb (n_user_id n) (u_id current_user)
                                           && negb (n_read n)) (notifications db1))
                        +:+ " notifications as read"),
                set_notifications (List.map g (notifications db1)) (driver db1) db1)).
  { done. }
  assert (Hstats : forall u db1,
             get_notification_stats u db1
             = (Return
                  {| unread_count :=
                       count_documents
                         (fun n => String.eqb (n_user_id n) (u_id u)
                                   && Bool.eqb (n_read n) false) (notifications db1);
                     total_count :=
                       count_documents (fun n => String.eqb (n_user_id n) (u_id u))
                         (notifications db1) |}, db1)).
  { done. }
  exists (count_documents
            (fun n => String.eqb (n_user_id n) (u_id current_user)
                      && Bool.eqb (n_read n) false) ns),
    (count_documents (fun n => String.eqb (n_user_id n) (u_id current_user)) ns),
    (set_notifications (List.map g ns) (driver db) db).
  split; [apply Hstats|]. split.
  { rewrite Hcall. fold ns.
    rewrite (count_documents_ext
               (fun n => String.eqb (n_user_id n) (u_id current_user) && negb (n_read n))
               (fun n => String.eqb (n_user_id n) (u_id current_user)
                         && Bool.eqb (n_read n) false)); [done|].
    intros n. by destruct (n_read n). }
  split.
  { rewrite Hstats. cbn [notifications set_notifications]. by rewrite Hmine, Htotal. }
  split.
  { intros other Hne. rewrite !Hstats. cbn [notifications set_notifications fst].
    fold ns. by rewrite (Hothers other Hne), Htotal. }
  do 3 (split; [done|]).
  rewrite Hcall. cbn [notifications set_notifications driver].
  rewrite Hmine', Hidem. reflexivity.
Qed.

Lemma update_one_at_spec {A} (p : nat -> A -> bool) (f : A -> A) (i : nat) (l : list A) :
  (update_one_at p f i l = (l, 0) /\
   forall j x, l !! j = Some x -> p (i + j)%nat x = false) \/
  (exists j x, l !! j = Some x /\ p (i + j)%nat x = true /\
               update_one_at p f i l = (<[j := f x]> l, 1)).
Proof.
  revert i. induction l as [|y l IH]; intros i; simpl.
  - left. split; [done|]. intros j x Hj. by rewrite lookup_nil in Hj.
  - destruct (p i y) eqn:E.
    + right. exists 0%nat, y. rewrite Nat.add_0_r. done.
    + destruct (IH (S i)) as [[-> Hnone]|(j & x & Hj & Hp & ->)].
      * left. split; [done|]. intros [|j] x Hj; simpl in Hj.
        -- injection Hj as <-. by rewrite Nat.add_0_r.
        -- rewrite Nat.add_succ_r. by apply Hnone.
      * right. exists (S j), x. rewrite Nat.add_succ_r. done.
Qed.

Lemma set_notifications_same db : set_notifications (notifications db) (driver db) db = db.
Proof. by destruct db. Qed.

Lemma mark_notification_read_run notification_id current_user db :
  mark_notification_read notification_id current_user db
  = if is_valid notification_id then
      let '(ns, matched_count) :=
        update_one_at
          (fun i n => String.eqb (notification_oid i) (oid_str notification_id)
                      && String.eqb (n_user_id n) (u_id current_user))
          (set_read true) 0 (notifications db) in
      (if matched_count =? 0
       then Raise (HTTPException 400 "Invalid notification ID")
       else Return "Notification marked as read",
       set_notifications ns (driver db) db)
    else (Raise (HTTPException 400 "Invalid notification ID"), db).
Proof.
  unfold mark_notification_read, try_except, mbind, Handler_bind, ObjectId, update_read.
  destruct (is_valid notification_id); [|done].
  unfold mret at 1, Handler_ret at 1.
  destruct (update_one_at _ _ 0 (notifications db)) as [ns matched_count].
  by destruct (matched_count =? 0).
Qed.

(** X11.  [mark_notification_read] never answers 404.  It succeeds exactly
    when the id is well formed and is the id of a notification of the
    caller, and then that notification alone is set to read.  Every other
    call (a malformed id, an unknown id, the id of a notification of another
    user) is answered with HTTP 400 [Invalid notification ID] and leaves the
    store as it was. *)
Theorem mark_read_answers_400_never_404 (notification_id : string) (current_user : User)
    (db : Database) :
  (mark_notification_read notification_id current_user db
   = (Raise (HTTPException 400 "Invalid notification ID"), db) /\
   (is_valid notification_id = false \/
    forall i n,
      notifications db !! i = Some n -> notification_oid i = oid_str notification_id ->
      n_user_id n <> u_id current_user)) \/
  (is_valid notification_id = true /\
   exists i n,
     notifications db !! i = Some n /\ notification_oid i = oid_str notification_id /\
     n_user_id n = u_id current_user /\
     mark_notification_read notification_id current_user db
     = (Return "Notification marked as read",
        set_notifications (<[i := set_read true n]> (notifications db)) (driver db) db)).
Proof.
  rewrite mark_notification_read_run.
  destruct (is_valid notification_id) eqn:Hvalid; [|left; split; [done|by left]].
  destruct (update_one_at_spec
              (fun i n => String.eqb (notification_oid i) (oid_str notification_id)
                          && String.eqb (n_user_id n) (u_id current_user))
              (set_read true) 0 (notifications db))
    as [[-> Hnone]|(i & n & Hi & Hp & ->)].
  - left. simpl. rewrite set_notifications_same. split; [done|]. right.
    intros i n Hi Hoid Huser. specialize (Hnone i n Hi). simpl in Hnone.
    apply andb_false_iff in Hnone as [Hne|Hne]; apply String.eqb_neq in Hne; done.
  - right. split; [done|]. exists i, n. simpl in Hp.
    apply andb_true_iff in Hp as [Hoid%String.eqb_eq Huser%String.eqb_eq]. done.
Qed.

End Bell.

(** ** Accounts *)

Section Accounts.
Context `{auth.AuthUtils}.

Lemma find_one_field_None {A} (f : A -> string) (v : string) (l : list A) :
  v ∉ f <$> l -> Mongo.find_one (fun x => String.eqb (f x) v) l = None.
Proof.
  induction l as [|x l IH]; simpl; [done|].
  rewrite not_elem_of_cons. intros [Hne Hnin].
  destruct (String.eqb_spec (f x) v); [congruence|]. by apply IH.
Qed.

Lemma find_one_field_Some {A} (f : A -> string) (v : string) (l : list A) :
  v ∈ f <$> l -> exists x, Mongo.find_one (fun x => String.eqb (f x) v) l = Some x.
Proof.
  induction l as [|x l IH]; simpl; [by intros ?%elem_of_nil|].
  intros Hin. destruct (String.eqb_spec (f x) v); [by eexists|].
  apply elem_of_cons in Hin as [Heq|Hin]; [congruence|]. by apply IH.
Qed.

Lemma find_one_app_fresh {A} (p : A -> bool) (l : list A) (x : A) :
  Mongo.find_one p l = None -> p x = true -> Mongo.find_one p (l ++ [x]) = Some x.
Proof.
  induction l as [|y l IH]; simpl; [by intros _ ->|].
  destruct (p y); [done|]. apply IH.
Qed.

Lemma register_run user_data inserted_id db :
  auth.register user_data inserted_id db
  = match find_by_username (users db) (auth.username user_data) with
    | Some _ => (Raise (HTTPException 400 "Username already registered"), db)
    | None =>
        match Mongo.find_one (fun u => String.eqb (u_email u) (auth.email user_data))
                (users db) with
        | Some _ => (Raise (HTTPException 400 "Email already registered"), db)
        | None =>
            (match Mongo.find_one (by_id u_id inserted_id)
                     (users db ++ [new_user_doc user_data inserted_id]) with
             | None => Raise (Exception "TypeError")
             | Some created_user =>
                 Return {| auth.r_id := u_id created_user;
                           auth.r_username := u_username created_user;
                           auth.r_email := u_email created_user;
                           auth.r_role := u_role created_user |}
             end,
             set_users (users db ++ [new_user_doc user_data inserted_id]) db)
        end
    end.
Proof.
  unfold auth.register, find_by_username, mbind, Handler_bind, read, write.
  destruct (Mongo.find_one _ (users db)); [done|].
  destruct (Mongo.find_one _ (users db)); [done|].
  cbn [users set_users]. unfold Mongo.insert_one.
  fold (new_user_doc user_data inserted_id).
  by destruct (Mongo.find_one _ (users db ++ [new_user_doc user_data inserted_id])).
Qed.

(** X12.  [register] has three outcomes.  A name in use is refused with
    HTTP 400 [Username already registered]; a free name with an address in
    use is refused with HTTP 400 [Email already registered]; in both cases
    nothing is written.  Otherwise the user is appended with the role
    [user] and the response shows the stored document. *)
Theorem register_outcomes (user_data : auth.UserCreate) (inserted_id : string)
    (db : Database) :
  (auth.username user_data ∈ u_username <$> users db ->
   auth.register user_data inserted_id db
   = (Raise (HTTPException 400 "Username already registered"), db)) /\
  (auth.username user_data ∉ u_username <$> users db ->
   auth.email user_data ∈ u_email <$> users db ->
   auth.register user_data inserted_id db
   = (Raise (HTTPException 400 "Email already registered"), db)) /\
  (auth.username user_data ∉ u_username <$> users db ->
   auth.email user_data ∉ u_email <$> users db ->
   inserted_id ∉ u_id <$> users db ->
   auth.register user_data inserted_id db
   = (Return {| auth.r_id := inserted_id;
                auth.r_username := auth.username user_data;
                auth.r_email := auth.email user_data;
                auth.r_role := "user" |},
      set_users (users db ++ [new_user_doc user_data inserted_id]) db)).
Proof.
  rewrite register_run. unfold find_by_username. split; [|split].
  - intros [u ->]%find_one_field_Some. done.
  - intros Hname [u Hu]%find_one_field_Some.
    by rewrite (find_one_field_None _ _ _ Hname), Hu.
  - intros Hname Hemail Hid.
    rewrite (find_one_field_None _ _ _ Hname), (find_one_field_None _ _ _ Hemail).
    rewrite (find_one_app_fresh (by_id u_id inserted_id) (users db)
               (new_user_doc user_data inserted_id)); [done| |].
    + by apply (find_one_field_None u_id).
    + apply String.eqb_refl.
Qed.

Lemma NoDup_snoc_fresh (l : list string) (x : string) : NoDup l -> x ∉ l -> NoDup (l ++ [x]).
Proof.
  intros Hl Hx. apply NoDup_app. split; [done|]. split; [|apply NoDup_singleton].
  intros y Hy ->%list_elem_of_singleton. done.
Qed.

Lemma find_one_field_elem {A} (f : A -> string) (v : string) (l : list A) :
  Mongo.find_one (fun x => String.eqb (f x) v) l = None -> v ∉ f <$> l.
Proof.
  induction l as [|x l IH]; simpl; [by intros _ ?%elem_of_nil|].
  destruct (String.eqb_spec (f x) v); [done|].
  intros Hnone [Heq|Hin]%elem_of_cons; [congruence|]. by apply IH.
Qed.

Lemma register_unique user_data inserted_id db :
  inserted_id ∉ u_id <$> users db ->
  users_unique db -> users_unique (auth.register user_data inserted_id db).2.
Proof.
  intros Hid (Hnames & Hemails & Hids). rewrite register_run. unfold find_by_username.
  destruct (Mongo.find_one _ (users db)) eqn:Hname; [done|].
  destruct (Mongo.find_one (fun u => String.eqb (u_email u) _) (users db)) eqn:Hemail;
    [done|].
  apply (find_one_field_elem u_username) in Hname.
  apply (find_one_field_elem u_email) in Hemail.
  unfold users_unique. cbn [snd users set_users]. rewrite !fmap_app. cbn [fmap list_fmap].
  repeat split; by apply NoDup_snoc_fresh.
Qed.

Lemma upgrade_run current_user db :
  auth.upgrade_guest_users_to_user current_user db
  = (Return
       ("Successfully upgraded "
        +:+ PyFmt.of_int
              (notification_routes.count_documents
                 (fun u => String.eqb (u_role u) "guest") (users db))
        +:+ " guest users to user role",
        notification_routes.count_documents
          (fun u => String.eqb (u_role u) "guest") (users db)),
     set_users
       (Mongo.update_many (fun u => String.eqb (u_role u) "guest") (auth.set_role "user")
          (users db)) db).
Proof.
  unfold auth.upgrade_guest_users_to_user.
  by destruct (negb (String.eqb (u_role current_user) "admin")).
Qed.

Lemma upgrade_unique current_user db :
  users_unique db -> users_unique (auth.upgrade_guest_users_to_user current_user db).2.
Proof.
  intros (Hnames & Hemails & Hids). rewrite upgrade_run. unfold users_unique.
  cbn [snd users set_users].
  by rewrite !fmap_id_update_many.
Qed.

(** X13.  The handlers of [routes/auth.py] that write users keep names,
    addresses and ids unique: [register], when the id that the insert
    gives is not in use, and [upgrade_guest_users_to_user]. *)
Theorem accounts_stay_unique (db : Database) :
  users_unique db ->
  (forall user_data inserted_id,
     inserted_id ∉ u_id <$> users db ->
     users_unique (auth.register user_data inserted_id db).2) /\
  (forall current_user,
     users_unique (auth.upgrade_guest_users_to_user current_user db).2).
Proof.
  intros Hunique. split.
  - intros user_data inserted_id Hid. by apply register_unique.
  - intros current_user. by apply upgrade_unique.
Qed.

Lemma get_current_user_run token db :
  auth.get_current_user token db
  = (match auth.verify_token token with
     | Raise (HTTPException status_code detail) => Raise (HTTPException status_code detail)
     | Raise (Exception _) => Raise (HTTPException 401 "Invalid authentication credentials")
     | Return None => Raise (HTTPException 401 "Invalid authentication credentials")
     | Return (Some payload) =>
         match auth.sub payload with
         | None => Raise (HTTPException 401 "Invalid authentication credentials")
         | Some username =>
             match find_by_username (users db) username with
             | None => Raise (HTTPException 401 "User not found")
             | Some user => Return user
             end
         end
     end, db).
Proof.
  unfold auth.get_current_user, try_except, find_by_username.
  destruct (auth.verify_token token) as [[payload|]|[status_code detail|what]]; try done.
  destruct (auth.sub payload) as [username|]; [|done].
  unfold mbind, Handler_bind, read.
  by destruct (Mongo.find_one _ (users db)).
Qed.

(** X14.  [get_current_user] never writes, and it turns every failure into
    HTTP 401: a rejected token, a token without [sub], an unknown user, and
    every exception of [verify_token] that is no [HTTPException] (those pass
    through as they are).  The user it returns is the first stored user
    whose name is the [sub] of the token. *)
Theorem get_current_user_answers_401 (token : string) (db : Database) :
  (auth.get_current_user token db).2 = db /\
  match (auth.get_current_user token db).1 with
  | Return user =>
      exists payload,
        auth.verify_token token = Return (Some payload) /\
        auth.sub payload = Some (u_username user) /\
        find_by_username (users db) (u_username user) = Some user
  | Raise e =>
      (exists detail, e = HTTPException 401 detail) \/
      (exists status_code detail,
         e = HTTPException status_code detail /\ auth.verify_token token = Raise e)
  end.
Proof.
  rewrite get_current_user_run. split; [done|]. cbn [fst].
  destruct (auth.verify_token token) as [[payload|]|[status_code detail|what]].
  - destruct (auth.sub payload) as [username|] eqn:Hsub; [|left; by eexists].
    destruct (find_by_username (users db) username) as [user|] eqn:Hfind;
      [|left; by eexists].
    destruct (find_by_username_Some _ _ _ Hfind) as [_ <-]. by exists payload.
  - left. by eexists.
  - right. by eexists _, _.
  - left. by eexists.
Qed.

(** X15.  Registration and authentication compose: once [register] has
    returned, a token whose [sub] is the registered name authenticates as
    the user of the response, with the role [user]. *)
Theorem registered_user_authenticates (user_data : auth.UserCreate)
    (inserted_id token : string) (db db' : Database) (response : auth.UserResponse) :
  inserted_id ∉ u_id <$> users db ->
  auth.register user_data inserted_id db = (Return response, db') ->
  auth.verify_token token = Return (Some {| auth.sub := Some (auth.username user_data) |}) ->
  exists user,
    auth.get_current_user token db' = (Return user, db') /\
    u_id user = auth.r_id response /\
    u_username user = auth.username user_data /\
    u_email user = auth.email user_data /\
    u_role user = "user".
Proof.
  rewrite register_run, get_current_user_run. intros Hid Hreg ->. cbn [auth.sub].
  destruct (find_by_username (users db) (auth.username user_data)) eqn:Hname; [done|].
  destruct (Mongo.find_one (fun u => String.eqb (u_email u) _) (users db)); [done|].
  rewrite (find_one_app_fresh (by_id u_id inserted_id) (users db)
             (new_user_doc user_data inserted_id)) in Hreg;
    [|by apply (find_one_field_None u_id)|apply String.eqb_refl].
  injection Hreg as <- <-. cbn [users set_users].
  unfold find_by_username in *.
  rewrite (find_one_app_fresh _ (users db) (new_user_doc user_data inserted_id) Hname);
    [|apply String.eqb_refl].
  by exists (new_user_doc user_data inserted_id).
Qed.

Lemma lookup_map {A B} (g : A -> B) (l : list A) (i : nat) (x : A) :
  l !! i = Some x -> List.map g l !! i = Some (g x).
Proof.
  revert i. induction l as [|y l IH]; intros [|i]; simpl; try done.
  - by intros [= ->].
  - apply IH.
Qed.

Lemma set_users_same db : set_users (users db) db = db.
Proof. by destruct db. Qed.

(** X16.  [upgrade_guest_users_to_user] does not look at the caller: every
    user gets the same result.  It reports how many guests there were,
    leaves no guest behind, changes nothing but the role of the guests, and
    a second call upgrades nobody and changes nothing. *)
Theorem upgrade_leaves_no_guest (current_user : User) (db : Database) :
  exists guests db',
    auth.upgrade_guest_users_to_user current_user db
    = (Return ("Successfully upgraded " +:+ PyFmt.of_int guests
               +:+ " guest users to user role", guests), db') /\
    (forall other,
       auth.upgrade_guest_users_to_user other db
       = auth.upgrade_guest_users_to_user current_user db) /\
    guests
    = Z.of_nat (length (List.filter (fun u => String.eqb (u_role u) "guest") (users db))) /\
    Forall (fun u => u_role u <> "guest") (users db') /\
    (forall i u,
       users db !! i = Some u ->
       exists u',
         users db' !! i = Some u' /\
         u_id u' = u_id u /\ u_username u' = u_username u /\ u_email u' = u_email u /\
         u_role u' = if String.eqb (u_role u) "guest" then "user" else u_role u) /\
    length (users db') = length (users db) /\
    questions db' = questions db /\ answers db' = answers db /\
    notifications db' = notifications db /\
    auth.upgrade_guest_users_to_user current_user db'
    = (Return ("Successfully upgraded 0 guest users to user role", 0), db').
Proof.
  set (guest := fun u => String.eqb (u_role u) "guest").
  set (g := fun u => if guest u then auth.set_role "user" u else u).
  assert (Hnot : forall u, guest (g u) = false).
  { intros u. unfold g. destruct (guest u) eqn:E; [done|exact E]. }
  eexists _, _. split; [apply upgrade_run|].
  split; [intros other; by rewrite !upgrade_run|].
  split; [done|]. cbn [users set_users questions answers notifications].
  change (Mongo.update_many guest (auth.set_role "user") (users db))
    with (List.map g (users db)).
  split.
  { apply Forall_forall. intros u' (u & -> & _)%elem_of_map.
    specialize (Hnot u). unfold guest in Hnot. by apply String.eqb_neq in Hnot. }
  split.
  { intros i u Hi. exists (g u). split.
    - by apply lookup_map.
    - unfold g, guest. by destruct (String.eqb (u_role u) "guest"). }
  split; [apply length_map|]. do 3 (split; [done|]).
  assert (Hidem : List.map g (List.map g (users db)) = List.map g (users db)).
  { rewrite List.map_map. apply List.map_ext. intros u. unfold g at 1.
    by rewrite Hnot. }
  assert (Hzero : notification_routes.count_documents guest (List.map g (users db)) = 0).
  { rewrite count_documents_map. by apply count_documents_none. }
  rewrite upgrade_run. cbn [users set_users]. fold guest.
  unfold Mongo.update_many. fold g. by rewrite Hzero, Hidem.
Qed.

End Accounts.

Lemma accounts_stay_unique_witness :
  users_unique
    (auth.register
       {| auth.username := "erin"; auth.email := "erin@example.org";
          auth.password := "secret" |} "u6" Examples.db0).2.
Proof.
  apply (accounts_stay_unique Examples.db0); unfold users_unique; simpl; by_evaluation.
Defined.

Lemma registered_user_authenticates_witness :
  let registered :=
    auth.register
      {| auth.username := "erin"; auth.email := "erin@example.org";
         auth.password := "secret" |} "u6" Examples.db0 in
  exists user,
    @auth.get_current_user Examples.name_tokens "erin" registered.2
    = (Return user, registered.2) /\
    u_id user = "u6" /\
    u_username user = "erin" /\
    u_email user = "erin@example.org" /\
    u_role user = "user".
Proof.
  apply (@registered_user_authenticates Examples.name_tokens
           {| auth.username := "erin"; auth.email := "erin@example.org";
              auth.password := "secret" |} "u6" "erin" Examples.db0 _
           {| auth.r_id := "u6"; auth.r_username := "erin";
              auth.r_email := "erin@example.org"; auth.r_role := "user" |});
    [by_evaluation|reflexivity|reflexivity].
Defined.

(** ** Votes add up *)

Section VotesAddUp.
Context `{Bson}.

Lemma vote_answer_run answer_id vote_action current_user voted db :
  is_valid answer_id = true ->
  Mongo.find_one (by_id a_id (oid_str answer_id)) (answers db) = Some voted ->
  a_user_id voted <> u_id current_user ->
  answer.vote_answer answer_id vote_action current_user db
  = (Return ("Vote " +:+ answer.action vote_action +:+ " applied successfully",
             a_votes voted + vote_delta vote_action),
     set_answers
       (Mongo.update_one (by_id a_id (oid_str answer_id))
          (answer.inc_votes (vote_delta vote_action)) (answers db)) db).
Proof.
  intros Hv Hf Hother. apply String.eqb_neq in Hother.
  destruct (find_one_split _ _ _ Hf) as (before & after & Hl & Hp & Hb).
  unfold answer.vote_answer. unfold mbind at 1, Handler_bind at 1.
  rewrite find_answer_or_400_valid, Hf by done. rewrite Hother.
  unfold vote_delta, answer.update_answer, notification.find_answer_by_id, ObjectId.
  rewrite Hv.
  destruct (String.eqb (answer.action vote_action) "upvote");
    [|destruct (String.eqb (answer.action vote_action) "downvote")];
    unfold mbind, Handler_bind, mret, Handler_ret, read, write; simpl.
  - rewrite Hl, update_one_split by done.
    rewrite (find_one_after_update _ (answer.inc_votes 1)) by done. reflexivity.
  - rewrite Hl, update_one_split by done.
    rewrite (find_one_after_update _ (answer.inc_votes (-1))) by done. reflexivity.
  - rewrite Hf. rewrite Hl, update_one_split by done.
    unfold answer.inc_votes. rewrite set_votes_same, <- Hl, set_answers_same, Z.add_0_r.
    reflexivity.
Qed.

Lemma set_votes_set_votes v w a : answer.set_votes v (answer.set_votes w a) = answer.set_votes v a.
Proof. reflexivity. Qed.

(** X17.  Votes are not tied to voters: whoever casts them, and however
    often, the votes on an answer add up.  After any sequence of votes by
    users other than the author, the count is the old count plus one for
    every [upvote] and minus one for every [downvote]; any other action,
    [remove] included, takes nothing back; nothing else of the answer
    changes. *)
Theorem votes_add_up (answer_id : string) (votes : list (answer.VoteAction * User))
    (voted : Answer) (db : Database) :
  is_valid answer_id = true ->
  Mongo.find_one (by_id a_id (oid_str answer_id)) (answers db) = Some voted ->
  Forall (fun vote => a_user_id voted <> u_id vote.2) votes ->
  Mongo.find_one (by_id a_id (oid_str answer_id)) (answers (cast_votes answer_id votes db))
  = Some (answer.set_votes (a_votes voted + total_delta votes) voted).
Proof.
  intros Hv. revert voted db.
  induction votes as [|[vote_action current_user] votes IH]; intros voted db Hf Hall.
  - simpl. by rewrite set_votes_same.
  - apply Forall_cons in Hall as [Hother Hall]. simpl in Hother.
    cbn [cast_votes total_delta foldr fst].
    rewrite (vote_answer_run _ _ _ voted) by done. cbn [snd].
    rewrite (IH (answer.inc_votes (vote_delta vote_action) voted)).
    + unfold answer.inc_votes. rewrite set_votes_set_votes. cbn [a_votes answer.set_votes].
      f_equal. f_equal. fold (total_delta votes). lia.
    + cbn [answers set_answers]. by apply find_one_update_one.
    + done.
Qed.

End VotesAddUp.

Lemma votes_add_up_witness :
  a_votes
    <$> Mongo.find_one (by_id a_id "a1")
          (answers
             (@cast_votes Examples.any_id "a1"
                [({| answer.action := "upvote" |}, Examples.alice);
                 ({| answer.action := "upvote" |}, Examples.alice);
                 ({| answer.action := "remove" |}, Examples.alice);
                 ({| answer.action := "downvote" |}, Examples.carol)]
                Examples.db0))
  = Some 4.
Proof.
  rewrite (@votes_add_up Examples.any_id "a1" _ Examples.a1 Examples.db0 eq_refl eq_refl);
    [reflexivity|].
  repeat constructor; discriminate.
Defined.

(** ** Reading back what was written *)

Section ReadBack.
Context `{Bson} `{toxic_spam_model.Classifier} `{auto_tag.Models} `{PyList.SetOrder}
  `{answer.Llm}.

Lemma find_user_by_id_run user_id db :
  notification.find_user_by_id user_id db
  = if is_valid user_id
    then (Return (Mongo.find_one (by_id u_id (oid_str user_id)) (users db)), db)
    else (Raise (Exception "InvalidId"), db).
Proof. unfold notification.find_user_by_id, mbind, Handler_bind, ObjectId. by destruct (is_valid user_id). Qed.

Lemma get_answer_run answer_id db :
  reads.get_answer answer_id db
  = if is_valid answer_id then
      match Mongo.find_one (by_id a_id (oid_str answer_id)) (answers db) with
      | None => (Raise (HTTPException 404 "Answer not found"), db)
      | Some found =>
          if is_valid (a_user_id found) then
            let user :=
              Mongo.find_one (by_id u_id (oid_str (a_user_id found))) (users db) in
            let username := match user with Some u => u_username u | None => "Unknown" end in
            (Return
               (answer.response found
                  (if a_ai_generated found then username +:+ " (AI-assisted)" else username)
                  (match user with Some u => u_role u | None => "guest" end)), db)
          else (Raise (Exception "InvalidId"), db)
      end
    else (Raise (HTTPException 400 "Invalid answer ID"), db).
Proof.
  unfold reads.get_answer. unfold mbind at 1, Handler_bind at 1.
  rewrite find_answer_or_400_run. destruct (is_valid answer_id); [|done].
  destruct (Mongo.find_one _ (answers db)) as [found|]; [|done].
  unfold mbind, Handler_bind. rewrite find_user_by_id_run.
  by destruct (is_valid (a_user_id found)).
Qed.

Lemma get_question_run question_id db :
  reads.get_question question_id db
  = if is_valid question_id then
      match Mongo.find_one (by_id q_id (oid_str question_id)) (questions db) with
      | None => (Raise (HTTPException 404 "Question not found"), db)
      | Some found =>
          if is_valid (q_user_id found) then
            let user :=
              Mongo.find_one (by_id u_id (oid_str (q_user_id found))) (users db) in
            (Return
               {| question.r_id := q_id found;
                  question.r_title := q_title found;
                  question.r_description := q_description found;
                  question.r_tags := q_tags found;
                  question.r_user_id := q_user_id found;
                  question.r_answers := q_answers found;
                  question.r_accepted_answer := q_accepted_answer found;
                  question.r_answer_count := Z.of_nat (length (q_answers found));
                  question.r_username :=
                    match user with Some u => u_username u | None => "Unknown" end |}, db)
          else (Raise (Exception "InvalidId"), db)
      end
    else (Raise (HTTPException 400 "Invalid question ID"), db).
Proof.
  unfold reads.get_question. unfold mbind at 1, Handler_bind at 1.
  rewrite find_question_or_400_run. destruct (is_valid question_id); [|done].
  destruct (Mongo.find_one _ (questions db)) as [found|]; [|done].
  unfold mbind, Handler_bind. rewrite find_user_by_id_run.
  by destruct (is_valid (q_user_id found)).
Qed.

Lemma find_by_id_None {A} (id_of : A -> string) (v : string) (l : list A) :
  v ∉ id_of <$> l -> Mongo.find_one (by_id id_of v) l = None.
Proof. apply (find_one_field_None id_of). Qed.

Lemma find_by_id_app_fresh {A} (id_of : A -> string) (v : string) (l : list A) (x : A) :
  id_of x = v -> v ∉ id_of <$> l ->
  Mongo.find_one (by_id id_of v) (l ++ [x]) = Some x.
Proof.
  intros Hid Hfresh. apply find_one_app_fresh.
  - by apply (find_one_field_None id_of).
  - unfold by_id. rewrite Hid. apply String.eqb_refl.
Qed.

(** X18.  An answer that [create_answer] has stored can be read back: when
    the author is a stored user and the id of the new answer is not in use,
    [get_answer] on the new id, however it is spelled, returns the very
    response that [create_answer] returned, whatever became of the
    notifications. *)
Theorem created_answer_reads_back (db : Database) (question_id : string)
    (answer_data : answer.AnswerCreate) (current_user : User) (inserted_id : string)
    (question : Question) :
  is_valid question_id = true ->
  is_valid (u_id current_user) = true ->
  Mongo.find_one (by_id q_id (oid_str question_id)) (questions db) = Some question ->
  Mongo.find_one (by_id u_id (oid_str (u_id current_user))) (users db)
  = Some current_user ->
  inserted_id ∉ a_id <$> answers db ->
  (toxic_spam_model.is_toxic (answer.content answer_data)
     toxic_spam_model.default_threshold).1 = false ->
  exists response db',
    answer.create_answer question_id answer_data current_user inserted_id db
    = (Return response, db') /\
    (forall spelling,
       is_valid spelling = true -> oid_str spelling = inserted_id ->
       reads.get_answer spelling db' = (Return response, db')) /\
    answer.r_votes response = 0 /\ answer.r_is_accepted response = false.
Proof.
  intros Hq Hu Hfq Hfu Hfresh Hclean.
  destruct (create_answer_run question_id answer_data current_user inserted_id question db
              Hq Hfq Hclean) as (created & Hcreated & Hrun).
  set (doc := new_answer_doc question_id answer_data current_user inserted_id) in *.
  unfold Mongo.insert_one in Hcreated.
  rewrite (find_by_id_app_fresh a_id inserted_id (answers db) doc eq_refl Hfresh) in Hcreated.
  injection Hcreated as <-.
  eexists _, _. split; [exact Hrun|]. split; [|done].
  intros spelling Hid Hspelled.
  destruct (notification_steps_appends question_id answer_data current_user inserted_id
              (with_answer question_id doc db)) as (Husers & _ & Hanswers & _).
  rewrite get_answer_run, Hid, Hspelled, Hanswers, Husers.
  cbn [answers users with_answer set_questions set_answers]. unfold Mongo.insert_one.
  rewrite (find_by_id_app_fresh a_id inserted_id (answers db) doc eq_refl Hfresh).
  cbn [a_user_id a_ai_generated doc new_answer_doc]. by rewrite Hu, Hfu.
Qed.

(** X19.  A deleted answer is gone: after a successful [delete_answer], in
    a store where ids are unique, [get_answer] answers 404 for the id,
    however it is spelled, and no stored answer has that id.  When the
    request spelled the id as it is printed, the question it belonged to no
    longer lists it; the string that is pulled from the list is the one of
    the request. *)
Theorem deleted_answer_is_gone (db db' : Database) (answer_id : string)
    (current_user : User) :
  NoDup (a_id <$> answers db) ->
  NoDup (q_id <$> questions db) ->
  answer.delete_answer answer_id current_user db = (Return tt, db') ->
  exists deleted,
    Mongo.find_one (by_id a_id (oid_str answer_id)) (answers db) = Some deleted /\
    a_id deleted = oid_str answer_id /\
    (forall spelling,
       is_valid spelling = true -> oid_str spelling = oid_str answer_id ->
       reads.get_answer spelling db'
       = (Raise (HTTPException 404 "Answer not found"), db')) /\
    (oid_str answer_id ∉ a_id <$> answers db') /\
    (printed answer_id ->
     Forall (fun q => q_id q = oid_str (a_question_id deleted) ->
                      a_id deleted ∉ q_answers q)
       (questions db')).
Proof.
  intros Hna Hnq Hrun. rewrite delete_answer_run in Hrun.
  destruct (is_valid answer_id) eqn:Hv; [|done].
  destruct (Mongo.find_one (by_id a_id (oid_str answer_id)) (answers db))
    as [deleted|] eqn:Hf; [|done].
  destruct (negb _ && negb _); [done|].
  destruct (is_valid (a_question_id deleted)); [|done].
  injection Hrun as <-. exists deleted. split; [done|].
  assert (Hid : a_id deleted = oid_str answer_id).
  { apply find_one_elem in Hf as [_ Hid]. by apply String.eqb_eq in Hid. }
  split; [done|].
  assert (Hgone : oid_str answer_id ∉ a_id <$> answers (deleted_in answer_id deleted db)).
  { cbn [answers deleted_in set_answers set_questions].
    rewrite delete_one_unique by done.
    intros (a & -> & Ha)%list_elem_of_fmap.
    apply list_elem_of_In, filter_In in Ha as [_ Hne].
    unfold by_id in Hne. by rewrite String.eqb_refl in Hne. }
  split; [|split; [done|]].
  - intros spelling Hvs Hsame. rewrite get_answer_run, Hvs, Hsame.
    by rewrite (find_by_id_None a_id (oid_str answer_id) _ Hgone).
  - intros Hpa. unfold printed in Hpa. rewrite Hid, Hpa.
    apply Forall_forall. intros q' Hq' Hsame.
    cbn [questions deleted_in set_answers set_questions] in Hq'.
    assert (Hpulled :
      forall q, q ∈ Mongo.update_one (by_id q_id (oid_str (a_question_id deleted)))
                      (answer.pull_answer answer_id) (questions db) ->
                q_id q = oid_str (a_question_id deleted) ->
                answer_id ∉ q_answers q).
    { intros q Hq Hqid. rewrite update_one_unique in Hq by done.
      apply elem_of_map in Hq as (q0 & -> & _).
      unfold by_id in *.
      destruct (String.eqb_spec (q_id q0) (oid_str (a_question_id deleted))).
      - cbn [q_answers answer.pull_answer answer.set_q_answers].
        intros Hin%list_elem_of_In%filter_In. destruct Hin as [_ Hne].
        by rewrite String.eqb_refl in Hne.
      - done. }
    destruct (a_is_accepted deleted).
    + apply elem_of_update_one in Hq' as [Hq'|(q0 & Hq0 & ->)].
      * by apply (Hpulled q').
      * by apply (Hpulled q0).
    + by apply (Hpulled q').
Qed.

(** X30.  [delete_answer] under another spelling of the id.  The answer is
    found and deleted, but [$pull] looks for the string of the request in
    the list of the question: when the list does not hold that string, as a
    list of printed ids never holds a string that is not printed, the
    question keeps its list, the deleted answer included. *)
Theorem unprinted_delete_keeps_the_listing (db db' : Database) (answer_id : string)
    (current_user : User) (deleted : Answer) (question : Question) :
  NoDup (a_id <$> answers db) ->
  answer.delete_answer answer_id current_user db = (Return tt, db') ->
  Mongo.find_one (by_id a_id (oid_str answer_id)) (answers db) = Some deleted ->
  Mongo.find_one (by_id q_id (oid_str (a_question_id deleted))) (questions db)
  = Some question ->
  answer_id ∉ q_answers question ->
  (a_id deleted ∉ a_id <$> answers db') /\
  exists question',
    Mongo.find_one (by_id q_id (oid_str (a_question_id deleted))) (questions db')
    = Some question' /\
    q_answers question' = q_answers question.
Proof.
  intros Hna Hrun Hf Hfq Hnot. rewrite delete_answer_run, Hf in Hrun.
  destruct (is_valid answer_id); [|done].
  destruct (negb _ && negb _); [done|].
  destruct (is_valid (a_question_id deleted)); [|done].
  injection Hrun as <-. split.
  - cbn [answers deleted_in set_answers set_questions].
    rewrite delete_one_unique by done.
    apply find_one_elem in Hf as [_ Hid]. unfold by_id in Hid.
    apply String.eqb_eq in Hid.
    intros (a & Ha & Hin)%list_elem_of_fmap.
    apply list_elem_of_In, filter_In in Hin as [_ Hne].
    unfold by_id in Hne. rewrite <- Ha, Hid, String.eqb_refl in Hne. done.
  - assert (Hkept : q_answers (answer.pull_answer answer_id question) = q_answers question).
    { cbn [q_answers answer.pull_answer answer.set_q_answers].
      apply forallb_filter_id, forallb_forall. intros y Hy.
      apply negb_true_iff, String.eqb_neq. intros ->.
      apply Hnot. by apply list_elem_of_In. }
    unfold deleted_in. cbn [questions set_answers set_questions].
    destruct (a_is_accepted deleted).
    + exists (answer.set_accepted_answer None (answer.pull_answer answer_id question)).
      split; [|exact Hkept].
      rewrite !find_one_update_one_fmap by done. by rewrite Hfq.
    + exists (answer.pull_answer answer_id question). split; [|exact Hkept].
      rewrite find_one_update_one_fmap by done. by rewrite Hfq.
Qed.

End ReadBack.

(** ** Questions: reading back, failing half-way, deleting *)

Section Questions.
Context `{Bson} `{toxic_spam_model.Classifier} `{auto_tag.Models} `{PyList.SetOrder}
  `{answer.Llm}.

Lemma create_question_steps question_data current_user inserted_id db :
  (toxic_spam_model.is_toxic (combined_text question_data)
     toxic_spam_model.default_threshold).1 = false ->
  question.create_question question_data current_user inserted_id db
  = let doc := new_question_doc question_data current_user inserted_id in
    let notified :=
      notification.notify_mentions (combined_text question_data) (u_id current_user)
        (Some inserted_id) None (set_questions (questions db ++ [doc]) db) in
    (match notified.1 with
     | Return _ =>
         match Mongo.find_one (by_id q_id inserted_id) (questions db ++ [doc]) with
         | None => Raise (Exception "TypeError")
         | Some created_question =>
             Return (question_response created_question (u_username current_user))
         end
     | Raise e => Raise e
     end, notified.2).
Proof.
  unfold question.create_question, new_question_doc, ai_suggested_tags, combined_text.
  destruct (toxic_spam_model.is_toxic _ _) as [flag score]. simpl. intros ->.
  unfold mbind at 1, Handler_bind at 1, write at 1.
  unfold mbind at 1, Handler_bind at 1, read at 1.
  unfold mbind at 1, Handler_bind at 1.
  unfold Mongo.insert_one. cbn [questions set_questions].
  match goal with
  | |- context [notification.notify_mentions ?c ?u ?q ?a ?d] =>
      destruct (notification.notify_mentions c u q a d) as [[[]|e] db2]
  end; cbn [fst snd]; [|done].
  by destruct (Mongo.find_one _ _).
Qed.

(** X20.  A question that [create_question] has stored can be read back:
    when every notification insert is stored, the author is a stored user
    and the id of the new question is not in use, [get_question] on the new
    id, however it is spelled, returns the very response that
    [create_question] returned, with no answers and no accepted answer. *)
Theorem created_question_reads_back (db : Database)
    (question_data : question.QuestionCreate) (current_user : User)
    (inserted_id : string) :
  driver db = [] ->
  is_valid (u_id current_user) = true ->
  Mongo.find_one (by_id u_id (oid_str (u_id current_user))) (users db)
  = Some current_user ->
  inserted_id ∉ q_id <$> questions db ->
  (toxic_spam_model.is_toxic (combined_text question_data)
     toxic_spam_model.default_threshold).1 = false ->
  exists response db',
    question.create_question question_data current_user inserted_id db
    = (Return response, db') /\
    (forall spelling,
       is_valid spelling = true -> oid_str spelling = inserted_id ->
       reads.get_question spelling db' = (Return response, db')) /\
    question.r_answer_count response = 0 /\
    question.r_accepted_answer response = None.
Proof.
  intros Hd Hu Hfu Hfresh Hclean.
  rewrite create_question_steps by done. cbv zeta.
  set (doc := new_question_doc question_data current_user inserted_id).
  rewrite notify_mentions_stored by done. cbn [fst snd].
  rewrite (find_by_id_app_fresh q_id inserted_id (questions db) doc eq_refl Hfresh).
  eexists _, _. split; [reflexivity|]. split; [|done].
  intros spelling Hid Hspelled.
  rewrite get_question_run, Hid, Hspelled.
  cbn [questions users add_notifications set_notifications set_questions].
  rewrite (find_by_id_app_fresh q_id inserted_id (questions db) doc eq_refl Hfresh).
  cbn [q_user_id doc new_question_doc]. by rewrite Hu, Hfu.
Qed.

Lemma notify_each_first_fails mentions from_username from_user_id question_id answer_id
    outcome ws db :
  driver db = outcome :: ws ->
  outcome <> Stored ->
  mention_recipients (users db) from_user_id mentions <> [] ->
  exists what,
    (notification.notify_each mentions from_username from_user_id question_id answer_id
       db).1 = Raise (Exception what).
Proof.
  intros Hd Ho. induction mentions as [|username rest IH]; [done|].
  rewrite mention_recipients_cons. cbn [notification.notify_each].
  unfold mbind at 1, Handler_bind at 1, read at 1. fold (find_by_username (users db) username).
  destruct (find_by_username (users db) username) as [u|]; [|exact IH].
  destruct (String.eqb_spec (u_id u) from_user_id) as [->|Hne].
  - intros Hrest. unfold mbind, Handler_bind.
    rewrite create_notification_self. by apply IH.
  - intros _. unfold mbind, Handler_bind, notification.create_notification.
    apply String.eqb_neq in Hne. rewrite Hne. cbn [negb].
    unfold notification.await_insert_one. rewrite Hd.
    destruct outcome; [done| |]; by eexists.
Qed.

Lemma notify_mentions_first_fails content from_user_id question_id answer_id outcome ws db :
  driver db = outcome :: ws ->
  outcome <> Stored ->
  is_valid from_user_id = true ->
  mention_recipients (users db) from_user_id (notification.extract_mentions content) <> [] ->
  exists what,
    (notification.notify_mentions content from_user_id question_id answer_id db).1
    = Raise (Exception what).
Proof.
  intros Hd Ho Hv Hrec. unfold notification.notify_mentions.
  destruct (notification.extract_mentions content) as [|m ms] eqn:Hm; [done|].
  unfold mbind, Handler_bind. rewrite find_user_by_id_run, Hv.
  by eapply notify_each_first_fails.
Qed.

(** X21.  [create_question] is not atomic.  When its text mentions another
    stored user and the driver fails the first notification insert, the
    handler raises, and the exception is no [HTTPException]; yet the
    question has been stored.  ([create_answer] swallows the same
    failure.) *)
Theorem create_question_fails_after_writing (db : Database)
    (question_data : question.QuestionCreate) (current_user : User)
    (inserted_id : string) (outcome : write_outcome) (ws : list write_outcome) :
  driver db = outcome :: ws ->
  outcome <> Stored ->
  is_valid (u_id current_user) = true ->
  mention_recipients (users db) (u_id current_user)
    (notification.extract_mentions (combined_text question_data)) <> [] ->
  (toxic_spam_model.is_toxic (combined_text question_data)
     toxic_spam_model.default_threshold).1 = false ->
  exists what db',
    question.create_question question_data current_user inserted_id db
    = (Raise (Exception what), db') /\
    questions db'
    = questions db ++ [new_question_doc question_data current_user inserted_id].
Proof.
  intros Hd Ho Hu Hrec Hclean.
  pose proof (create_question_inserts question_data current_user inserted_id db Hclean)
    as (_ & Hq & _).
  rewrite create_question_steps in * by done. cbv zeta in *.
  destruct (notify_mentions_first_fails (combined_text question_data) (u_id current_user)
              (Some inserted_id) None outcome ws
              (set_questions
                 (questions db ++ [new_question_doc question_data current_user inserted_id])
                 db) Hd Ho Hu Hrec) as [what Hwhat].
  rewrite Hwhat in *. by eexists _, _.
Qed.

Lemma delete_question_run question_id current_user db :
  question.delete_question question_id current_user db
  = if is_valid question_id then
      match Mongo.find_one (by_id q_id (oid_str question_id)) (questions db) with
      | None => (Raise (HTTPException 404 "Question not found"), db)
      | Some deleted =>
          if negb (String.eqb (q_user_id deleted) (u_id current_user))
             && negb (String.eqb (u_role current_user) "admin")
          then (Raise (HTTPException 403 "You can only delete your own questions"), db)
          else
            (Return tt,
             set_answers
               (Mongo.delete_many (fun a => String.eqb (a_question_id a) question_id)
                  (answers db))
               (set_questions
                  (Mongo.delete_one (by_id q_id (oid_str question_id)) (questions db)) db))
      end
    else (Raise (HTTPException 400 "Invalid question ID"), db).
Proof.
  unfold question.delete_question. unfold mbind at 1, Handler_bind at 1.
  rewrite find_question_or_400_run.
  destruct (is_valid question_id) eqn:Hv; [|done].
  destruct (Mongo.find_one (by_id q_id (oid_str question_id)) (questions db)); [|done].
  destruct (negb _ && negb _); [done|].
  unfold mbind, Handler_bind, ObjectId, write. by rewrite Hv.
Qed.

(** X22.  Deleting a question takes its answers with it and nothing else:
    after a successful [delete_question], in a store where question ids are
    unique, [get_question] answers 404 for the id, however it is spelled;
    no stored answer holds the string of the request in its [question_id];
    and every other question and every answer that holds another string,
    the answers to other questions among them, is still stored.  The users
    and the notifications stay as they were, the notifications about the
    deleted question included.  When the request spelled the id as it is
    printed and the answers hold the ids of their questions as printed, no
    stored answer belongs to the deleted question. *)
Theorem deleted_question_takes_its_answers (db db' : Database) (question_id : string)
    (current_user : User) :
  NoDup (q_id <$> questions db) ->
  question.delete_question question_id current_user db = (Return tt, db') ->
  (forall spelling,
     is_valid spelling = true -> oid_str spelling = oid_str question_id ->
     reads.get_question spelling db'
     = (Raise (HTTPException 404 "Question not found"), db')) /\
  (oid_str question_id ∉ q_id <$> questions db') /\
  Forall (fun a => a_question_id a <> question_id) (answers db') /\
  (printed question_id ->
   Forall (fun a => printed (a_question_id a)) (answers db) ->
   Forall (fun a => oid_str (a_question_id a) <> oid_str question_id) (answers db')) /\
  (forall a, a ∈ answers db -> a_question_id a <> question_id -> a ∈ answers db') /\
  (forall q, q ∈ questions db -> q_id q <> oid_str question_id -> q ∈ questions db') /\
  users db' = users db /\ notifications db' = notifications db.
Proof.
  intros Hnq Hrun. rewrite delete_question_run in Hrun.
  destruct (is_valid question_id) eqn:Hv; [|done].
  destruct (Mongo.find_one (by_id q_id (oid_str question_id)) (questions db))
    as [deleted|]; [|done].
  destruct (negb _ && negb _); [done|]. injection Hrun as <-.
  cbn [questions answers users notifications set_answers set_questions].
  assert (Hgone : oid_str question_id
                  ∉ q_id <$> Mongo.delete_one (by_id q_id (oid_str question_id))
                               (questions db)).
  { rewrite delete_one_unique by done.
    intros (q & -> & Hq)%list_elem_of_fmap.
    apply list_elem_of_In, filter_In in Hq as [_ Hne].
    unfold by_id in Hne. by rewrite String.eqb_refl in Hne. }
  split; [|split; [done|split; [|split; [|split; [|split]]]]]; [| | | | |done].
  - intros spelling Hvs Hsame. rewrite get_question_run, Hvs, Hsame.
    cbn [questions set_answers set_questions].
    by rewrite find_by_id_None.
  - apply Forall_forall. intros a [_ Hne]%elem_of_delete_many.
    by apply String.eqb_neq in Hne.
  - intros Hpq Hp. unfold printed in Hpq. rewrite Hpq.
    rewrite Forall_forall in Hp. apply Forall_forall.
    intros a [Ha Hne]%elem_of_delete_many. rewrite (Hp a Ha).
    by apply String.eqb_neq in Hne.
  - intros a Ha Hne. unfold Mongo.delete_many.
    apply list_elem_of_In, filter_In. split; [by apply list_elem_of_In|].
    apply negb_true_iff. by apply String.eqb_neq.
  - intros q Hq Hne. apply elem_of_delete_one_other; [done|].
    by apply String.eqb_neq.
Qed.

(** X23.  Who may change what.  A user who is no admin and wrote none of
    the stored questions and answers changes nothing by [delete_question],
    [delete_answer] or [accept_answer], whatever id is given: each call
    raises and leaves the store as it was.  Being admin does not help with
    [accept_answer]: only the author of the question gets through. *)
Theorem strangers_change_nothing (db : Database) (current_user : User) (target : string) :
  Forall (fun q => q_user_id q <> u_id current_user) (questions db) ->
  (u_role current_user <> "admin" ->
   exists e, question.delete_question target current_user db = (Raise e, db)) /\
  (u_role current_user <> "admin" ->
   Forall (fun a => a_user_id a <> u_id current_user) (answers db) ->
   exists e, answer.delete_answer target current_user db = (Raise e, db)) /\
  (exists e, answer.accept_answer target current_user db = (Raise e, db)).
Proof.
  intros Hquestions. rewrite Forall_forall in Hquestions. split; [|split].
  - intros Hrole%String.eqb_neq. rewrite delete_question_run.
    destruct (is_valid target); [|by eexists].
    destruct (Mongo.find_one (by_id q_id (oid_str target)) (questions db)) as [q|] eqn:Hf;
      [|by eexists].
    apply find_one_elem in Hf as [Hq _].
    apply Hquestions, String.eqb_neq in Hq. rewrite Hq, Hrole. by eexists.
  - intros Hrole%String.eqb_neq Hanswers. rewrite Forall_forall in Hanswers.
    rewrite delete_answer_run.
    destruct (is_valid target); [|by eexists].
    destruct (Mongo.find_one (by_id a_id (oid_str target)) (answers db)) as [a|] eqn:Hf;
      [|by eexists].
    apply find_one_elem in Hf as [Ha _].
    apply Hanswers, String.eqb_neq in Ha. rewrite Ha, Hrole. by eexists.
  - rewrite accept_answer_run.
    destruct (is_valid target); [|by eexists].
    destruct (Mongo.find_one (by_id a_id (oid_str target)) (answers db)) as [a|]; [|by eexists].
    destruct (is_valid (a_question_id a)); [|by eexists].
    destruct (Mongo.find_one (by_id q_id (oid_str (a_question_id a))) (questions db)) as [q|] eqn:Hf;
      [|by eexists].
    apply find_one_elem in Hf as [Hq _].
    apply Hquestions, String.eqb_neq in Hq. rewrite Hq. by eexists.
Qed.

End Questions.

(** ** AI answers *)

Section AiAnswers.
Context `{Bson} `{toxic_spam_model.Classifier} `{answer.Llm}.

Lemma try_notify_new_answer_appends question_id answer_id answerer_id :
  preserves appends_to_others
    (try_except (notification.notify_new_answer question_id answer_id answerer_id)
       (fun _ => mret tt)).
Proof.
  apply preserves_try; try apply _; [apply notify_new_answer_appends|].
  intros e. apply preserves_ret; apply _.
Qed.

Lemma create_ai_answer_run question_id current_user inserted_id question db :
  is_valid question_id = true ->
  Mongo.find_one (by_id q_id (oid_str question_id)) (questions db) = Some question ->
  answer.create_ai_answer question_id current_user inserted_id db
  = if negb (String.eqb (u_role current_user) "admin"
             || String.eqb (u_role current_user) "user")
    then (Raise (HTTPException 403 "Insufficient permissions to generate AI answers"), db)
    else
      let doc := ai_answer_doc question question_id current_user inserted_id in
      if PyStr.startswith "Error:" (a_content doc)
      then (Raise (HTTPException 500
                     "AI answer generation is currently unavailable. Please try again later."),
            db)
      else
        (match Mongo.find_one (by_id a_id inserted_id) (answers db ++ [doc]) with
         | None => Raise (HTTPException 500 "Failed to generate AI answer. Please try again.")
         | Some created_answer =>
             Return (answer.response created_answer
                       (u_username current_user +:+ " (AI-assisted)") (u_role current_user))
         end,
         (try_except
            (notification.notify_new_answer question_id inserted_id (u_id current_user))
            (fun _ => mret tt) (with_answer question_id doc db)).2).
Proof.
  intros Hv Hf. unfold answer.create_ai_answer, try_except at 1.
  unfold mbind at 1, Handler_bind at 1. rewrite find_question_or_400_run, Hv, Hf.
  destruct (negb _); [done|]. cbv zeta. unfold ai_answer_doc. cbn [a_content].
  destruct (PyStr.startswith _ _); [done|].
  unfold mbind at 1, Handler_bind at 1. rewrite store_answer_run by done.
  unfold Mongo.insert_one. cbn [a_id].
  unfold mbind, Handler_bind.
  match goal with
  | |- context [try_except ?m ?h ?d] => destruct (try_except m h d) as [[[]|e] db2] eqn:Hsteps
  end.
  - destruct (Mongo.find_one (by_id a_id inserted_id) _); reflexivity.
  - exfalso. unfold try_except in Hsteps.
    by destruct (notification.notify_new_answer _ _ _ _) as [[[]|e'] db3].
Qed.

(** X24.  What [create_ai_answer] does on an existing question.  A caller
    whose role is neither [admin] nor [user] gets HTTP 403, and a reply of
    the model that starts with [Error:] gives HTTP 500; in both cases
    nothing is written.  Otherwise the reply is stored as an answer marked
    as generated, without consulting the moderation and with score 0; it
    reads back by [get_answer] on its id, however that is spelled, as the
    response that was returned, under the caller's name followed by
    [ (AI-assisted)]; and when the inserts are stored the only notification
    is the one to the author of the question: names mentioned in the reply
    are not notified. *)
Theorem ai_answer_outcomes (db : Database) (question_id : string) (current_user : User)
    (inserted_id : string) (question : Question) :
  is_valid question_id = true ->
  Mongo.find_one (by_id q_id (oid_str question_id)) (questions db) = Some question ->
  let doc := ai_answer_doc question question_id current_user inserted_id in
  (u_role current_user <> "admin" -> u_role current_user <> "user" ->
   answer.create_ai_answer question_id current_user inserted_id db
   = (Raise (HTTPException 403 "Insufficient permissions to generate AI answers"), db)) /\
  (u_role current_user = "admin" \/ u_role current_user = "user" ->
   PyStr.startswith "Error:" (a_content doc) = true ->
   answer.create_ai_answer question_id current_user inserted_id db
   = (Raise (HTTPException 500
               "AI answer generation is currently unavailable. Please try again later."),
      db)) /\
  (u_role current_user = "admin" \/ u_role current_user = "user" ->
   PyStr.startswith "Error:" (a_content doc) = false ->
   is_valid (u_id current_user) = true ->
   Mongo.find_one (by_id u_id (oid_str (u_id current_user))) (users db)
   = Some current_user ->
   inserted_id ∉ a_id <$> answers db ->
   exists db',
     answer.create_ai_answer question_id current_user inserted_id db
     = (Return (answer.response doc (u_username current_user +:+ " (AI-assisted)")
                  (u_role current_user)), db') /\
     answers db' = answers db ++ [doc] /\
     (forall spelling,
        is_valid spelling = true -> oid_str spelling = inserted_id ->
        reads.get_answer spelling db'
        = (Return (answer.response doc (u_username current_user +:+ " (AI-assisted)")
                     (u_role current_user)), db')) /\
     (driver db = [] ->
      notifications db'
      = notifications db
        ++ new_answer_notification db question question_id inserted_id (u_id current_user))).
Proof.
  intros Hv Hf doc.
  rewrite (create_ai_answer_run _ _ _ question) by done. cbv zeta. fold doc.
  assert (Hrole : u_role current_user = "admin" \/ u_role current_user = "user" ->
                  negb (String.eqb (u_role current_user) "admin"
                        || String.eqb (u_role current_user) "user") = false).
  { intros [->| ->]; reflexivity. }
  split; [|split].
  - intros Hadmin%String.eqb_neq Huser%String.eqb_neq. by rewrite Hadmin, Huser.
  - intros Hallowed Herror. by rewrite (Hrole Hallowed), Herror.
  - intros Hallowed Hreply Hu Hfu Hfresh. rewrite (Hrole Hallowed), Hreply.
    rewrite (find_by_id_app_fresh a_id inserted_id (answers db) doc eq_refl Hfresh).
    eexists. split; [reflexivity|].
    destruct (try_notify_new_answer_appends question_id inserted_id (u_id current_user)
                (with_answer question_id doc db)) as (Husers & _ & Hanswers & _).
    split; [by rewrite Hanswers|]. split.
    + intros spelling Hid Hspelled.
      rewrite get_answer_run, Hid, Hspelled, Hanswers, Husers.
      cbn [answers users with_answer set_questions set_answers]. unfold Mongo.insert_one.
      rewrite (find_by_id_app_fresh a_id inserted_id (answers db) doc eq_refl Hfresh).
      cbn [a_user_id a_ai_generated doc ai_answer_doc]. by rewrite Hu, Hfu.
    + intros Hd. unfold try_except.
      rewrite (notify_new_answer_stored _ _ _ (answer.push_answer (a_id doc) question));
        [reflexivity|done..|].
      by apply find_question_with_answer.
Qed.

End AiAnswers.
(** ** Questions list their answers *)

Section Listed.
Context `{Bson} `{toxic_spam_model.Classifier} `{auto_tag.Models} `{PyList.SetOrder}
  `{answer.Llm}.

Lemma answers_to_cons x a l :
  answers_to x (a :: l)
  = if String.eqb (oid_str (a_question_id a)) x then a_id a :: answers_to x l
    else answers_to x l.
Proof. unfold answers_to. simpl. by destruct (String.eqb _ _). Qed.

Lemma answers_to_update_one p f x l :
  (forall a, a_id (f a) = a_id a /\ a_question_id (f a) = a_question_id a) ->
  answers_to x (Mongo.update_one p f l) = answers_to x l.
Proof.
  intros Hf. induction l as [|a l IH]; [done|]. cbn [Mongo.update_one].
  destruct (p a); rewrite !answers_to_cons.
  - by destruct (Hf a) as [-> ->].
  - by rewrite IH.
Qed.

Lemma answers_to_update_many p f x l :
  (forall a, a_id (f a) = a_id a /\ a_question_id (f a) = a_question_id a) ->
  answers_to x (Mongo.update_many p f l) = answers_to x l.
Proof.
  intros Hf. unfold Mongo.update_many. induction l as [|a l IH]; [done|].
  cbn [List.map]. rewrite !answers_to_cons, IH. destruct (p a); [|done].
  by destruct (Hf a) as [-> ->].
Qed.

Lemma answers_to_app x l l' : answers_to x (l ++ l') = answers_to x l ++ answers_to x l'.
Proof. unfold answers_to. by rewrite List.filter_app, fmap_app. Qed.

(** [delete_many] compares the strings; among answers that hold the ids of
    their questions as printed it removes the answers to the question. *)
Lemma answers_to_delete_many x question_id l :
  Forall (fun a => printed (a_question_id a)) l ->
  answers_to x (Mongo.delete_many (fun a => String.eqb (a_question_id a) question_id) l)
  = if String.eqb x question_id then [] else answers_to x l.
Proof.
  unfold Mongo.delete_many. induction 1 as [|a l Hp _ IH].
  - by destruct (String.eqb x question_id).
  - cbn [List.filter]. rewrite answers_to_cons. unfold printed in Hp. rewrite Hp.
    destruct (String.eqb_spec (a_question_id a) question_id) as [Ha|Ha]; cbn [negb].
    + rewrite IH. destruct (String.eqb_spec x question_id) as [->|Hx]; [done|].
      destruct (String.eqb_spec (a_question_id a) x); [congruence|done].
    + rewrite answers_to_cons, IH, Hp.
      destruct (String.eqb_spec (a_question_id a) x) as [<-|Hx]; [|done].
      apply String.eqb_neq in Ha. by rewrite Ha.
Qed.

Lemma answers_to_delete_one x oid deleted l :
  NoDup (a_id <$> l) ->
  Mongo.find_one (by_id a_id oid) l = Some deleted ->
  answers_to x (Mongo.delete_one (by_id a_id oid) l)
  = if String.eqb (oid_str (a_question_id deleted)) x
    then List.filter (fun y => negb (String.eqb y oid)) (answers_to x l)
    else answers_to x l.
Proof.
  intros Hnd Hf. rewrite delete_one_unique by done.
  apply find_one_elem in Hf as [Hin Hid].
  assert (Hsame : forall a, a ∈ l -> by_id a_id oid a = true -> a = deleted).
  { intros a Ha Ha'. by eapply by_id_unique. }
  clear Hnd Hin Hid.
  induction l as [|a l IH].
  - by destruct (String.eqb _ _).
  - assert (Hrest : forall a', a' ∈ l -> by_id a_id oid a' = true -> a' = deleted).
    { intros a' Ha'. apply Hsame. by right. }
    specialize (IH Hrest). cbn [List.filter]. rewrite answers_to_cons.
    destruct (by_id a_id oid a) eqn:Ha; cbn [negb].
    + rewrite IH. assert (a = deleted) as -> by (apply Hsame; [by left|done]).
      destruct (String.eqb (oid_str (a_question_id deleted)) x); [|done].
      cbn [List.filter]. unfold by_id in Ha. by rewrite Ha.
    + rewrite answers_to_cons, IH.
      destruct (String.eqb (oid_str (a_question_id a)) x); [|done].
      destruct (String.eqb (oid_str (a_question_id deleted)) x); [|done].
      cbn [List.filter]. unfold by_id in Ha. by rewrite Ha.
Qed.

Lemma answers_listed_same db db' :
  questions db' = questions db -> answers db' = answers db ->
  answers_listed db -> answers_listed db'.
Proof. unfold answers_listed. by intros -> ->. Qed.

Lemma answers_listed_appends db db' :
  appends_to_others db db' -> answers_listed db -> answers_listed db'.
Proof. intros (_ & Hq & Ha & _). by apply answers_listed_same. Qed.

Lemma answers_listed_update_answers (g : list Answer -> list Answer) db :
  (forall x, answers_to x (g (answers db)) = answers_to x (answers db)) ->
  answers_listed db -> answers_listed (set_answers (g (answers db)) db).
Proof.
  intros Hg. unfold answers_listed. cbn [questions answers set_answers].
  intros Hl. eapply Forall_impl; [exact Hl|]. intros q Hq. by rewrite Hg.
Qed.

Lemma answers_listed_update_questions p f db :
  (forall q, q_id (f q) = q_id q /\ q_answers (f q) = q_answers q) ->
  answers_listed db ->
  answers_listed (set_questions (Mongo.update_one p f (questions db)) db).
Proof.
  intros Hf. unfold answers_listed. cbn [questions answers set_questions].
  rewrite !Forall_forall. intros Hl q' [Hq|(q & Hq & ->)]%elem_of_update_one;
    [by apply Hl|].
  destruct (Hf q) as [-> ->]. by apply Hl.
Qed.

Lemma answers_listed_with_answer question_id doc db :
  NoDup (q_id <$> questions db) ->
  a_question_id doc = question_id ->
  answers_listed db -> answers_listed (with_answer question_id doc db).
Proof.
  intros Hnd Hdoc. unfold answers_listed, with_answer.
  cbn [questions answers set_questions set_answers]. unfold Mongo.insert_one.
  rewrite update_one_unique by done. rewrite !Forall_forall.
  intros Hl q' (q & -> & Hq)%elem_of_map. specialize (Hl q Hq).
  rewrite answers_to_app. unfold answers_to at 2. simpl. rewrite Hdoc.
  unfold by_id. rewrite (String.eqb_sym (oid_str question_id)).
  destruct (String.eqb_spec (q_id q) (oid_str question_id)) as [Heq|Hne]; simpl.
  - rewrite Heq, String.eqb_refl. simpl. by rewrite Hl, Heq.
  - apply String.eqb_neq in Hne. rewrite Hne. simpl. by rewrite app_nil_r.
Qed.

Lemma answers_listed_insert_question doc db :
  q_answers doc = [] ->
  q_id doc ∉ q_id <$> questions db ->
  references_exist db ->
  answers_listed db -> answers_listed (set_questions (questions db ++ [doc]) db).
Proof.
  intros Hdoc Hfresh Hrefs Hl. rewrite references_exist_alt in Hrefs.
  unfold answers_listed in *. cbn [questions answers set_questions].
  apply Forall_app. split; [done|]. apply Forall_singleton. rewrite Hdoc.
  unfold answers_to.
  destruct (List.filter _ (answers db)) as [|a l] eqn:Hfilter; [done|].
  exfalso.
  assert (Ha : In a (List.filter
                       (fun a => String.eqb (oid_str (a_question_id a)) (q_id doc))
                       (answers db))) by (rewrite Hfilter; by left).
  apply filter_In in Ha as [Ha Heq]. apply String.eqb_eq in Heq.
  apply Hfresh. rewrite <- Heq. by apply Hrefs, list_elem_of_In.
Qed.

Lemma answers_listed_delete_question question_id db :
  printed question_id ->
  Forall (fun a => printed (a_question_id a)) (answers db) ->
  NoDup (q_id <$> questions db) ->
  answers_listed db ->
  answers_listed
    (set_answers
       (Mongo.delete_many (fun a => String.eqb (a_question_id a) question_id) (answers db))
       (set_questions
          (Mongo.delete_one (by_id q_id (oid_str question_id)) (questions db)) db)).
Proof.
  intros Hpq Hp Hnd. unfold printed in Hpq. rewrite Hpq.
  unfold answers_listed. cbn [questions answers set_questions set_answers].
  rewrite delete_one_unique by done. rewrite !Forall_forall.
  intros Hl q [Hq Hne]%list_elem_of_In%filter_In. apply list_elem_of_In in Hq.
  rewrite answers_to_delete_many by done. unfold by_id in Hne.
  apply negb_true_iff in Hne. rewrite Hne. by apply Hl.
Qed.

Lemma answers_listed_accepted_in answer_id accepted db :
  answers_listed db -> answers_listed (accepted_in answer_id accepted db).
Proof.
  intros Hl. unfold accepted_in.
  apply (answers_listed_update_questions _ _ (set_answers _ db)); [done|].
  apply (answers_listed_update_answers
           (accept_in answer_id (a_question_id accepted))); [|done].
  intros x. unfold accept_in. by rewrite answers_to_update_one, answers_to_update_many.
Qed.

(** [$pull] takes the string of the request from the list; it is the id of
    the deleted answer when the request spells the id as printed. *)
Lemma answers_listed_deleted_in answer_id deleted db :
  printed answer_id ->
  NoDup (a_id <$> answers db) ->
  NoDup (q_id <$> questions db) ->
  Mongo.find_one (by_id a_id (oid_str answer_id)) (answers db) = Some deleted ->
  answers_listed db -> answers_listed (deleted_in answer_id deleted db).
Proof.
  intros Hpa Hna Hnq Hf Hl. unfold deleted_in. cbv zeta.
  unfold printed in Hpa. rewrite Hpa in *.
  assert (Hpulled : answers_listed
            (set_answers (Mongo.delete_one (by_id a_id answer_id) (answers db))
               (set_questions
                  (Mongo.update_one (by_id q_id (oid_str (a_question_id deleted)))
                     (answer.pull_answer answer_id) (questions db)) db))).
  { unfold answers_listed in *. cbn [questions answers set_questions set_answers].
    rewrite update_one_unique by done. rewrite !Forall_forall in *.
    intros q' (q & -> & Hq)%elem_of_map. specialize (Hl q Hq).
    rewrite (answers_to_delete_one _ _ deleted) by done.
    unfold by_id. rewrite (String.eqb_sym (oid_str (a_question_id deleted))).
    destruct (String.eqb (q_id q) (oid_str (a_question_id deleted))) eqn:E.
    - cbn [q_id q_answers answer.pull_answer answer.set_q_answers].
      by rewrite ?E, Hl.
    - by rewrite ?E. }
  destruct (a_is_accepted deleted); [|exact Hpulled].
  unfold answers_listed in *. cbn [questions answers set_questions set_answers] in *.
  rewrite !Forall_forall in *.
  intros q' [Hq|(q & Hq & ->)]%elem_of_update_one; [by apply Hpulled|].
  by apply (Hpulled q).
Qed.

Lemma vote_answer_state answer_id vote_action current_user db :
  (answer.vote_answer answer_id vote_action current_user db).2 = db \/
  exists d,
    (answer.vote_answer answer_id vote_action current_user db).2
    = set_answers
        (Mongo.update_one (by_id a_id (oid_str answer_id)) (answer.inc_votes d)
           (answers db)) db.
Proof.
  set (P := fun s : Database =>
              s = db \/
              exists d,
                s = set_answers
                      (Mongo.update_one (by_id a_id (oid_str answer_id))
                         (answer.inc_votes d) (answers db)) db).
  change (P (answer.vote_answer answer_id vote_action current_user db).2).
  assert (Hsame : P db) by (by left).
  unfold answer.vote_answer. unfold mbind at 1, Handler_bind at 1.
  rewrite find_answer_or_400_run.
  destruct (is_valid answer_id) eqn:Hv; [|done].
  destruct (Mongo.find_one (by_id a_id (oid_str answer_id)) (answers db)) as [voted|];
    [|done].
  destruct (String.eqb (a_user_id voted) (u_id current_user)); [done|].
  assert (Hread : forall db1 : Database, P db1 ->
    P ((updated_answer ← notification.find_answer_by_id answer_id;
        match updated_answer with
        | None => raise (Exception "TypeError")
        | Some updated_answer =>
            mret ("Vote " +:+ answer.action vote_action +:+ " applied successfully",
                  a_votes updated_answer)
        end) db1).2).
  { intros db1 HP. unfold notification.find_answer_by_id, ObjectId. rewrite Hv.
    unfold mbind, Handler_bind, mret, Handler_ret, read.
    by destruct (Mongo.find_one _ _). }
  destruct (String.eqb (answer.action vote_action) "upvote");
    [|destruct (String.eqb (answer.action vote_action) "downvote")];
    unfold mbind at 1, Handler_bind at 1; rewrite ?update_answer_run by done;
    apply Hread; try done; right; by eexists.
Qed.

Lemma create_answer_listed question_id answer_data current_user inserted_id db :
  NoDup (q_id <$> questions db) ->
  answers_listed db ->
  answers_listed
    (answer.create_answer question_id answer_data current_user inserted_id db).2.
Proof.
  intros Hnq Hl. unfold answer.create_answer. rewrite reraise_http_state.
  unfold mbind at 1, Handler_bind at 1. rewrite find_question_or_400_run.
  destruct (is_valid question_id) eqn:Hv; [|done].
  destruct (Mongo.find_one (by_id q_id (oid_str question_id)) (questions db))
    as [question|] eqn:Hf; [|done].
  destruct (toxic_spam_model.is_toxic _ _) as [[] score]; [done|].
  rewrite stored_answer_state; [|done|by intros [c|] db1].
  eapply answers_listed_appends;
    [apply (notification_steps_appends question_id answer_data current_user inserted_id)|].
  by apply answers_listed_with_answer.
Qed.

Lemma create_ai_answer_listed question_id current_user inserted_id db :
  NoDup (q_id <$> questions db) ->
  answers_listed db ->
  answers_listed (answer.create_ai_answer question_id current_user inserted_id db).2.
Proof.
  intros Hnq Hl. unfold answer.create_ai_answer. rewrite reraise_http_state.
  unfold mbind at 1, Handler_bind at 1. rewrite find_question_or_400_run.
  destruct (is_valid question_id) eqn:Hv; [|done].
  destruct (Mongo.find_one (by_id q_id (oid_str question_id)) (questions db))
    as [question|] eqn:Hf; [|done].
  destruct (negb _); [done|].
  destruct (PyStr.startswith _ _); [done|].
  rewrite stored_answer_state; [|done|by intros [c|] db1].
  eapply answers_listed_appends; [apply try_notify_new_answer_appends|].
  by apply answers_listed_with_answer.
Qed.

Lemma serve_listed r db :
  fresh r db -> as_printed r -> well_formed db ->
  answers_listed db -> answers_listed (serve r db).
Proof.
  intros Hfresh Hprinted [(Hna & Hnq & Hp & _) Hrefs] Hl. destruct r; simpl in *.
  - destruct (toxic_spam_model.is_toxic (combined_text question_data)
                toxic_spam_model.default_threshold).1 eqn:Hv.
    + by rewrite create_question_toxic.
    + eapply answers_listed_appends; [by apply create_question_inserts|].
      by apply answers_listed_insert_question.
  - rewrite delete_question_run.
    destruct (is_valid question_id); [|done].
    destruct (Mongo.find_one _ _); [|done].
    destruct (negb _ && negb _); [done|].
    apply answers_listed_delete_question; auto.
  - by apply create_answer_listed.
  - by apply create_ai_answer_listed.
  - destruct (vote_answer_state answer_id vote_action current_user db) as [->|[d ->]];
      [done|].
    apply (answers_listed_update_answers
             (Mongo.update_one (by_id a_id (oid_str answer_id)) (answer.inc_votes d)));
      [|done].
    intros x. by apply answers_to_update_one.
  - rewrite accept_answer_run.
    destruct (is_valid answer_id); [|done].
    destruct (Mongo.find_one (by_id a_id (oid_str answer_id)) (answers db))
      as [accepted|]; [|done].
    destruct (is_valid (a_question_id accepted)); [|done].
    destruct (Mongo.find_one _ (questions db)); [|done].
    destruct (String.eqb _ _); [|done]. cbn [snd].
    eapply answers_listed_appends; [apply notify_accepted_answer_appends|].
    by apply answers_listed_accepted_in.
  - rewrite delete_answer_run.
    destruct (is_valid answer_id); [|done].
    destruct (Mongo.find_one (by_id a_id (oid_str answer_id)) (answers db))
      as [deleted|] eqn:Hf; [|done].
    destruct (negb _ && negb _); [done|].
    destruct (is_valid (a_question_id deleted)); [|done]. cbn [snd].
    apply answers_listed_deleted_in; auto.
Qed.

Lemma reachable_listed db : reachable db -> answers_listed db.
Proof.
  induction 1 as [db Hq Ha|r db Hreach IH Hfresh Hprinted|db db' _ IH Hq Ha].
  - unfold answers_listed. rewrite Hq. constructor.
  - apply serve_listed; [done..| |done]. by apply reachable_well_formed.
  - by eapply answers_listed_same.
Qed.

(** X25.  In every store that the service reaches by serving requests that
    spell the ids of questions and answers as the service prints them (and
    with ids for new documents that are not in use), every question lists
    exactly the stored answers to it, in the order in which they were
    stored.  So the answers and the [answer_count] that [get_question]
    returns, for any spelling of the id, are those of the answers that are
    stored for the question. *)
Theorem answer_count_is_accurate (db : Database) :
  reachable db ->
  answers_listed db /\
  forall question_id response,
    (reads.get_question question_id db).1 = Return response ->
    question.r_answers response = answers_to (oid_str question_id) (answers db) /\
    question.r_answer_count response
    = Z.of_nat
        (length
           (List.filter
              (fun a => String.eqb (oid_str (a_question_id a)) (oid_str question_id))
              (answers db))).
Proof.
  intros Hl%reachable_listed. split; [done|].
  intros question_id response. rewrite get_question_run.
  destruct (is_valid question_id); [|done].
  destruct (Mongo.find_one (by_id q_id (oid_str question_id)) (questions db))
    as [found|] eqn:Hf; [|done].
  destruct (is_valid (q_user_id found)); [|done]. cbn [fst]. intros [= <-].
  cbn [question.r_answers question.r_answer_count].
  apply find_one_elem in Hf as [Hin Hid]. apply String.eqb_eq in Hid.
  unfold answers_listed in Hl. rewrite Forall_forall in Hl.
  rewrite (Hl found Hin), Hid. split; [done|]. unfold answers_to. by rewrite length_fmap.
Qed.

End Listed.

(** ** Suggested tags *)

Section Suggestions.
Context `{Bson} `{toxic_spam_model.Classifier} `{auto_tag.Models} `{PyList.SetOrder}.

(** X26.  [suggest_tags] writes nothing and suggests at most eight good
    tags, no tag twice.  Suggestion and submission fit together: a question
    submitted with exactly the suggested tags, when it passes moderation, is
    stored with exactly these tags, each once. *)
Theorem suggested_tags_are_stored (title description : string) (current_user : User)
    (db : Database) :
  exists suggested,
    reads.suggest_tags title description current_user db
    = (Return (suggested, "AI-generated tag suggestions based on your question content"),
       db) /\
    Forall single_word_tag suggested /\ NoDup suggested /\
    (length suggested <= 8)%nat /\
    forall (author : User) (inserted_id : string) (db1 : Database),
      let question_data :=
        {| question.title := title; question.description := description;
           question.tags := suggested |} in
      (toxic_spam_model.is_toxic (combined_text question_data)
         toxic_spam_model.default_threshold).1 = false ->
      exists doc,
        questions (question.create_question question_data author inserted_id db1).2
        = questions db1 ++ [doc] /\
        q_tags doc ≡ₚ suggested.
Proof.
  exists (auto_tag.extract_single_word_tags title description 8).
  destruct (extract_single_word_tags_bounded title description 8) as (Hgood & Hnd & Hlen).
  split; [reflexivity|]. split; [done|]. split; [done|]. split; [lia|].
  intros author inserted_id db1 question_data Hclean.
  exists (new_question_doc question_data author inserted_id). split.
  - destruct (create_question_inserts question_data author inserted_id db1 Hclean)
      as (_ & -> & _). reflexivity.
  - cbn [q_tags new_question_doc]. unfold question.final_tags, ai_suggested_tags.
    cbn [question.tags question.title question.description question_data].
    set (suggested := auto_tag.extract_single_word_tags title description 8) in *.
    assert (Hperm : PyList.list_of_set (suggested ++ suggested) ≡ₚ suggested).
    { apply NoDup_Permutation; [apply PyList.list_of_set_NoDup|done|].
      intros t. rewrite PyList.list_of_set_elem, elem_of_app. tauto. }
    rewrite slice_to_10, take_ge; [done|].
    rewrite Hperm. lia.
Qed.

End Suggestions.

(** ** The further properties on sample data *)

Lemma created_answer_reads_back_witness :
  exists response db',
    @answer.create_answer Examples.any_id Examples.no_classifier "q1"
      {| answer.content := "Use a key function." |} Examples.bob "a3" Examples.db0
    = (Return response, db') /\
    @reads.get_answer Examples.any_id "a3" db' = (Return response, db') /\
    answer.r_votes response = 0 /\ answer.r_is_accepted response = false.
Proof.
  destruct (@created_answer_reads_back Examples.any_id Examples.no_classifier Examples.db0
              "q1" {| answer.content := "Use a key function." |} Examples.bob "a3"
              Examples.q1 eq_refl eq_refl eq_refl eq_refl ltac:(by_evaluation) eq_refl)
    as (response & db' & Hrun & Hread & Hvotes & Haccepted).
  exists response, db'. split; [exact Hrun|]. split; [|by split].
  apply Hread; reflexivity.
Defined.

(** On ids as [bson] makes them: Bob deletes his answer, and neither
    spelling of its id finds it any more. *)
Lemma deleted_answer_is_gone_witness :
  let db' :=
    (@answer.delete_answer bson.hex_ids "64c000000000000000000001" Examples.hex_bob
       Examples.db_hex).2 in
  @reads.get_answer bson.hex_ids "64C000000000000000000001" db'
  = (Raise (HTTPException 404 "Answer not found"), db') /\
  Forall (fun q => q_id q = "64b000000000000000000001" ->
                   "64c000000000000000000001" ∉ q_answers q)
    (questions db').
Proof.
  cbv zeta.
  destruct (@deleted_answer_is_gone bson.hex_ids Examples.db_hex
              (@answer.delete_answer bson.hex_ids "64c000000000000000000001"
                 Examples.hex_bob Examples.db_hex).2
              "64c000000000000000000001" Examples.hex_bob
              ltac:(by_evaluation) ltac:(by_evaluation) eq_refl)
    as (deleted & Hf & Hid & Hgone & _ & Hlisted).
  split; [by apply Hgone|].
  injection Hf as <-. by apply Hlisted.
Defined.

Lemma unprinted_delete_keeps_the_listing_witness :
  let db' :=
    (@answer.delete_answer bson.hex_ids "64C000000000000000000001" Examples.hex_bob
       Examples.db_hex).2 in
  (a_id Examples.hex_a1 ∉ a_id <$> answers db') /\
  exists question',
    Mongo.find_one (by_id q_id "64b000000000000000000001") (questions db')
    = Some question' /\
    q_answers question' = ["64c000000000000000000001"; "64c000000000000000000002"].
Proof.
  cbv zeta.
  apply (@unprinted_delete_keeps_the_listing bson.hex_ids Examples.db_hex
           (@answer.delete_answer bson.hex_ids "64C000000000000000000001"
              Examples.hex_bob Examples.db_hex).2
           "64C000000000000000000001" Examples.hex_bob Examples.hex_a1 Examples.hex_q1).
  - by_evaluation.
  - reflexivity.
  - reflexivity.
  - reflexivity.
  - by_evaluation.
Defined.

Lemma created_question_reads_back_witness :
  exists response db',
    @question.create_question Examples.any_id Examples.no_classifier Examples.no_taggers
      Examples.first_seen Examples.sorting_question Examples.alice "q1" Examples.db_start
    = (Return response, db') /\
    @reads.get_question Examples.any_id "q1" db' = (Return response, db') /\
    question.r_answer_count response = 0 /\
    question.r_accepted_answer response = None.
Proof.
  destruct (@created_question_reads_back Examples.any_id Examples.no_classifier
              Examples.no_taggers Examples.first_seen Examples.db_start
              Examples.sorting_question Examples.alice "q1"
              eq_refl eq_refl eq_refl ltac:(by_evaluation) eq_refl)
    as (response & db' & Hrun & Hread & Hcount & Haccepted).
  exists response, db'. split; [exact Hrun|]. split; [|by split].
  apply Hread; reflexivity.
Defined.

Lemma create_question_fails_after_writing_witness :
  exists what db',
    @question.create_question Examples.any_id Examples.no_classifier Examples.no_taggers
      Examples.first_seen Examples.mentioning_question Examples.alice "q2"
      Examples.db_refusing
    = (Raise (Exception what), db') /\
    questions db'
    = questions Examples.db_refusing
      ++ [@new_question_doc Examples.no_classifier Examples.no_taggers Examples.first_seen
            Examples.mentioning_question Examples.alice "q2"].
Proof.
  apply (@create_question_fails_after_writing Examples.any_id Examples.no_classifier
           Examples.no_taggers Examples.first_seen Examples.db_refusing
           Examples.mentioning_question Examples.alice "q2" Refused []);
    try reflexivity; discriminate.
Defined.

(** On ids as [bson] makes them: Alice deletes her question, and its two
    answers go with it. *)
Lemma deleted_question_takes_its_answers_witness :
  let db' :=
    (@question.delete_question bson.hex_ids "64b000000000000000000001" Examples.hex_alice
       Examples.db_hex).2 in
  @reads.get_question bson.hex_ids "64B000000000000000000001" db'
  = (Raise (HTTPException 404 "Question not found"), db') /\
  Forall (fun a => @oid_str bson.hex_ids (a_question_id a) <> "64b000000000000000000001")
    (answers db').
Proof.
  cbv zeta.
  destruct (@deleted_question_takes_its_answers bson.hex_ids Examples.db_hex
              (@question.delete_question bson.hex_ids "64b000000000000000000001"
                 Examples.hex_alice Examples.db_hex).2
              "64b000000000000000000001" Examples.hex_alice ltac:(by_evaluation) eq_refl)
    as (Hgone & _ & _ & Hanswers & _).
  split; [by apply Hgone|].
  apply Hanswers; [reflexivity|]. repeat constructor.
Defined.

Lemma strangers_change_nothing_witness :
  exists e,
    @answer.accept_answer Examples.any_id "a2" Examples.carol Examples.db0
    = (Raise e, Examples.db0).
Proof.
  destruct (@strangers_change_nothing Examples.any_id Examples.db0 Examples.carol "a2")
    as (_ & _ & Haccept); [|exact Haccept].
  repeat constructor. discriminate.
Defined.

Lemma ai_answer_outcomes_witness :
  exists db',
    (@answer.create_ai_answer Examples.any_id Examples.canned_llm "q1" Examples.carol "a3"
       Examples.db0).1
    = Return
        (answer.response
           (@ai_answer_doc Examples.canned_llm Examples.q1 "q1" Examples.carol "a3")
           "carol (AI-assisted)" "admin") /\
    (@answer.create_ai_answer Examples.any_id Examples.canned_llm "q1" Examples.carol "a3"
       Examples.db0).2 = db' /\
    List.map n_user_id (notifications db') = ["u1"].
Proof.
  destruct (@ai_answer_outcomes Examples.any_id Examples.canned_llm Examples.db0 "q1"
              Examples.carol "a3" Examples.q1 eq_refl eq_refl) as (_ & _ & Hstored).
  destruct Hstored as (db' & Hrun & _ & _ & Hnotified);
    [by left|reflexivity|reflexivity|reflexivity|by_evaluation|].
  exists db'. rewrite Hrun. split; [reflexivity|]. split; [reflexivity|].
  rewrite Hnotified by reflexivity. reflexivity.
Defined.

(** On ids as [bson] makes them and the collections of the service: a
    question, two answers, and the first answer deleted again. *)
Lemma answer_count_is_accurate_witness :
  let served :=
    @serve bson.hex_ids Examples.no_classifier Examples.no_taggers
      Examples.first_seen Examples.no_llm in
  @answers_listed bson.hex_ids
    (served (DeleteAnswer "64c000000000000000000001" Examples.hex_bob)
       (served (CreateAnswer "64b000000000000000000001"
                  {| answer.content := "Use the sort method." |}
                  Examples.hex_carol "64c000000000000000000002")
          (served (CreateAnswer "64b000000000000000000001"
                     {| answer.content := "Call sorted on it." |}
                     Examples.hex_bob "64c000000000000000000001")
             (served (CreateQuestion Examples.sorting_question Examples.hex_alice
                        "64b000000000000000000001")
                Examples.db_hex_start)))).
Proof.
  intros served.
  apply (@answer_count_is_accurate bson.hex_ids Examples.no_classifier
           Examples.no_taggers Examples.first_seen Examples.no_llm).
  repeat (apply reachable_serve;
          [|by_evaluation || exact I|(intros _; reflexivity) || exact I]).
  by apply reachable_start.
Defined.

(** [delete_question] under an upper-case spelling of the id: the question
    is deleted, and its answers, which hold the id in lower case, stay. *)
Example unprinted_delete_question_leaves_the_answers :
  let db' :=
    (@question.delete_question bson.hex_ids "64B000000000000000000001" Examples.hex_alice
       Examples.db_hex).2 in
  questions db' = [] /\
  List.map a_id (answers db') = ["64c000000000000000000001"; "64c000000000000000000002"].
Proof. split; reflexivity. Qed.

(** Reading back under another spelling: Carol's new answer is found under
    the upper-case spelling of its id as well. *)
Example get_answer_reads_every_spelling :
  let created :=
    @answer.create_answer bson.hex_ids Examples.no_classifier "64b000000000000000000001"
      {| answer.content := "Use a key function." |} Examples.hex_carol
      "64c000000000000000000003" Examples.db_hex in
  (@reads.get_answer bson.hex_ids "64C000000000000000000003" created.2).1 = created.1 /\
  (@reads.get_answer bson.hex_ids "64c000000000000000000003" created.2).1 = created.1 /\
  exists response, created.1 = Return response.
Proof. split; [reflexivity|]. split; [reflexivity|]. by eexists. Qed.

(** Alice mentions Bob and Carol; Bob cannot mark Carol's notification [n1]
    and is told that the id is invalid; he marks his own, [n0]. *)
Example mark_notification_read_sample :
  let db :=
    (@notification.notify_mentions Examples.any_id "@bob and @carol, look" "u1"
       (Some "q1") None Examples.db0).2 in
  let marked :=
    @notification_routes.mark_notification_read Examples.any_id Examples.numbered in
  List.map n_user_id (notifications db) = ["u2"; "u3"] /\
  marked "n1" Examples.bob db
  = (Raise (HTTPException 400 "Invalid notification ID"), db) /\
  (marked "n0" Examples.bob db).1 = Return "Notification marked as read" /\
  List.map n_read (notifications (marked "n0" Examples.bob db).2) = [true; false] /\
  (notification_routes.get_notification_stats Examples.bob
     (marked "n0" Examples.bob db).2).1
  = Return {| notification_routes.unread_count := 0;
              notification_routes.total_count := 1 |}.
Proof. repeat split; vm_compute; reflexivity. Qed.

(** Dave, a guest, upgrades himself. *)
Example upgrade_guest_users_sample :
  (auth.upgrade_guest_users_to_user Examples.dave Examples.db_guest).1
  = Return ("Successfully upgraded 1 guest users to user role", 1) /\
  List.map u_role
    (users (auth.upgrade_guest_users_to_user Examples.dave Examples.db_guest).2)
  = ["user"; "user"; "admin"].
Proof. split; vm_compute; reflexivity. Qed.

(** ** The answer generator behind [create_ai_answer] *)

Example generate_chatgpt_answer_sample :
  @ai_generated_answer.generate_chatgpt_answer Examples.chatty_client "How to sort?" 3
    "gpt-3.5-turbo"
  = "Use sorted. It returns a list! Is that all?" /\
  ai_generated_answer.split_sentences false "a. . b?c  d!  " = ["a."; "."; "b?c  d!"; ""] /\
  ai_generated_answer.remove_html_and_emojis "<> a <b x> c <d" = "<> a  c <d".
Proof. repeat split; vm_compute; reflexivity. Qed.

Section NoTags.
Import ai_generated_answer.

Lemma occurs_sub_html_tags c inside s :
  occurs c (sub_html_tags inside s) = true -> occurs c s = true.
Proof.
  revert inside. induction s as [|d s IH]; intros inside; simpl; [done|].
  destruct inside.
  - intros Hin%IH. rewrite Hin. apply orb_true_r.
  - destruct (Ascii.eqb d "<" && opens s).
    + intros Hin%IH. rewrite Hin. apply orb_true_r.
    + simpl. intros [->|Hin%IH]%orb_true_iff; [done|]. rewrite Hin. apply orb_true_r.
Qed.

Lemma opens_occurs s : opens s = true -> occurs ">" s = true.
Proof.
  destruct s as [|c r]; simpl; [done|].
  intros [_ ->]%andb_true_iff. apply orb_true_r.
Qed.

Lemma opens_sub_html_tags s : opens s = false -> opens (sub_html_tags false s) = false.
Proof.
  destruct s as [|c r]; [done|]. cbn [opens]. intros Hopens.
  destruct (Ascii.eqb_spec c ">") as [->|Hc]; [reflexivity|].
  apply Ascii.eqb_neq in Hc. cbn [negb andb] in Hopens.
  destruct (opens (sub_html_tags false (String c r))) eqn:E; [|done].
  apply opens_occurs, occurs_sub_html_tags in E. cbn [occurs] in E.
  rewrite Hc, Hopens in E. done.
Qed.

Lemma tag_free_sub_html_tags inside s : tag_free (sub_html_tags inside s) = true.
Proof.
  revert inside. induction s as [|c s IH]; intros inside; simpl; [done|].
  destruct inside; [apply IH|].
  destruct (Ascii.eqb c "<" && opens s) eqn:E; [apply IH|].
  cbn [tag_free]. rewrite IH, andb_true_r. apply negb_true_iff.
  apply andb_false_iff in E as [->|E]; [done|].
  rewrite (opens_sub_html_tags s E). apply andb_false_r.
Qed.

Lemma tag_free_lstrip s : tag_free s = true -> tag_free (PyStr.lstrip s) = true.
Proof.
  induction s as [|c s IH]; [done|]. cbn [PyStr.lstrip].
  destruct (PyStr.is_space c); [|done].
  cbn [tag_free]. intros [_ Hs]%andb_true_iff. by apply IH.
Qed.

Lemma occurs_rstrip c s : occurs c (PyStr.rstrip s) = true -> occurs c s = true.
Proof.
  induction s as [|d s IH]; [done|]. cbn [PyStr.rstrip occurs].
  destruct (PyStr.rstrip s) as [|d' r'].
  - destruct (PyStr.is_space d); [done|]. cbn [occurs]. rewrite orb_false_r.
    by intros ->.
  - cbn [occurs] in *. intros [->|Hin]%orb_true_iff; [done|].
    rewrite (IH Hin). apply orb_true_r.
Qed.

Lemma opens_rstrip s : opens (PyStr.rstrip s) = true -> opens s = true.
Proof.
  destruct s as [|c r]; [done|]. cbn [PyStr.rstrip].
  pose proof (occurs_rstrip ">" r) as Hocc.
  destruct (PyStr.rstrip r) as [|d' r'].
  - destruct (PyStr.is_space c); cbn [opens occurs]; rewrite ?andb_false_r; done.
  - cbn [opens]. intros [-> Hin]%andb_true_iff. by rewrite (Hocc Hin).
Qed.

Lemma tag_free_rstrip s : tag_free s = true -> tag_free (PyStr.rstrip s) = true.
Proof.
  induction s as [|c s IH]; [done|]. cbn [tag_free].
  intros [Hc Hs]%andb_true_iff. specialize (IH Hs). cbn [PyStr.rstrip].
  pose proof (opens_rstrip s) as Hopens.
  destruct (PyStr.rstrip s) as [|d' r'].
  - destruct (PyStr.is_space c); [done|]. cbn [tag_free opens].
    by rewrite andb_false_r.
  - change (tag_free (String c (String d' r')))
      with (negb (Ascii.eqb c "<" && opens (String d' r')) && tag_free (String d' r')).
    rewrite IH, andb_true_r.
    apply negb_true_iff. apply negb_true_iff in Hc.
    apply andb_false_iff in Hc as [->|Hc]; [done|].
    destruct (opens (String d' r')); [|apply andb_false_r].
    by rewrite Hopens in Hc.
Qed.

Lemma sub_html_tags_tag_free s : tag_free s = true -> sub_html_tags false s = s.
Proof.
  induction s as [|c s IH]; [done|]. cbn [tag_free sub_html_tags].
  intros [Hc Hs]%andb_true_iff. apply negb_true_iff in Hc. by rewrite Hc, IH.
Qed.

(** X29.  [remove_html_and_emojis] leaves no tag behind: in what it
    returns the pattern [<[^>]+>] matches nowhere, and there is no
    whitespace at either end; removing again changes nothing. *)
Theorem no_tag_is_left (text : string) :
  tag_free (remove_html_and_emojis text) = true /\
  PyStr.strip (remove_html_and_emojis text) = remove_html_and_emojis text /\
  remove_html_and_emojis (remove_html_and_emojis text) = remove_html_and_emojis text.
Proof.
  assert (Hfree : tag_free (remove_html_and_emojis text) = true).
  { unfold remove_html_and_emojis, PyStr.strip.
    apply tag_free_rstrip, tag_free_lstrip, tag_free_sub_html_tags. }
  assert (Hstrip : PyStr.strip (remove_html_and_emojis text) = remove_html_and_emojis text).
  { unfold remove_html_and_emojis. apply strip_idemp. }
  split; [done|]. split; [done|].
  unfold remove_html_and_emojis at 1. by rewrite (sub_html_tags_tag_free _ Hfree).
Qed.

End NoTags.

Section Generated.
Context `{Bson} `{ai_generated_answer.Client}.

Lemma allowed_role current_user :
  u_role current_user = "admin" \/ u_role current_user = "user" ->
  negb (String.eqb (u_role current_user) "admin" || String.eqb (u_role current_user) "user")
  = false.
Proof. intros [->| ->]; reflexivity. Qed.

(** X27.  Without a client (no API key), the generator returns a notice, and
    the notice does not start with [Error:].  So [create_ai_answer], for a
    caller with the role [admin] or [user] on an existing question, stores
    the notice as an answer marked as generated and returns it. *)
Theorem unavailable_client_posts_the_notice (db : Database) (question_id : string)
    (current_user : User) (inserted_id : string) (question : Question) :
  ai_generated_answer.AI_AVAILABLE = false ->
  is_valid question_id = true ->
  Mongo.find_one (by_id q_id (oid_str question_id)) (questions db) = Some question ->
  u_role current_user = "admin" \/ u_role current_user = "user" ->
  inserted_id ∉ a_id <$> answers db ->
  exists response db' doc,
    @answer.create_ai_answer _ ai_generated_answer.chatgpt question_id current_user
      inserted_id db = (Return response, db') /\
    answer.r_content response = ai_generated_answer.unavailable_notice /\
    answers db' = answers db ++ [doc] /\
    a_content doc = ai_generated_answer.unavailable_notice /\
    a_ai_generated doc = true /\ a_user_id doc = u_id current_user.
Proof.
  intros Hai Hv Hf Hrole Hfresh.
  rewrite (create_ai_answer_run _ _ _ question) by done. cbv zeta.
  rewrite (allowed_role _ Hrole).
  set (doc := @ai_answer_doc ai_generated_answer.chatgpt question question_id current_user
                inserted_id).
  assert (Hcontent : a_content doc = ai_generated_answer.unavailable_notice).
  { cbn [a_content doc ai_answer_doc answer.generate_chatgpt_answer
           ai_generated_answer.chatgpt].
    unfold ai_generated_answer.generate_chatgpt_answer. by rewrite Hai. }
  rewrite Hcontent.
  change (PyStr.startswith "Error:" ai_generated_answer.unavailable_notice) with false.
  cbv iota.
  rewrite (find_by_id_app_fresh a_id inserted_id (answers db) doc eq_refl Hfresh).
  destruct (try_notify_new_answer_appends question_id inserted_id (u_id current_user)
              (with_answer question_id doc db)) as (_ & _ & Hanswers & _).
  eexists _, _, doc. split; [reflexivity|]. split; [exact Hcontent|].
  split; [by rewrite Hanswers|]. done.
Qed.

(** X28.  When the call of the client raises, the generator returns a text
    that starts with [Error:], and [create_ai_answer] answers HTTP 500 and
    writes nothing. *)
Theorem failed_generation_writes_nothing (db : Database) (question_id : string)
    (current_user : User) (inserted_id : string) (question : Question) (e : exn) :
  ai_generated_answer.AI_AVAILABLE = true ->
  ai_generated_answer.chat_completion "gpt-3.5-turbo"
    (ai_generated_answer.prompt (q_title question +:+ " - " +:+ q_description question) 15)
  = Raise e ->
  is_valid question_id = true ->
  Mongo.find_one (by_id q_id (oid_str question_id)) (questions db) = Some question ->
  u_role current_user = "admin" \/ u_role current_user = "user" ->
  ai_generated_answer.generate_chatgpt_answer
    (q_title question +:+ " - " +:+ q_description question) 15 "gpt-3.5-turbo"
  = "Error: " +:+ ai_generated_answer.str_of_exn e /\
  @answer.create_ai_answer _ ai_generated_answer.chatgpt question_id current_user
    inserted_id db
  = (Raise (HTTPException 500
              "AI answer generation is currently unavailable. Please try again later."),
     db).
Proof.
  intros Hai Hcall Hv Hf Hrole.
  assert (Hgen : ai_generated_answer.generate_chatgpt_answer
                   (q_title question +:+ " - " +:+ q_description question) 15
                   "gpt-3.5-turbo"
                 = "Error: " +:+ ai_generated_answer.str_of_exn e).
  { unfold ai_generated_answer.generate_chatgpt_answer. by rewrite Hai, Hcall. }
  split; [exact Hgen|].
  rewrite (create_ai_answer_run _ _ _ question) by done. cbv zeta.
  rewrite (allowed_role _ Hrole).
  cbn [a_content ai_answer_doc answer.generate_chatgpt_answer ai_generated_answer.chatgpt].
  rewrite Hgen. reflexivity.
Qed.

End Generated.

Lemma unavailable_client_posts_the_notice_witness :
  exists response db' doc,
    @answer.create_ai_answer Examples.any_id
      (@ai_generated_answer.chatgpt Examples.no_client) "q1" Examples.bob "a3" Examples.db0
    = (Return response, db') /\
    answer.r_content response = ai_generated_answer.unavailable_notice /\
    answers db' = answers Examples.db0 ++ [doc] /\
    a_content doc = ai_generated_answer.unavailable_notice /\
    a_ai_generated doc = true /\ a_user_id doc = "u2".
Proof.
  apply (@unavailable_client_posts_the_notice Examples.any_id Examples.no_client
           Examples.db0 "q1" Examples.bob "a3" Examples.q1);
    [reflexivity|reflexivity|reflexivity|by right|by_evaluation].
Defined.

Lemma failed_generation_writes_nothing_witness :
  @answer.create_ai_answer Examples.any_id
    (@ai_generated_answer.chatgpt Examples.failing_client) "q1" Examples.bob "a3"
    Examples.db0
  = (Raise (HTTPException 500
              "AI answer generation is currently unavailable. Please try again later."),
     Examples.db0).
Proof.
  destruct (@failed_generation_writes_nothing Examples.any_id Examples.failing_client
              Examples.db0 "q1" Examples.bob "a3" Examples.q1
              (Exception "Request timed out.") eq_refl eq_refl eq_refl eq_refl
              ltac:(by right)) as [_ Hrun].
  exact Hrun.
Defined.
